(** * toki: media renaming and date-based organisation

  A shallow embedding of [src/toki/utils.py] and [src/toki/main.py]
  together with the library calls they rely on (hashlib, datetime,
  pathlib, os, shutil), followed by the properties of the naming and
  routing pipeline. *)

From Stdlib Require Import ZArith String Ascii List Lia Bool Eqdep_dec.
From Stdlib.Strings Require Import Byte.
From stdpp Require Import gmap strings list fin_maps pretty.

Local Open Scope string_scope.
Local Open Scope list_scope.

(** ** Python [str] helpers *)

Module Str.

(** [c.lower()] on one character; only the ASCII letters change. *)
Definition lower_char (c : ascii) : ascii :=
  let n := nat_of_ascii c in
  if (65 <=? n)%nat && (n <=? 90)%nat then ascii_of_nat (n + 32) else c.

(** [s.lower()] *)
Fixpoint lower (s : string) : string :=
  match s with
  | EmptyString => EmptyString
  | String c s' => String (lower_char c) (lower s')
  end.

Definition upper_char (c : ascii) : ascii :=
let n := nat_of_ascii c in
if (97 <=? n)%nat && (n <=? 122)%nat then ascii_of_nat (n - 32) else c.

(** [s.capitalize()] *)
Definition capitalize (s : string) : string :=
match s with
| EmptyString => EmptyString
| String c s' => String (upper_char c) (lower s')
end.

(** [s.replace(a, b)] for single-character [a] and [b]. *)
Fixpoint replace (a b : ascii) (s : string) : string :=
  match s with
  | EmptyString => EmptyString
  | String c s' => String (if Ascii.eqb c a then b else c) (replace a b s')
  end.

(** [c in s] for a single character [c]. *)
Fixpoint contains (c : ascii) (s : string) : bool :=
  match s with
  | EmptyString => false
  | String a s' => Ascii.eqb a c || contains c s'
  end.

(** [s.rfind(c)]: the index of the last occurrence of [c], [None] for
    Python's [-1]. *)
Fixpoint rfind (c : ascii) (s : string) : option nat :=
  match s with
  | EmptyString => None
  | String a s' =>
      match rfind c s' with
      | Some i => Some (S i)
      | None => if Ascii.eqb a c then Some 0%nat else None
      end
  end.

(** [s[:n]] for a natural [n]. *)
Fixpoint take (n : nat) (s : string) : string :=
  match n, s with
  | S n', String c s' => String c (take n' s')
  | _, _ => EmptyString
  end.

(** [s[n:]] for a natural [n]. *)
Fixpoint drop (n : nat) (s : string) : string :=
  match n, s with
  | S n', String _ s' => drop n' s'
  | _, _ => s
  end.

(** [s[:n]] for a Python integer [n]: a negative bound counts from the
    end of the string and is clipped at its start. *)
Definition slice_to (s : string) (n : Z) : string :=
  if (0 <=? n)%Z then take (Z.to_nat n) s
  else take (Z.to_nat (Z.max 0 (Z.of_nat (String.length s) + n))) s.

(** [c * n] for a character [c] *)
Fixpoint repeat (c : ascii) (n : nat) : string :=
match n with
| O => EmptyString
| S n' => String c (repeat c n')
end.


(** Every character of [s] satisfies [f]. *)
Fixpoint all (f : ascii -> bool) (s : string) : bool :=
  match s with
  | EmptyString => true
  | String c s' => f c && all f s'
  end.

Definition is_digit (c : ascii) : bool :=
  let n := nat_of_ascii c in (48 <=? n)%nat && (n <=? 57)%nat.

(** [repr(s)] for a string of printable characters without a quote or a
    backslash: the string between single quotes. *)
Definition repr (s : string) : string := "'" +:+ s +:+ "'".

Definition is_hex (c : ascii) : bool :=
  let n := nat_of_ascii c in
  is_digit c || ((97 <=? n)%nat && (n <=? 102)%nat).

End Str.

(** ** hashlib.md5 (RFC 1321) on 32-bit words held in [Z] *)

Module MD5.
Local Open Scope Z_scope.

Definition mask32 : Z := 0xFFFFFFFF.
Definition add32 (x y : Z) : Z := Z.land (x + y) mask32.
Definition not32 (x : Z) : Z := Z.lxor x mask32.
Definition rotl32 (x c : Z) : Z :=
  Z.land (Z.lor (Z.shiftl x c) (Z.shiftr x (32 - c))) mask32.

Definition shifts : list Z :=
  [7; 12; 17; 22; 7; 12; 17; 22; 7; 12; 17; 22; 7; 12; 17; 22;
   5; 9; 14; 20; 5; 9; 14; 20; 5; 9; 14; 20; 5; 9; 14; 20;
   4; 11; 16; 23; 4; 11; 16; 23; 4; 11; 16; 23; 4; 11; 16; 23;
   6; 10; 15; 21; 6; 10; 15; 21; 6; 10; 15; 21; 6; 10; 15; 21].

Definition sines : list Z :=
  [0xd76aa478; 0xe8c7b756; 0x242070db; 0xc1bdceee;
   0xf57c0faf; 0x4787c62a; 0xa8304613; 0xfd469501;
   0x698098d8; 0x8b44f7af; 0xffff5bb1; 0x895cd7be;
   0x6b901122; 0xfd987193; 0xa679438e; 0x49b40821;
   0xf61e2562; 0xc040b340; 0x265e5a51; 0xe9b6c7aa;
   0xd62f105d; 0x02441453; 0xd8a1e681; 0xe7d3fbc8;
   0x21e1cde6; 0xc33707d6; 0xf4d50d87; 0x455a14ed;
   0xa9e3e905; 0xfcefa3f8; 0x676f02d9; 0x8d2a4c8a;
   0xfffa3942; 0x8771f681; 0x6d9d6122; 0xfde5380c;
   0xa4beea44; 0x4bdecfa9; 0xf6bb4b60; 0xbebfbc70;
   0x289b7ec6; 0xeaa127fa; 0xd4ef3085; 0x04881d05;
   0xd9d4d039; 0xe6db99e5; 0x1fa27cf8; 0xc4ac5665;
   0xf4292244; 0x432aff97; 0xab9423a7; 0xfc93a039;
   0x655b59c3; 0x8f0ccc92; 0xffeff47d; 0x85845dd1;
   0x6fa87e4f; 0xfe2ce6e0; 0xa3014314; 0x4e0811a1;
   0xf7537e82; 0xbd3af235; 0x2ad7d2bb; 0xeb86d391].

Record state := State { sa : Z; sb : Z; sc : Z; sd : Z }.

Definition init : state :=
  State 0x67452301 0xefcdab89 0x98badcfe 0x10325476.

(** One of the 64 operations of a block; [m] holds its 16 words. *)
Definition round (m : list Z) (st : state) (i : nat) : state :=
  let '(State a b c d) := st in
  let iz := Z.of_nat i in
  let '(f, g) :=
    if (i <? 16)%nat then (Z.lor (Z.land b c) (Z.land (not32 b) d), iz)
    else if (i <? 32)%nat then
      (Z.lor (Z.land d b) (Z.land (not32 d) c), (5 * iz + 1) mod 16)
    else if (i <? 48)%nat then (Z.lxor (Z.lxor b c) d, (3 * iz + 5) mod 16)
    else (Z.lxor c (Z.lor b (not32 d)), (7 * iz) mod 16) in
  let f' := add32 (add32 (add32 f a) (nth i sines 0)) (nth (Z.to_nat g) m 0) in
  State d (add32 b (rotl32 f' (nth i shifts 0))) b c.

Definition compress (st : state) (m : list Z) : state :=
  let '(State a b c d) := fold_left (round m) (seq 0 64) st in
  State (add32 (sa st) a) (add32 (sb st) b) (add32 (sc st) c) (add32 (sd st) d).

(** Little-endian bytes of a [w]-byte quantity and back. *)
Fixpoint le_bytes (w : nat) (x : Z) : list Z :=
  match w with
  | O => []
  | S w' => Z.land x 255 :: le_bytes w' (Z.shiftr x 8)
  end.

Fixpoint le_word (bs : list Z) : Z :=
  match bs with
  | [] => 0
  | b :: bs' => b + 256 * le_word bs'
  end.

(** The message followed by 0x80, zeros up to 56 modulo 64, and the bit
    length on 64 bits. *)
Definition pad (msg : list Z) : list Z :=
  let n := Z.of_nat (length msg) in
  let zeros := Z.to_nat ((55 - n) mod 64) in
  msg ++ 128 :: repeat 0 zeros ++ le_bytes 8 (Z.land (8 * n) 0xFFFFFFFFFFFFFFFF).

(** Consecutive groups of [k] elements; [fuel] bounds their number. *)
Fixpoint groups {A} (fuel k : nat) (l : list A) : list (list A) :=
  match fuel, l with
  | O, _ | _, [] => []
  | S fuel', _ => firstn k l :: groups fuel' k (skipn k l)
  end.

Definition blocks (bytes : list Z) : list (list Z) :=
  map (fun blk => map le_word (groups 16 4 blk))
      (groups (length bytes) 64 bytes).

Definition digest_state (msg : list Z) : state :=
  fold_left compress (blocks (pad msg)) init.

(** [md5.digest()]: 16 bytes. *)
Definition digest (msg : list byte) : list Z :=
  let '(State a b c d) := digest_state (map (fun b => Z.of_N (Byte.to_N b)) msg) in
  le_bytes 4 a ++ le_bytes 4 b ++ le_bytes 4 c ++ le_bytes 4 d.

Definition hex_digit (n : Z) : ascii :=
  nth (Z.to_nat n) (list_ascii_of_string "0123456789abcdef") "0"%char.

Fixpoint hex (bs : list Z) : string :=
  match bs with
  | [] => EmptyString
  | b :: bs' => String (hex_digit (Z.shiftr b 4)) (String (hex_digit (Z.land b 15)) (hex bs'))
  end.

(** [md5.hexdigest()] *)
Definition hexdigest (msg : list byte) : string := hex (digest msg).

End MD5.

(** ** datetime: calendar values, [strptime], [strftime], [fromtimestamp] *)

Module DateTime.
Local Open Scope Z_scope.

Definition is_leap (y : Z) : bool :=
  (y mod 4 =? 0) && (negb (y mod 100 =? 0) || (y mod 400 =? 0)).

Definition days_in_month (y m : Z) : Z :=
  if m =? 2 then (if is_leap y then 29 else 28)
  else if (m =? 4) || (m =? 6) || (m =? 9) || (m =? 11) then 30
  else 31.

(** The range checks of the [datetime] constructor (MINYEAR = 1,
    MAXYEAR = 9999). *)
Definition in_range (y m d H M S : Z) : bool :=
  (1 <=? y) && (y <=? 9999) && (1 <=? m) && (m <=? 12)
  && (1 <=? d) && (d <=? days_in_month y m)
  && (0 <=? H) && (H <=? 23) && (0 <=? M) && (M <=? 59)
  && (0 <=? S) && (S <=? 59).

(** A [datetime.datetime] object: its fields always pass the constructor's
    checks. *)
Record datetime := DT {
  year : Z; month : Z; day : Z; hour : Z; minute : Z; second : Z;
  checked : in_range year month day hour minute second = true
}.

(** [datetime.datetime(y, m, d, H, M, S)]; [None] stands for the
    [ValueError] of an out-of-range field. *)
Definition make (y m d H M S : Z) : option datetime :=
  match Bool.bool_dec (in_range y m d H M S) true with
  | left ok => Some (DT y m d H M S ok)
  | right _ => None
  end.

Definition digit (n : Z) : ascii :=
  nth (Z.to_nat n) (list_ascii_of_string "0123456789") "0"%char.

Definition pad2 (n : Z) : string :=
  String (digit (n / 10)) (String (digit (n mod 10)) EmptyString).

Definition pad4 (n : Z) : string :=
  String (digit (n / 1000)) (String (digit (n / 100 mod 10)) (pad2 (n mod 100))).

(** [%Y] as CPython 3.11 prints it through the C library of Linux: the
    year in decimal without padding, so a year below 1000 has fewer than
    four digits. *)
Definition year_digits (y : Z) : string :=
  if y <? 10 then String (digit y) EmptyString
  else if y <? 100 then pad2 y
  else if y <? 1000 then String (digit (y / 100)) (pad2 (y mod 100))
  else pad4 y.

(** The conversions that the formats of this program use. Any other
    directive is left as it is. *)
Definition directive (dt : datetime) (c : ascii) : string :=
  if Ascii.eqb c "Y" then year_digits (year dt)
  else if Ascii.eqb c "m" then pad2 (month dt)
  else if Ascii.eqb c "d" then pad2 (day dt)
  else if Ascii.eqb c "H" then pad2 (hour dt)
  else if Ascii.eqb c "M" then pad2 (minute dt)
  else if Ascii.eqb c "S" then pad2 (second dt)
  else String "%" (String c EmptyString).

(** [dt.strftime(fmt)] *)
Fixpoint strftime (dt : datetime) (fmt : string) : string :=
  match fmt with
  | EmptyString => EmptyString
  | String c rest =>
      if Ascii.eqb c "%" then
        match rest with
        | String k rest' => directive dt k +:+ strftime dt rest'
        | EmptyString => String c EmptyString
        end
      else String c (strftime dt rest)
  end.

(** *** [strptime]: the regular expression CPython builds for a format,
    matched with ordered alternatives and backtracking. A match is a list
    of the ways to go on, best first. *)

(** [\s] on a [str] pattern: the white space of Unicode, here among the
    code points below 256 that a character of the model can hold. *)
Definition is_space (c : ascii) : bool :=
  let n := nat_of_ascii c in
  ((9 <=? n)%nat && (n <=? 13)%nat) || ((28 <=? n)%nat && (n <=? 32)%nat)
  || (n =? 133)%nat || (n =? 160)%nat.

Definition between (lo hi : ascii) (c : ascii) : bool :=
  (nat_of_ascii lo <=? nat_of_ascii c)%nat && (nat_of_ascii c <=? nat_of_ascii hi)%nat.

(** A fixed sequence of character classes, e.g. [1[0-2]]. *)
Fixpoint match_seq (pat : list (ascii -> bool)) (s : string) : option (string * string) :=
  match pat with
  | [] => Some (EmptyString, s)
  | p :: pat' =>
      match s with
      | String c s' =>
          if p c then
            match match_seq pat' s' with
            | Some (got, rest) => Some (String c got, rest)
            | None => None
            end
          else None
      | EmptyString => None
      end
  end.

(** [int(s)] for a group of digits, possibly after a blank. *)
Definition int_of (s : string) : Z :=
  fold_left (fun acc c => if Str.is_digit c then 10 * acc + Z.of_nat (nat_of_ascii c - 48) else acc)
            (list_ascii_of_string s) 0.

(** A group: the alternatives in the order of the pattern. *)
Definition group (alts : list (list (ascii -> bool))) (s : string) : list (Z * string) :=
  flat_map (fun pat => match match_seq pat s with
                       | Some (got, rest) => [(int_of got, rest)]
                       | None => []
                       end) alts.

Definition d := Str.is_digit.
Definition one (c : ascii) : ascii -> bool := Ascii.eqb c.

Definition re_Y := group [[d; d; d; d]].
Definition re_m := group [[one "1"; between "0" "2"]; [one "0"; between "1" "9"]; [between "1" "9"]].
Definition re_d := group [[one "3"; between "0" "1"]; [between "1" "2"; d];
                          [one "0"; between "1" "9"]; [between "1" "9"];
                          [one " "; between "1" "9"]].
Definition re_H := group [[one "2"; between "0" "3"]; [between "0" "1"; d]; [d]].
Definition re_M := group [[between "0" "5"; d]; [d]].
Definition re_S := group [[one "6"; between "0" "1"]; [between "0" "5"; d]; [d]].

(** A literal character of the format. *)
Definition lit (c : ascii) (s : string) : list string :=
  match s with
  | String a s' => if Ascii.eqb a c then [s'] else []
  | EmptyString => []
  end.

(** [\s+], greedy: the longest run of blanks first. *)
Fixpoint spaces (s : string) : list string :=
  match s with
  | String c s' => if is_space c then spaces s' ++ [s'] else []
  | EmptyString => []
  end.

(** [datetime.datetime.strptime(s, "%Y:%m:%d %H:%M:%S")]; [None] stands
    for the [ValueError] of a string that does not match, of unconverted
    data after the match, or of an out-of-range field. *)
Definition strptime_exif (s : string) : option datetime :=
  let found :=
    '(y, s) ← re_Y s; s ← lit ":" s;
    '(m, s) ← re_m s; s ← lit ":" s;
    '(dd, s) ← re_d s; s ← spaces s;
    '(H, s) ← re_H s; s ← lit ":" s;
    '(M, s) ← re_M s; s ← lit ":" s;
    '(sec, s) ← re_S s;
    [(y, m, dd, H, M, sec, s)] in
  match found with
  | (y, m, dd, H, M, sec, EmptyString) :: _ => make y m dd H M sec
  | _ => None
  end.

(** Days since 1970-01-01 to a proleptic Gregorian (year, month, day). *)
Definition civil_from_days (days : Z) : Z * Z * Z :=
  let z := days + 719468 in
  let era := z / 146097 in
  let doe := z - era * 146097 in
  let yoe := (doe - doe / 1460 + doe / 36524 - doe / 146096) / 365 in
  let doy := doe - (365 * yoe + yoe / 4 - yoe / 100) in
  let mp := (5 * doy + 2) / 153 in
  let dd := doy - (153 * mp + 2) / 5 + 1 in
  let m := if mp <? 10 then mp + 3 else mp - 9 in
  let y := yoe + era * 400 + (if m <=? 2 then 1 else 0) in
  (y, m, dd).

(** [datetime.datetime.fromtimestamp(t)]. The float [t] is rounded to
    microseconds first, so the argument here is that number of
    microseconds; the fields this program prints are those of its whole
    seconds. [tz s] is the offset of local time from UTC, in seconds, in
    force at the second [s]. [None] stands for the error raised when the
    year leaves 1..9999. *)
Definition fromtimestamp (tz : Z -> Z) (t : Z) : option datetime :=
  let s := t / 1000000 in
  let local := s + tz s in
  let '(y, m, dd) := civil_from_days (local / 86400) in
  let secs := local mod 86400 in
  make y m dd (secs / 3600) (secs / 60 mod 60) (secs mod 60).

End DateTime.

(** ** Exceptions and results *)

Inductive exn :=
| ValueError (msg : string)
| TypeError (msg : string)
| FileNotFoundError (where_ : list string)
| FileExistsError (where_ : list string)
| NotADirectoryError (where_ : list string)
| IsADirectoryError (where_ : list string)
| PermissionError (where_ : list string)
| SameFileError (where_ : list string)
| OSError (msg : string).

Inductive result (A : Type) :=
| Ok (a : A)
| Raise (e : exn).
Arguments Ok {A} a.
Arguments Raise {A} e.

(** ** pathlib: a path is the list of its components, relative to the
  working directory; a component is a non-empty string without "/". *)

Module Pathlib.

Definition Path := list string.

(** [str(p)] *)
Fixpoint join (sep : string) (parts : list string) : string :=
  match parts with
  | [] => EmptyString
  | [c] => c
  | c :: rest => c +:+ sep +:+ join sep rest
  end.

Definition str (p : Path) : string :=
  match p with [] => "." | _ => join "/" p end.

(** [p.name] *)
Definition name (p : Path) : string := List.last p EmptyString.

(** [p.parent] *)
Definition parent (p : Path) : Path := removelast p.

(** The dot that starts the suffix of a name: the last one, unless it is
    the first or the last character. *)
Definition suffix_dot (n : string) : option nat :=
  match Str.rfind "." n with
  | Some i => if (0 <? i)%nat && (i <? String.length n - 1)%nat then Some i else None
  | None => None
  end.

(** [p.suffix] *)
Definition suffix (p : Path) : string :=
  match suffix_dot (name p) with
  | Some i => Str.drop i (name p)
  | None => EmptyString
  end.

(** [p.stem] *)
Definition stem (p : Path) : string :=
  match suffix_dot (name p) with
  | Some i => Str.take i (name p)
  | None => name p
  end.

(** [p.with_name(n)] *)
Definition with_name (p : Path) (n : string) : result Path :=
  if String.eqb (name p) EmptyString
  then Raise (ValueError ("PosixPath(" +:+ Str.repr (str p) +:+ ") has an empty name"))
  else if String.eqb n EmptyString || Str.contains "/" n || String.eqb n "."
  then Raise (ValueError ("Invalid name " +:+ Str.repr n))
  else Ok (parent p ++ [n]).

(** [p / c] for a single component [c]. *)
Definition div (p : Path) (c : string) : Path := p ++ [c].

Fixpoint strip_prefix (base p : Path) : option Path :=
  match base, p with
  | [], _ => Some p
  | b :: base', c :: p' => if String.eqb b c then strip_prefix base' p' else None
  | _ :: _, [] => None
  end.

(** [p.relative_to(base)] *)
Definition relative_to (p base : Path) : result Path :=
  match strip_prefix base p with
  | Some rel => Ok rel
  | None => Raise (ValueError (Str.repr (str p) +:+ " is not in the subpath of "
                                +:+ Str.repr (str base)
                                +:+ " OR one path is relative and the other is absolute."))
  end.

End Pathlib.

Abbreviation Path := Pathlib.Path.
Infix "//" := Pathlib.div (at level 40, left associativity).

(** [str(e)] for an exception: for an error of the operating system the
  error number, its text on Linux and the [repr] of the file name. *)
Definition exn_str (e : exn) : string :=
match e with
| ValueError msg | TypeError msg | OSError msg => msg
| FileNotFoundError p => "[Errno 2] No such file or directory: " +:+ Str.repr (Pathlib.str p)
| FileExistsError p => "[Errno 17] File exists: " +:+ Str.repr (Pathlib.str p)
| NotADirectoryError p => "[Errno 20] Not a directory: " +:+ Str.repr (Pathlib.str p)
| IsADirectoryError p => "[Errno 21] Is a directory: " +:+ Str.repr (Pathlib.str p)
| PermissionError p => "[Errno 13] Permission denied: " +:+ Str.repr (Pathlib.str p)
| SameFileError p =>
    Str.repr (Pathlib.str p) +:+ " and " +:+ Str.repr (Pathlib.str p) +:+ " are the same file"
end.

(** ** The file system and the os / shutil calls on it *)

Module OS.
Import Pathlib.

(** A value of an EXIF tag: a string, or anything else (shown by its
    [str()]). *)
Inductive exif_value :=
| EStr (s : string)
| EOther (shown : string).

(** What [hachoir] makes of a file. *)
Inductive hachoir_view :=
| ParserRaises
| NoParser
| NoMetadata
| Metadata (creation_date : option DateTime.datetime).

(** A regular file: its bytes, whether it can be opened for reading, its
    modification time, and what the decoders make of it.
    [st_mtime] is the float of [os.stat] rounded to microseconds, the way
    [datetime.fromtimestamp] rounds it, in microseconds since the epoch.
    [pil_exif] is the mapping [Image.open(p).getexif()] gives ([None] when
    Pillow raises): the tags of the main image directory (IFD0), among
    them Model (272), DateTime (306) and the pointer 34665 to the Exif
    directory. [exif_sub_ifd] holds the tags of that Exif directory, where
    the EXIF standard puts DateTimeOriginal (36867); Pillow gives them
    through [get_ifd(0x8769)] only, not in the mapping. [hachoir] is what
    hachoir finds. *)
Record file_data := {
  content : list byte;
  readable : bool;
  st_mtime : Z;
  pil_exif : option (gmap Z exif_value);
  exif_sub_ifd : gmap Z exif_value;
  hachoir : hachoir_view
}.

(** [BrokenLink] is a symbolic link whose target neither exists nor can
    be created (its directory is missing). *)
Inductive node :=
| File (f : file_data)
| Dir (mtime : Z)
| BrokenLink.

Abbreviation filesystem := (gmap Path node).

(** [os.path.exists(p)], [Path.exists()]: links are followed. The answer
    is that of a file system in which every directory may be searched and
    no name is too long; the errors [Path.exists()] passes on otherwise
    (EACCES, ENAMETOOLONG) are outside this model. *)
Definition path_exists (fs : filesystem) (p : Path) : bool :=
  match fs !! p with
  | Some (File _) | Some (Dir _) => true
  | Some BrokenLink | None => false
  end.

(** [os.path.isdir(p)] *)
Definition isdir (fs : filesystem) (p : Path) : bool :=
  match fs !! p with
  | Some (Dir _) => true
  | _ => false
  end.

(** [p.stat().st_mtime] *)
Definition stat_mtime (fs : filesystem) (p : Path) : result Z :=
  match fs !! p with
  | Some (File f) => Ok (st_mtime f)
  | Some (Dir t) => Ok t
  | Some BrokenLink | None => Raise (FileNotFoundError p)
  end.

(** [open(p, "rb")] *)
Definition open_rb (fs : filesystem) (p : Path) : result (list byte) :=
  match fs !! p with
  | Some (File f) => if readable f then Ok (content f) else Raise (PermissionError p)
  | Some (Dir _) => Raise (IsADirectoryError p)
  | Some BrokenLink | None => Raise (FileNotFoundError p)
  end.

(** The entries of a directory, by name. *)
Definition listdir (fs : filesystem) (dir : Path) : list (string * node) :=
  omap (fun '(p, n) =>
          match p with
          | [] => None
          | _ => if decide (parent p = dir) then Some (name p, n) else None
          end)
       (map_to_list fs).

Definition is_dir_node (n : node) : bool :=
  match n with Dir _ => true | _ => false end.

Definition is_file_node (n : node) : bool :=
  match n with File _ => true | _ => false end.

(** [os.walk(top)]: top-down, one triple (root, dirnames, filenames) for
    each directory that can be listed; links are not followed, so a
    broken link is among the file names. [fuel] bounds the depth. *)
Fixpoint os_walk_from (fuel : nat) (fs : filesystem) (top : Path)
  : list (Path * list string * list string) :=
  match fuel with
  | O => []
  | S fuel' =>
      if isdir fs top then
        let entries := listdir fs top in
        let dirnames := fst <$> filter (fun e => is_dir_node (snd e)) entries in
        let filenames := fst <$> filter (fun e => negb (is_dir_node (snd e))) entries in
        (top, dirnames, filenames)
          :: (dirnames ≫= fun dn => os_walk_from fuel' fs (top // dn))
      else []
  end.

Definition os_walk (fs : filesystem) (top : Path) :=
  os_walk_from (S (size fs)) fs top.

Definition is_prefix (a b : Path) : bool :=
  match strip_prefix a b with Some _ => true | None => false end.

(** Where [p] lands when the directory [src] becomes [dst]. *)
Definition reroot (src dst p : Path) : Path :=
  match strip_prefix src p with
  | Some rel => dst ++ rel
  | None => p
  end.

(** [os.rename(src, dst)], as far as [shutil.move] relies on it. *)
Definition os_rename (src dst : Path) (fs : filesystem) : result filesystem :=
  match fs !! src with
  | None => Raise (FileNotFoundError src)
  | Some n =>
      if decide (src = dst) then Ok fs
      else if negb (isdir fs (parent dst)) then Raise (FileNotFoundError dst)
      else match n, fs !! dst with
           | Dir _, Some (Dir _) => Raise (OSError "[Errno 39] Directory not empty")
           | Dir _, Some _ => Raise (NotADirectoryError dst)
           | Dir _, None =>
               if is_prefix src dst then Raise (OSError "[Errno 22] Invalid argument")
               else Ok (list_to_map (map (fun e => (reroot src dst (fst e), snd e))
                                         (map_to_list fs)))
           | _, Some (Dir _) => Raise (IsADirectoryError dst)
           | _, _ => Ok (<[dst := n]> (delete src fs))
           end
  end.

(** [shutil.move(src, dst)]. When [os.rename] fails the library falls
    back on copying, which fails for the same reason wherever [os_rename]
    above fails; the error is passed on. *)
Definition shutil_move (src dst : Path) (fs : filesystem) : result filesystem :=
  if isdir fs dst then
    if decide (src = dst) then os_rename src dst fs
    else
      let real_dst := dst // name src in
      match fs !! real_dst with
      | Some _ => Raise (OSError ("Destination path " +:+ Str.repr (str real_dst)
                                    +:+ " already exists"))
      | None => os_rename src real_dst fs
      end
  else os_rename src dst fs.

(** [shutil.copy2(src, dst)]: the bytes and the metadata (modification
    time, mode) are copied. *)
Definition shutil_copy2 (src dst : Path) (fs : filesystem) : result filesystem :=
  let real_dst := if isdir fs dst then dst // name src else dst in
  match fs !! src with
  | Some (File f) =>
      if decide (src = real_dst) then Raise (SameFileError src)
      else if negb (readable f) then Raise (PermissionError src)
      else match fs !! real_dst with
           | Some (Dir _) => Raise (IsADirectoryError real_dst)
           | Some BrokenLink => Raise (FileNotFoundError real_dst)
           | _ => if isdir fs (parent real_dst) then Ok (<[real_dst := File f]> fs)
                  else Raise (FileNotFoundError real_dst)
           end
  | Some (Dir _) => Raise (IsADirectoryError src)
  | Some BrokenLink | None => Raise (FileNotFoundError src)
  end.

(** The prefixes of a path, shortest first, the path itself last. *)
Fixpoint prefixes (p : Path) : list Path :=
  match p with
  | [] => [[]]
  | c :: p' => [] :: map (cons c) (prefixes p')
  end.

(** One step of [p.mkdir(parents=True, exist_ok=True)], at the prefix [q]
    of [p]: the directory [q] is created, stamped with the current time
    [now], unless it is there. Anything else in its place is an error: a
    regular file on the way to [p] makes [os.mkdir(p)] fail with ENOTDIR,
    a regular file at [p] itself with EEXIST, and a dangling link is
    where the climb through the parents stops, with EEXIST for the
    link. *)
Definition mkdir_step (now : Z) (p : Path) (acc : result filesystem) (q : Path)
  : result filesystem :=
match acc with
| Raise e => Raise e
| Ok fs' =>
    match fs' !! q with
    | None => Ok (<[q := Dir now]> fs')
    | Some (Dir _) => Ok fs'
    | Some (File _) =>
        if decide (q = p) then Raise (FileExistsError p) else Raise (NotADirectoryError p)
    | Some BrokenLink => Raise (FileExistsError q)
    end
end.

(** [p.mkdir(parents=True, exist_ok=True)]: every missing directory on the
    way is created; anything on the way that is not a directory makes it
    fail. *)
Definition mkdir_parents (now : Z) (p : Path) (fs : filesystem) : result filesystem :=
fold_left (mkdir_step now p) (prefixes p) (Ok fs).

End OS.

Abbreviation filesystem := OS.filesystem.

(** ** Computations on the file system that may raise *)

Definition M (A : Type) : Type := filesystem -> result A * filesystem.

Definition ret {A} (a : A) : M A := fun fs => (Ok a, fs).

Definition bind {A B} (m : M A) (k : A -> M B) : M B :=
fun fs => match m fs with
          | (Ok a, fs') => k a fs'
          | (Raise e, fs') => (Raise e, fs')
          end.

(** Looking at the file system. *)
Definition read {A} (f : filesystem -> A) : M A := fun fs => (Ok (f fs), fs).

(** A call that returns or raises without changing anything. *)
Definition lift {A} (r : result A) : M A := fun fs => (r, fs).

(** A call that changes the file system, or raises and leaves it alone. *)
Definition update (f : filesystem -> result filesystem) : M unit :=
fun fs => match f fs with
          | Ok fs' => (Ok tt, fs')
          | Raise e => (Raise e, fs)
          end.

(** [try: m except Exception as e: h e] *)
Definition try_except {A} (m : M A) (h : exn -> M A) : M A :=
fun fs => match m fs with
          | (Raise e, fs') => h e fs'
          | done => done
          end.

Declare Scope py_scope.
Delimit Scope py_scope with py.
Notation "'let*' x := m 'in' k" := (bind m (fun x => k))
  (at level 10, x pattern, m at level 100, k at level 200) : py_scope.

(** ** src/toki/utils.py *)

Module Utils.
Import Pathlib OS.

Definition SUPPORTED_EXTENSIONS : gset string :=
{[ ".jpg"; ".jpeg"; ".png"; ".mp4"; ".mov"; ".avi"; ".heic" ]}.

Definition HASH_LENGTH : Z := 8.

(** The chunks that [iter(lambda: f.read(size), b"")] yields for a file of
    the given bytes: [size] bytes at a time, up to the empty read. *)
Definition read_chunks (size : nat) (data : list byte) : list (list byte) :=
MD5.groups (length data) size data.

(** An md5 object is the bytes it was fed so far. *)
Definition md5_new : list byte := [].
Definition md5_update (h : list byte) (chunk : list byte) : list byte := h ++ chunk.

Definition compute_file_hash (fs : filesystem) (path : Path) (hash_length : Z) : string :=
let md5_hash := md5_new in
match open_rb fs path with
| Ok data =>
    let md5_hash := fold_left md5_update (read_chunks (Z.to_nat 8192) data) md5_hash in
    Str.slice_to (MD5.hexdigest md5_hash) hash_length
| Raise _ => Str.slice_to "00000000" hash_length
end.

(** [Image.open(path)] followed by [img.getexif()]. *)
Definition image_getexif (fs : filesystem) (path : Path) : result (gmap Z exif_value) :=
match fs !! path with
| Some (File f) =>
    if readable f then
      match pil_exif f with
      | Some exif => Ok exif
      | None => Raise (OSError ("cannot identify image file " +:+ str path))
      end
    else Raise (PermissionError path)
| Some (Dir _) => Raise (IsADirectoryError path)
| Some BrokenLink | None => Raise (FileNotFoundError path)
end.

(** [datetime.datetime.strptime(v, "%Y:%m:%d %H:%M:%S")] on a tag value. *)
Definition strptime_tag (v : exif_value) : result DateTime.datetime :=
match v with
| EStr s =>
    match DateTime.strptime_exif s with
    | Some dt => Ok dt
    | None => Raise (ValueError ("time data " +:+ s +:+ " does not match format"))
    end
| EOther _ => Raise (TypeError "strptime() argument 1 must be str")
end.

(** [str(v)] *)
Definition str_value (v : exif_value) : string :=
match v with EStr s => s | EOther shown => shown end.

(** The body of the [try] of [get_exif_datetime]. *)
Definition get_exif_datetime_body (fs : filesystem) (path : Path)
  : result (option DateTime.datetime * string) :=
match image_getexif fs path with
| Raise e => Raise e
| Ok exif =>
    if decide (exif = ∅) then Ok (None, "Unknown")
    else
      let camera := "Unknown" in
      let dt : result (option DateTime.datetime) :=
        match exif !! 36867%Z with
        | Some v => match strptime_tag v with Ok t => Ok (Some t) | Raise e => Raise e end
        | None =>
            match exif !! 306%Z with
            | Some v => match strptime_tag v with Ok t => Ok (Some t) | Raise e => Raise e end
            | None => Ok None
            end
        end in
      match dt with
      | Raise e => Raise e
      | Ok dt =>
          let camera :=
            match exif !! 272%Z with
            | Some v => Str.replace " " "_" (str_value v)
            | None => camera
            end in
          Ok (dt, camera)
      end
end.

Definition get_exif_datetime (fs : filesystem) (path : Path)
  : option DateTime.datetime * string :=
match get_exif_datetime_body fs path with
| Ok r => r
| Raise _ => (None, "Unknown")
end.

(** [createParser(str(path))] and [extractMetadata(parser)], as the file's
    [hachoir] view records them; a file that cannot be opened makes the
    parser raise. *)
Definition hachoir_parse (fs : filesystem) (path : Path) : hachoir_view :=
match fs !! path with
| Some (File f) => if readable f then hachoir f else ParserRaises
| _ => ParserRaises
end.

Definition get_video_datetime (fs : filesystem) (path : Path) : option DateTime.datetime :=
match hachoir_parse fs path with
| ParserRaises => None
| NoParser => None
| NoMetadata => None
| Metadata (Some creation_date) => Some creation_date
| Metadata None => None
end.

Definition get_file_datetime (fs : filesystem) (path : Path)
  : option DateTime.datetime * string :=
let ext := Str.lower (suffix path) in
if decide (ext ∈ ({[ ".jpg"; ".jpeg"; ".png"; ".heic" ]} : gset string)) then
  get_exif_datetime fs path
else if decide (ext ∈ ({[ ".mp4"; ".mov"; ".avi" ]} : gset string)) then
  let dt := get_video_datetime fs path in
  (dt, "Unknown")
else (None, "Unknown").

End Utils.

(** ** src/toki/main.py *)

Module Main.
Import Pathlib OS Utils.
Local Open Scope py_scope.

Definition supported (ext : string) : bool :=
bool_decide (ext ∈ SUPPORTED_EXTENSIONS).

Definition collect_files (fs : filesystem) (base_dir : Path) : list Path :=
'(root, _, filenames) ← os_walk fs base_dir;
f ← filenames;
if supported (Str.lower (suffix [f])) then [root // f] else [].

(** The loop [while new_path.exists(): new_path = candidate(i); i += 1].
    It looks at the file system and changes nothing; [fuel] bounds the
    number of rounds. *)
Fixpoint while_exists (fuel : nat) (fs : filesystem) (candidate : nat -> result Path)
  (new_path : Path) (i : nat) : result Path :=
match fuel with
| O => Ok new_path
| S fuel' =>
    if path_exists fs new_path then
      match candidate i with
      | Ok next => while_exists fuel' fs candidate next (S i)
      | Raise e => Raise e
      end
    else Ok new_path
end.

(** One more round than the file system has entries. *)
Definition rounds (fs : filesystem) : nat := S (size fs).

(** [f"{base}_dup{i}{ext}"] *)
Definition dup_name (base ext : string) (i : nat) : string :=
base +:+ "_dup" +:+ pretty i +:+ ext.

(** The shape [YYYYMMDD_HHMMSS]: eight digits, an underscore, six digits. *)
Definition is_timestamp (s : string) : bool :=
(String.length s =? 15)%nat
&& Str.all Str.is_digit (Str.take 8 s)
&& String.eqb (Str.take 1 (Str.drop 8 s)) "_"
&& Str.all Str.is_digit (Str.drop 9 s).


(** The text of a date as the EXIF date tags hold it,
    [YYYY:MM:DD HH:MM:SS] with every field padded with zeros. *)
Definition exif_date_text (dt : DateTime.datetime) : string :=
DateTime.pad4 (DateTime.year dt) +:+ ":" +:+ DateTime.pad2 (DateTime.month dt) +:+ ":"
+:+ DateTime.pad2 (DateTime.day dt) +:+ " " +:+ DateTime.pad2 (DateTime.hour dt) +:+ ":"
+:+ DateTime.pad2 (DateTime.minute dt) +:+ ":" +:+ DateTime.pad2 (DateTime.second dt).



(** Lines 43-51: the confidence letter and the date part. *)
Definition confidence_and_date (dt : option DateTime.datetime) : string * string :=
match dt with
| Some dt => ("A", DateTime.strftime dt "%Y%m%d_%H%M%S")
| None => ("C", "UnknownDate")
end.

(** Lines 40-51: the name before duplicates are handled. *)
Definition synthesized_name (fs : filesystem) (path : Path) : string :=
let ext := Str.lower (suffix path) in
let file_hash := compute_file_hash fs path HASH_LENGTH in
let '(dt, camera_model) := get_file_datetime fs path in
let '(confidence, date_str) := confidence_and_date dt in
date_str +:+ "_" +:+ confidence +:+ "_" +:+ camera_model +:+ "_" +:+ file_hash +:+ ext.

(** Lines 54-60: handle duplicates next to [path]. *)
Definition rename_duplicates (fs : filesystem) (path new_path : Path) (ext : string)
  : result Path :=
if path_exists fs new_path then
  let base := stem new_path in
  while_exists (rounds fs) fs (fun i => with_name path (dup_name base ext i))
               new_path 1
else Ok new_path.

(** What a worker on [path] may do to the other entries: each of them is
    still there, unchanged, unless it was a dangling link with a supported
    extension that the moved or copied file replaced. *)
Definition keeps_others (path : Path) (fs fs' : filesystem) : Prop :=
forall q nq,
  q <> path -> fs !! q = Some nq ->
  fs' !! q = Some nq
  \/ (supported (Str.lower (suffix q)) = true /\ nq = BrokenLink
      /\ exists n', fs' !! q = Some n' /\ is_dir_node n' = false).

(** The regular files of a file system, by path. *)
Definition regular_files (fs : filesystem) : filesystem :=
filter (fun e : Path * node => is_file_node e.2 = true) fs.

(** [fs'] holds every regular file of [fs], data unchanged, each at a
    place of its own: no file is lost and no two are merged. *)
Definition keeps_files (fs fs' : filesystem) : Prop :=
exists place : Path -> Path,
  (forall p q d e, fs !! p = Some (File d) -> fs !! q = Some (File e) ->
                   place p = place q -> p = q)
  /\ forall p d, fs !! p = Some (File d) -> fs' !! place p = Some (File d).

Definition rename_file_worker (args : Path * bool) : M (option string) :=
let '(path, dry_run) := args in
let ext := Str.lower (suffix path) in
if negb (supported ext) then ret None
else
  let* new_name := read (fun fs => synthesized_name fs path) in
  let* new_path := lift (with_name path new_name) in
  let* new_path := fun fs => (rename_duplicates fs path new_path ext, fs) in
  if dry_run then
    ret (Some ("Would rename: " +:+ name path +:+ " → " +:+ name new_path))
  else
    try_except
      (let* _ := update (shutil_move path new_path) in
       ret (Some ("Renamed: " +:+ name path +:+ " → " +:+ name new_path)))
      (fun e => ret (Some ("Error renaming " +:+ str path +:+ ": " +:+ exn_str e))).

(** The executor with one worker process ([--workers 1], which is also
    the default on a machine with at most two processors): every
    submitted task runs to completion, one after the other in the order
    of submission, and its return value or its exception is kept in its
    future. With more worker processes the tasks overlap, and the check
    for a free name in one task is not atomic with the move in another;
    that interleaving is outside this model. *)
Fixpoint run_pool {A} (worker : A -> M (option string)) (args : list A) (fs : filesystem)
  : list (result (option string)) * filesystem :=
match args with
| [] => ([], fs)
| a :: rest =>
    let '(r, fs') := worker a fs in
    let '(rs, fs'') := run_pool worker rest fs' in
    (r :: rs, fs'')
end.

(** What a command leaves behind: the lines written, the position of the
    progress bar, and the exception it ended with, if any. *)
Record report := Report {
  stdout : list string;
  progress : nat;
  raised : option exn
}.

(** The loop over [as_completed(futures)]: [future.result()] gives the
    worker's return value or raises the worker's exception again. *)
Fixpoint collect_results (futures : list (result (option string))) (out : list string)
  (done : nat) : report :=
match futures with
| [] => Report out done None
| Ok r :: rest =>
    let out := match r with
               | Some line => if String.eqb line EmptyString then out else out ++ [line]
               | None => out
               end in
    collect_results rest out (S done)
| Raise e :: _ => Report out done (Some e)
end.

Definition finish (total : nat) (r : report) : report :=
match raised r with
| Some _ => r
| None =>
    Report (stdout r ++ [""; "✓ Completed: " +:+ pretty total +:+ "/" +:+ pretty total
                           +:+ " files processed"])
           (progress r) None
end.

(** The [rename] command, for a positive number of worker processes (the
    pool refuses any other with a [ValueError]), run as [run_pool] runs
    the tasks. *)
Definition rename (directory : Path) (dry_run : bool) (fs : filesystem)
  : report * filesystem :=
let files := collect_files fs directory in
let total := length files in
if (total =? 0)%nat then (Report ["No supported files found."] 0 None, fs)
else
  let out := ["Found " +:+ pretty total +:+ " files to process..."] in
  let out := if dry_run then out ++ ["DRY RUN MODE - No changes will be made"] else out in
  let args := map (fun f => (f, dry_run)) files in
  let '(futures, fs') := run_pool rename_file_worker args fs in
  (finish total (collect_results futures out 0), fs').

Section Process.

(** The offset of local time from UTC in force at an instant, and the
    time of the run. *)
Variable tz : Z -> Z.
Variable now : Z.

(** Lines 80-92: the date of the file and its directory under
    [output_dir]. *)
Definition organize_date (path : Path) : M DateTime.datetime :=
let* (dt, _) := read (fun fs => get_file_datetime fs path) in
match dt with
| Some dt => ret dt
| None =>
    let* timestamp := fun fs => (stat_mtime fs path, fs) in
    match DateTime.fromtimestamp tz timestamp with
    | Some dt => ret dt
    | None => lift (Raise (ValueError "year is out of range"))
    end
end.

(** What [organize_date] returns or raises, as a function of the file
    system it looks at. *)
Definition date_result (fs : filesystem) (path : Path) : result DateTime.datetime :=
match fst (get_file_datetime fs path) with
| Some dt => Ok dt
| None =>
    match stat_mtime fs path with
    | Ok timestamp =>
        match DateTime.fromtimestamp tz timestamp with
        | Some dt => Ok dt
        | None => Raise (ValueError "year is out of range")
        end
    | Raise e => Raise e
    end
end.

Definition date_dir (output_dir : Path) (dt : DateTime.datetime) : Path :=
let year := DateTime.strftime dt "%Y" in
let month := DateTime.strftime dt "%m" in
let day := DateTime.strftime dt "%d" in
output_dir // year // month // day.

(** Lines 95-101: handle duplicates in [target_dir]. *)
Definition organize_duplicates (fs : filesystem) (target_dir target_path : Path)
  (ext : string) : result Path :=
if path_exists fs target_path then
  let base := stem target_path in
  while_exists (rounds fs) fs (fun i => Ok (target_dir // dup_name base ext i))
               target_path 1
else Ok target_path.

(** Lines 80-101: the directory and the path the file is sent to. *)
Definition organize_target (path output_dir : Path) (ext : string) : M (Path * Path) :=
let* dt := organize_date path in
let target_dir := date_dir output_dir dt in
let target_path := target_dir // name path in
let* target_path := fun fs => (organize_duplicates fs target_dir target_path ext, fs) in
ret (target_dir, target_path).

Definition organize_file_worker (args : Path * Path * bool * bool) : M (option string) :=
let '(path, output_dir, dry_run, copy_mode) := args in
let ext := Str.lower (suffix path) in
if negb (supported ext) then ret None
else
  let* (target_dir, target_path) := organize_target path output_dir ext in
  let action := if copy_mode then "copy" else "move" in
  if dry_run then
    let* shown := lift (relative_to target_path output_dir) in
    ret (Some ("Would " +:+ action +:+ ": " +:+ str path +:+ " → " +:+ str shown))
  else
    try_except
      (let* _ := update (mkdir_parents now target_dir) in
       let* _ := update (if copy_mode then shutil_copy2 path target_path
                         else shutil_move path target_path) in
       let* shown := lift (relative_to target_path output_dir) in
       ret (Some (Str.capitalize action +:+ "d: " +:+ name path +:+ " → " +:+ str shown)))
      (fun e => ret (Some ("Error " +:+ action +:+ "ing " +:+ str path +:+ ": "
                             +:+ exn_str e))).

(** The [organize] command, for a positive number of worker processes,
    run as [run_pool] runs the tasks. *)
Definition organize (source destination : Path) (dry_run copy : bool) (fs : filesystem)
  : report * filesystem :=
let files := collect_files fs source in
let total := length files in
if (total =? 0)%nat then (Report ["No supported files found."] 0 None, fs)
else
  let out := ["Found " +:+ pretty total +:+ " files to organize...";
              "Source: " +:+ str source; "Destination: " +:+ str destination] in
  let out := if dry_run then out ++ ["DRY RUN MODE - No changes will be made"] else out in
  let action := if copy then "Copying" else "Moving" in
  let out := out ++ ["Action: " +:+ action +:+ " files"; EmptyString] in
  let args := map (fun f => (f, destination, dry_run, copy)) files in
  let '(futures, fs') := run_pool organize_file_worker args fs in
  (finish total (collect_results futures out 0), fs').

End Process.

End Main.

(** ** File systems used in the examples *)

Module Fixtures.
Import Pathlib OS.

(** A file system with one empty regular file [a.jpg]. *)
Definition one_empty_jpg : filesystem :=
list_to_map [ ([], Dir 0);
              (["a.jpg"], File {| content := []; readable := true; st_mtime := 0;
                                  pil_exif := None; exif_sub_ifd := ∅;
                                  hachoir := NoParser |}) ].

(** A photo whose EXIF block has a Model tag and no date tag. *)
Definition model_only_jpg : filesystem :=
list_to_map [ ([], Dir 0);
              (["p.jpg"], File {| content := []; readable := true; st_mtime := 0;
                                  pil_exif := Some {[ 272%Z := EStr "Pixel 7" ]};
                                  exif_sub_ifd := ∅;
                                  hachoir := NoParser |}) ].

(** Scenario 1: a JPEG with DateTimeOriginal and Model, content "abc",
    laid out as the EXIF standard prescribes: Model in the main image
    directory, DateTimeOriginal in the Exif directory that tag 34665
    points to. *)
Definition pixel7_jpg : filesystem :=
list_to_map [ ([], Dir 0); (["in"], Dir 0);
              (["in"; "IMG_1.JPG"],
               File {| content := list_byte_of_string "abc"; readable := true;
                       st_mtime := 1706004930000000;
                       pil_exif := Some (list_to_map
                                           [ (272%Z, EStr "Pixel 7"); (34665%Z, EOther "46") ]);
                       exif_sub_ifd := {[ 36867%Z := EStr "2024:01:23 10:15:30" ]};
                       hachoir := NoParser |}) ].

(** The same photo with a DateTime tag in the main image directory. *)
Definition pixel7_datetime_jpg : filesystem :=
list_to_map [ ([], Dir 0); (["in"], Dir 0);
              (["in"; "IMG_1.JPG"],
               File {| content := list_byte_of_string "abc"; readable := true;
                       st_mtime := 1706004930000000;
                       pil_exif := Some (list_to_map
                                           [ (306%Z, EStr "2024:01:23 10:15:30");
                                             (272%Z, EStr "Pixel 7"); (34665%Z, EOther "58") ]);
                       exif_sub_ifd := {[ 36867%Z := EStr "2024:01:23 10:15:30" ]};
                       hachoir := NoParser |}) ].


(** Scenario 3: two JPEGs with the same bytes and no EXIF block. *)
Definition twins : filesystem :=
list_to_map [ ([], Dir 0);
              (["one.jpg"], File {| content := list_byte_of_string "abc"; readable := true;
                                    st_mtime := 0; pil_exif := None;
                                    exif_sub_ifd := ∅; hachoir := NoParser |});
              (["two.jpg"], File {| content := list_byte_of_string "abc"; readable := true;
                                    st_mtime := 0; pil_exif := None;
                                    exif_sub_ifd := ∅; hachoir := NoParser |}) ].

(** A source directory with two photos, a dangling symbolic link and a
    text file. *)
Definition with_broken_link : filesystem :=
list_to_map [ ([], Dir 0); (["in"], Dir 0);
              (["in"; "a.jpg"], File {| content := list_byte_of_string "abc"; readable := true;
                                        st_mtime := 1682935200000000; pil_exif := None;
                                        exif_sub_ifd := ∅; hachoir := NoParser |});
              (["in"; "dangling.jpg"], BrokenLink);
              (["in"; "notes.txt"], File {| content := list_byte_of_string "hello";
                                            readable := true; st_mtime := 5000000;
                                            pil_exif := None; exif_sub_ifd := ∅;
                                            hachoir := NoParser |});
              (["in"; "z.jpg"], File {| content := list_byte_of_string "xyz"; readable := true;
                                        st_mtime := 1682935200000000; pil_exif := None;
                                        exif_sub_ifd := ∅; hachoir := NoParser |}) ].

(** Scenario 4: a video whose container cannot be parsed, last modified on
    2023-05-01 at 10:00 UTC. *)
Definition unparsable_video : filesystem :=
list_to_map [ ([], Dir 0); (["in"], Dir 0);
              (["in"; "clip.MOV"], File {| content := list_byte_of_string "xyz";
                                           readable := true; st_mtime := 1682935200000000;
                                           pil_exif := None; exif_sub_ifd := ∅;
                                           hachoir := ParserRaises |}) ].

(** A photo whose Model tag contains a slash and a blank. *)
Definition slash_model_jpg : filesystem :=
list_to_map [ ([], Dir 0);
              (["s.jpg"], File {| content := []; readable := true; st_mtime := 0;
                                  pil_exif := Some {[ 272%Z := EStr "DMC-FZ8 / FZ18" ]};
                                  exif_sub_ifd := ∅;
                                  hachoir := NoParser |}) ].

(** A photo to organize when the destination already holds another file
    under its name and date, last modified on 2023-05-01 at 10:00 UTC. *)
Definition already_organized : filesystem :=
list_to_map [ ([], Dir 0); (["in"], Dir 0); (["out"], Dir 0); (["out"; "2023"], Dir 0);
              (["out"; "2023"; "05"], Dir 0); (["out"; "2023"; "05"; "01"], Dir 0);
              (["in"; "b.jpg"], File {| content := list_byte_of_string "new"; readable := true;
                                        st_mtime := 1682935200000000; pil_exif := None;
                                        exif_sub_ifd := ∅; hachoir := NoParser |});
              (["out"; "2023"; "05"; "01"; "b.jpg"],
               File {| content := list_byte_of_string "old"; readable := true;
                       st_mtime := 1682935200000000; pil_exif := None;
                       exif_sub_ifd := ∅; hachoir := NoParser |}) ].

(** Local time is UTC. *)
Definition utc (t : Z) : Z := 0.

End Fixtures.

(** * Properties *)

Import Pathlib OS Utils Main Fixtures.

(** Closed facts about the model, by evaluation, one conjunct at a time. *)
Ltac by_evaluation :=
  repeat match goal with |- _ /\ _ => split end; vm_compute; reflexivity.

(** ** The library models on known values *)

Example md5_empty : MD5.hexdigest [] = "d41d8cd98f00b204e9800998ecf8427e".
Proof. vm_compute. reflexivity. Qed.

Example md5_abc :
MD5.hexdigest (list_byte_of_string "abc") = "900150983cd24fb0d6963f7d28e17f72".
Proof. vm_compute. reflexivity. Qed.

Example md5_two_blocks :
MD5.hexdigest (list_byte_of_string
  "12345678901234567890123456789012345678901234567890123456789012345678901234567890")
= "57edf4a22be3c955ac49da2e2107b67a".
Proof. vm_compute. reflexivity. Qed.

Example strptime_scenario :
option_map (fun dt => DateTime.strftime dt "%Y%m%d_%H%M%S")
           (DateTime.strptime_exif "2024:01:23 10:15:30") = Some "20240123_101530".
Proof. vm_compute. reflexivity. Qed.

Example strptime_zero_date : DateTime.strptime_exif "0000:00:00 00:00:00" = None.
Proof. vm_compute. reflexivity. Qed.

Example strptime_bad_day : DateTime.strptime_exif "2023:02:29 10:15:30" = None.
Proof. vm_compute. reflexivity. Qed.

Example strptime_trailing : DateTime.strptime_exif "2024:01:23 10:15:305" = None.
Proof. vm_compute. reflexivity. Qed.

Example strptime_short_fields :
option_map (fun dt => DateTime.strftime dt "%Y/%m/%d %H:%M:%S")
           (DateTime.strptime_exif "2024:1:5   7:08:9") = Some "2024/01/05 07:08:09".
Proof. vm_compute. reflexivity. Qed.

Example fromtimestamp_epoch :
option_map (fun dt => DateTime.strftime dt "%Y-%m-%d %H:%M:%S")
           (DateTime.fromtimestamp (fun _ => 0%Z) 0) = Some "1970-01-01 00:00:00".
Proof. vm_compute. reflexivity. Qed.

Example fromtimestamp_2023_05_01 :
option_map (fun dt => DateTime.strftime dt "%Y/%m/%d")
           (DateTime.fromtimestamp (fun _ => 7200%Z) 1682935200000000) = Some "2023/05/01".
Proof. vm_compute. reflexivity. Qed.

Example fromtimestamp_leap_day :
option_map (fun dt => DateTime.strftime dt "%Y-%m-%d %H:%M:%S")
           (DateTime.fromtimestamp (fun _ => 0%Z) 951827696000000) = Some "2000-02-29 12:34:56".
Proof. vm_compute. reflexivity. Qed.

Example fromtimestamp_year_10000 :
DateTime.fromtimestamp (fun _ => 0%Z) 253402300800000000 = None.
Proof. vm_compute. reflexivity. Qed.

(** A modification time half a microsecond before midnight is rounded up
    and belongs to the next day. *)
Example fromtimestamp_rounded_up :
option_map (fun dt => DateTime.strftime dt "%Y-%m-%d %H:%M:%S")
           (DateTime.fromtimestamp (fun _ => 0%Z) 86400000000) = Some "1970-01-02 00:00:00".
Proof. vm_compute. reflexivity. Qed.

(** A year below 1000 is printed without padding, and parsed from four
    digits. *)
Example strftime_year_999 :
option_map (fun dt => DateTime.strftime dt "%Y%m%d_%H%M%S")
           (DateTime.strptime_exif "0999:01:01 00:00:00") = Some "9990101_000000".
Proof. vm_compute. reflexivity. Qed.

(** ** Strings *)

Lemma take_length n s : String.length (Str.take n s) = Nat.min n (String.length s).
Proof.
  revert s; induction n as [|n IH]; intros [|c s]; simpl; try reflexivity.
  now rewrite IH.
Qed.

Lemma take_all n s : (String.length s <= n)%nat -> Str.take n s = s.
Proof.
  revert s; induction n as [|n IH]; intros [|c s]; simpl; intros H;
    try reflexivity; try lia.
  f_equal. apply IH. lia.
Qed.

Lemma take_repeat c n m : (n <= m)%nat -> Str.take n (Str.repeat c m) = Str.repeat c n.
Proof.
  revert m; induction n as [|n IH]; intros [|m] H; simpl; try reflexivity; try lia.
  f_equal. apply IH. lia.
Qed.

Lemma append_cons c (s t : string) : String c s +:+ t = String c (s +:+ t).
Proof. reflexivity. Qed.

Lemma append_nil_l (t : string) : EmptyString +:+ t = t.
Proof. reflexivity. Qed.

Lemma append_nil_r (s : string) : s +:+ EmptyString = s.
Proof. induction s as [|c s IH]; [reflexivity | now rewrite append_cons, IH]. Qed.

Lemma take_drop n s : Str.take n s +:+ Str.drop n s = s.
Proof.
  revert s; induction n as [|n IH]; intros [|c s]; try reflexivity.
  cbn [Str.take Str.drop]. now rewrite append_cons, IH.
Qed.

Lemma append_length (s t : string) :
  String.length (s +:+ t) = (String.length s + String.length t)%nat.
Proof.
  induction s as [|c s IH]; [reflexivity|].
  rewrite append_cons. cbn [String.length]. now rewrite IH.
Qed.

Lemma append_assoc (s t u : string) : (s +:+ t) +:+ u = s +:+ (t +:+ u).
Proof.
  induction s as [|c s IH]; [reflexivity|]. now rewrite !append_cons, IH.
Qed.


Lemma slice_to_nonneg s (n : Z) : (0 <= n)%Z -> Str.slice_to s n = Str.take (Z.to_nat n) s.
Proof. intros H. unfold Str.slice_to. destruct (Z.leb_spec 0 n); [reflexivity | lia]. Qed.

Lemma lower_length s : String.length (Str.lower s) = String.length s.
Proof. induction s as [|c s IH]; simpl; [reflexivity | now rewrite IH]. Qed.

(** ** The fingerprint *)

Lemma groups_concat {A} (k : nat) (l : list A) fuel :
  (0 < k)%nat -> (length l <= fuel)%nat -> concat (MD5.groups fuel k l) = l.
Proof.
  intros Hk. revert l. induction fuel as [|fuel IH]; intros l Hl.
  - destruct l; simpl in *; [reflexivity | lia].
  - destruct l as [|x l]; [reflexivity|].
    cbn [MD5.groups concat]. rewrite IH.
    + apply firstn_skipn.
    + rewrite length_skipn. simpl in *. lia.
Qed.

Lemma fold_md5_update (chunks : list (list byte)) (h : list byte) :
  fold_left md5_update chunks h = h ++ concat chunks.
Proof.
  revert h; induction chunks as [|c chunks IH]; intros h; simpl.
  - now rewrite app_nil_r.
  - rewrite IH. unfold md5_update. now rewrite <- app_assoc.
Qed.

(** Feeding the chunks one by one hashes the whole content. *)
Lemma hash_of_chunks (data : list byte) :
  fold_left md5_update (read_chunks (Z.to_nat 8192) data) md5_new = data.
Proof.
  rewrite fold_md5_update. unfold md5_new, read_chunks. simpl app.
  apply groups_concat; lia.
Qed.

Lemma hex_digit_is_hex n : Str.is_hex (MD5.hex_digit n) = true.
Proof.
  unfold MD5.hex_digit. generalize (Z.to_nat n). intros k.
  do 17 (destruct k as [|k]; [reflexivity|]). destruct k; reflexivity.
Qed.

Lemma hex_length bs : String.length (MD5.hex bs) = (2 * length bs)%nat.
Proof. induction bs as [|b bs IH]; simpl; [reflexivity | rewrite IH; lia]. Qed.

Lemma hex_is_hex bs : Str.all Str.is_hex (MD5.hex bs) = true.
Proof.
  induction bs as [|b bs IH]; [reflexivity|].
  cbn [MD5.hex Str.all]. now rewrite !hex_digit_is_hex, IH.
Qed.

Lemma digest_length data : length (MD5.digest data) = 16%nat.
Proof. unfold MD5.digest. destruct (MD5.digest_state _). reflexivity. Qed.

Lemma hexdigest_length data : String.length (MD5.hexdigest data) = 32%nat.
Proof. unfold MD5.hexdigest. now rewrite hex_length, digest_length. Qed.

Lemma hexdigest_is_hex data : Str.all Str.is_hex (MD5.hexdigest data) = true.
Proof. apply hex_is_hex. Qed.

Lemma all_take f n s : Str.all f s = true -> Str.all f (Str.take n s) = true.
Proof.
  revert s; induction n as [|n IH]; intros [|c s]; simpl; try reflexivity.
  intros H. apply andb_true_iff in H as [-> H]. simpl. now apply IH.
Qed.

Lemma compute_file_hash_readable fs path data len :
  open_rb fs path = Ok data ->
  compute_file_hash fs path len = Str.slice_to (MD5.hexdigest data) len.
Proof. intros H. unfold compute_file_hash. rewrite H. now rewrite hash_of_chunks. Qed.

Lemma compute_file_hash_unreadable fs path e len :
  open_rb fs path = Raise e ->
  compute_file_hash fs path len = Str.slice_to "00000000" len.
Proof. intros H. unfold compute_file_hash. now rewrite H. Qed.

(** The fingerprint the workers ask for: eight characters, all of them
    hexadecimal digits. *)
Lemma fingerprint_8_hex fs path :
  String.length (compute_file_hash fs path HASH_LENGTH) = 8%nat
  /\ Str.all Str.is_hex (compute_file_hash fs path HASH_LENGTH) = true.
Proof.
  destruct (open_rb fs path) as [data|e] eqn:E.
  - rewrite (compute_file_hash_readable _ _ _ _ E).
    rewrite slice_to_nonneg by (unfold HASH_LENGTH; lia).
    split.
    + rewrite take_length, hexdigest_length. reflexivity.
    + apply all_take, hexdigest_is_hex.
  - rewrite (compute_file_hash_unreadable _ _ _ _ E). split; reflexivity.
Qed.

(** C3, as stated, fails: asked for 40 characters of a readable file, the
    fingerprint is the whole digest, 32 characters. *)
Lemma fingerprint_length_counterexample :
  open_rb one_empty_jpg ["a.jpg"] = Ok []
  /\ compute_file_hash one_empty_jpg ["a.jpg"] 40 = "d41d8cd98f00b204e9800998ecf8427e"
  /\ String.length (compute_file_hash one_empty_jpg ["a.jpg"] 40) <> Z.to_nat 40.
Proof. vm_compute. repeat split; discriminate. Qed.

(** The sentinel is cut from eight zeros: a longer request for an
    unreadable file still gets eight. *)
Lemma sentinel_is_eight_zeros :
  open_rb one_empty_jpg ["missing.jpg"] = Raise (FileNotFoundError ["missing.jpg"])
  /\ compute_file_hash one_empty_jpg ["missing.jpg"] 16 = "00000000".
Proof. vm_compute. split; reflexivity. Qed.

(** C3 (amended): for a length from 0 to 32 the fingerprint of a readable
    file is the first [length] characters of the MD5 hex digest of its
    content, exactly [length] of them; when the file cannot be read and the
    length is at most 8, it is [length] zeros. *)
Theorem compute_file_hash_spec fs path (len : Z) :
  (0 <= len <= 32)%Z ->
  match open_rb fs path with
  | Ok data =>
      compute_file_hash fs path len = Str.take (Z.to_nat len) (MD5.hexdigest data)
      /\ String.length (compute_file_hash fs path len) = Z.to_nat len
  | Raise _ =>
      (len <= 8)%Z ->
      compute_file_hash fs path len = Str.repeat "0" (Z.to_nat len)
      /\ String.length (compute_file_hash fs path len) = Z.to_nat len
  end.
Proof.
  intros Hlen. destruct (open_rb fs path) as [data|e] eqn:E.
  - rewrite (compute_file_hash_readable _ _ _ _ E).
    rewrite slice_to_nonneg by lia. split; [reflexivity|].
    rewrite take_length, hexdigest_length. lia.
  - intros H8. rewrite (compute_file_hash_unreadable _ _ _ _ E).
    rewrite slice_to_nonneg by lia.
    change "00000000" with (Str.repeat "0" 8).
    rewrite take_repeat by lia. split; [reflexivity|].
    generalize (Z.to_nat len). intros n. induction n; simpl; congruence.
Qed.

Lemma compute_file_hash_spec_witness :
  compute_file_hash one_empty_jpg ["a.jpg"] 8 = "d41d8cd9"
  /\ compute_file_hash one_empty_jpg ["missing.jpg"] 8 = "00000000".
Proof.
  split.
  - pose proof (compute_file_hash_spec one_empty_jpg ["a.jpg"] 8 ltac:(lia)) as H.
    change (open_rb one_empty_jpg ["a.jpg"]) with (@Ok (list byte) []) in H.
    cbv beta iota in H. destruct H as [H _]. rewrite H. vm_compute. reflexivity.
  - pose proof (compute_file_hash_spec one_empty_jpg ["missing.jpg"] 8 ltac:(lia)) as H.
    change (open_rb one_empty_jpg ["missing.jpg"])
      with (@Raise (list byte) (FileNotFoundError ["missing.jpg"])) in H.
    cbv beta iota in H. destruct (H ltac:(lia)) as [H' _]. rewrite H'. reflexivity.
Defined.

(** ** Metadata extraction *)

(** C9, as stated, fails: with the date tags missing and a Model tag
    present the device is the model, not "Unknown". *)
Lemma missing_date_tag_counterexample :
  image_getexif model_only_jpg ["p.jpg"] = Ok {[ 272%Z := EStr "Pixel 7" ]}
  /\ get_file_datetime model_only_jpg ["p.jpg"] = (None, "Pixel_7")
  /\ get_file_datetime model_only_jpg ["p.jpg"] <> (None, "Unknown").
Proof. vm_compute. repeat split; discriminate. Qed.

Lemma get_exif_datetime_cases fs path :
  match image_getexif fs path with
  | Raise _ => get_exif_datetime fs path = (None, "Unknown")
  | Ok exif =>
      let device := match exif !! 272%Z with
                    | Some v => Str.replace " " "_" (str_value v)
                    | None => "Unknown"
                    end in
      if decide (exif = ∅) then get_exif_datetime fs path = (None, "Unknown")
      else
        match (match exif !! 36867%Z with Some v => Some v | None => exif !! 306%Z end) with
        | Some v =>
            match strptime_tag v with
            | Ok dt => get_exif_datetime fs path = (Some dt, device)
            | Raise _ => get_exif_datetime fs path = (None, "Unknown")
            end
        | None => get_exif_datetime fs path = (None, device)
        end
  end.
Proof.
  unfold get_exif_datetime, get_exif_datetime_body.
  destruct (image_getexif fs path) as [exif|e]; [|reflexivity].
  destruct (decide (exif = ∅)); [reflexivity|]. cbv zeta.
  destruct (exif !! 36867%Z) as [v|].
  - destruct (strptime_tag v); reflexivity.
  - destruct (exif !! 306%Z) as [v|]; [|reflexivity].
    destruct (strptime_tag v); reflexivity.
Qed.

(** C9 (amended): the extractor is a total function of the path: whatever
    the decoders raise ends as (no timestamp, "Unknown"). That is its
    answer for an extension that is neither photo nor video, for a photo
    that cannot be opened or decoded, for an empty EXIF mapping and for a
    date tag whose value does not parse; a video always has device
    "Unknown". The date tags and the Model tag are read independently:
    without a date tag there is no timestamp, without a Model tag the device
    is "Unknown", and otherwise the device is the Model tag with blanks as
    underscores. *)
Theorem get_file_datetime_never_raises fs path :
  let ext := Str.lower (suffix path) in
  let photo := ({[ ".jpg"; ".jpeg"; ".png"; ".heic" ]} : gset string) in
  let video := ({[ ".mp4"; ".mov"; ".avi" ]} : gset string) in
  (ext ∉ photo -> ext ∉ video -> get_file_datetime fs path = (None, "Unknown"))
  /\ (ext ∈ video -> snd (get_file_datetime fs path) = "Unknown")
  /\ (ext ∈ photo ->
      match image_getexif fs path with
      | Raise _ => get_file_datetime fs path = (None, "Unknown")
      | Ok exif =>
          let device := match exif !! 272%Z with
                        | Some v => Str.replace " " "_" (str_value v)
                        | None => "Unknown"
                        end in
          if decide (exif = ∅) then get_file_datetime fs path = (None, "Unknown")
          else
            match (match exif !! 36867%Z with Some v => Some v | None => exif !! 306%Z end) with
            | Some v =>
                match strptime_tag v with
                | Ok dt => get_file_datetime fs path = (Some dt, device)
                | Raise _ => get_file_datetime fs path = (None, "Unknown")
                end
            | None => get_file_datetime fs path = (None, device)
            end
      end).
Proof.
  cbv zeta. unfold get_file_datetime. split; [|split].
  - intros Hp Hv. destruct (decide _); [contradiction|].
    destruct (decide _); [contradiction | reflexivity].
  - intros Hv. destruct (decide _) as [Hp|_].
    + exfalso. revert Hp Hv. generalize (Str.lower (suffix path)). intros ext.
      rewrite !elem_of_union, !elem_of_singleton.
      intros [[[->| ->]| ->]| ->] [[H|H]|H]; discriminate H.
    + destruct (decide _); reflexivity.
  - intros Hp. destruct (decide _); [|contradiction].
    apply get_exif_datetime_cases.
Qed.

Lemma get_file_datetime_never_raises_witness :
  get_file_datetime model_only_jpg ["p.jpg"] = (None, "Pixel_7")
  /\ get_file_datetime model_only_jpg ["clip.mp4"] = (None, "Unknown")
  /\ get_file_datetime model_only_jpg ["notes.txt"] = (None, "Unknown").
Proof.
  destruct (get_file_datetime_never_raises model_only_jpg ["p.jpg"]) as (_ & _ & Hphoto).
  destruct (get_file_datetime_never_raises model_only_jpg ["clip.mp4"]) as (_ & Hvideo & _).
  destruct (get_file_datetime_never_raises model_only_jpg ["notes.txt"]) as (Hother & _ & _).
  split; [|split].
  - exact (Hphoto ltac:(vm_compute; reflexivity)).
  - specialize (Hvideo ltac:(vm_compute; reflexivity)).
    destruct (get_file_datetime model_only_jpg ["clip.mp4"]) as [dt dev] eqn:E.
    simpl in Hvideo. subst dev. vm_compute in E. congruence.
  - apply Hother; vm_compute; intros H; discriminate H.
Defined.

(** ** The date part and the confidence letter *)

Lemma digit_is_digit n : Str.is_digit (DateTime.digit n) = true.
Proof.
  unfold DateTime.digit. generalize (Z.to_nat n). intros k.
  do 11 (destruct k as [|k]; [reflexivity|]). destruct k; reflexivity.
Qed.

Lemma digit_value n : (0 <= n <= 9)%Z ->
  Z.of_nat (nat_of_ascii (DateTime.digit n) - 48) = n.
Proof.
  intros H. assert (Z.to_nat n < 10)%nat as Hk by lia.
  rewrite <- (Z2Nat.id n) at 2 by lia. unfold DateTime.digit.
  revert Hk. generalize (Z.to_nat n). intros k Hk.
  do 10 (destruct k as [|k]; [reflexivity|]). lia.
Qed.

(** Linear arithmetic with division and remainder by constants. *)
Ltac divlia := Z.to_euclidean_division_equations; lia.

Lemma int_of_pad2 n : (0 <= n <= 99)%Z -> DateTime.int_of (DateTime.pad2 n) = n.
Proof.
  intros H. unfold DateTime.int_of, DateTime.pad2. cbn [list_ascii_of_string fold_left].
  rewrite !digit_is_digit.
  rewrite !digit_value by divlia. divlia.
Qed.

Lemma int_of_pad4 n : (0 <= n <= 9999)%Z -> DateTime.int_of (DateTime.pad4 n) = n.
Proof.
  intros H. unfold DateTime.int_of, DateTime.pad4, DateTime.pad2.
  cbn [list_ascii_of_string fold_left].
  rewrite !digit_is_digit.
  rewrite !digit_value by divlia. divlia.
Qed.

Lemma pad2_digits n :
  String.length (DateTime.pad2 n) = 2%nat /\ Str.all Str.is_digit (DateTime.pad2 n) = true.
Proof.
  unfold DateTime.pad2. cbn [String.length Str.all]. now rewrite !digit_is_digit.
Qed.


Lemma pad2_all_digits n : Str.all Str.is_digit (DateTime.pad2 n) = true.
Proof. apply pad2_digits. Qed.

Lemma pad4_digits n :
  String.length (DateTime.pad4 n) = 4%nat /\ Str.all Str.is_digit (DateTime.pad4 n) = true.
Proof.
  unfold DateTime.pad4, DateTime.pad2. cbn [String.length Str.all].
  now rewrite !digit_is_digit.
Qed.

(** The year as [%Y] prints it: its decimal digits, four of them from the
    year 1000 on. *)
Lemma year_digits_shape y :
  (1 <= y <= 9999)%Z ->
  Str.all Str.is_digit (DateTime.year_digits y) = true
  /\ (1 <= String.length (DateTime.year_digits y) <= 4)%nat
  /\ (String.length (DateTime.year_digits y) = 4%nat <-> (1000 <= y)%Z)
  /\ DateTime.int_of (DateTime.year_digits y) = y.
Proof.
  intros H. unfold DateTime.year_digits.
  destruct (Z.ltb_spec y 10); [|destruct (Z.ltb_spec y 100); [|destruct (Z.ltb_spec y 1000)]].
  - cbn [String.length Str.all]. rewrite digit_is_digit.
    split; [reflexivity|]. split; [lia|]. split; [split; [discriminate | lia]|].
    unfold DateTime.int_of. cbn [list_ascii_of_string fold_left].
    rewrite digit_is_digit, digit_value by lia. lia.
  - destruct (pad2_digits y) as [-> ->].
    split; [reflexivity|]. split; [lia|]. split; [split; [discriminate | lia]|].
    apply int_of_pad2. lia.
  - cbn [String.length Str.all]. destruct (pad2_digits (y mod 100)) as [-> ->].
    rewrite digit_is_digit.
    split; [reflexivity|]. split; [lia|]. split; [split; [discriminate | lia]|].
    unfold DateTime.int_of, DateTime.pad2. cbn [list_ascii_of_string fold_left].
    rewrite !digit_is_digit. rewrite !digit_value by divlia. divlia.
  - destruct (pad4_digits y) as [-> ->].
    split; [reflexivity|]. split; [lia|]. split; [split; [lia | reflexivity]|].
    apply int_of_pad4. lia.
Qed.

Lemma year_digits_padded y : (1000 <= y)%Z -> DateTime.year_digits y = DateTime.pad4 y.
Proof.
  intros H. unfold DateTime.year_digits.
  destruct (Z.ltb_spec y 10); [lia|]. destruct (Z.ltb_spec y 100); [lia|].
  destruct (Z.ltb_spec y 1000); [lia | reflexivity].
Qed.

Lemma strftime_stamp dt :
  DateTime.strftime dt "%Y%m%d_%H%M%S"
  = DateTime.year_digits (DateTime.year dt) +:+ DateTime.pad2 (DateTime.month dt)
    +:+ DateTime.pad2 (DateTime.day dt) +:+ "_" +:+ DateTime.pad2 (DateTime.hour dt)
    +:+ DateTime.pad2 (DateTime.minute dt) +:+ DateTime.pad2 (DateTime.second dt).
Proof. reflexivity. Qed.

Lemma datetime_ranges dt :
  (1 <= DateTime.year dt <= 9999 /\ 1 <= DateTime.month dt <= 12
   /\ 1 <= DateTime.day dt <= 31 /\ 0 <= DateTime.hour dt <= 23
   /\ 0 <= DateTime.minute dt <= 59 /\ 0 <= DateTime.second dt <= 59)%Z.
Proof.
  destruct dt as [y m d H M S ok]. cbn [DateTime.year DateTime.month DateTime.day
    DateTime.hour DateTime.minute DateTime.second].
  unfold DateTime.in_range in ok.
  repeat (apply andb_true_iff in ok as [ok ?]).
  assert (DateTime.days_in_month y m <= 31)%Z.
  { unfold DateTime.days_in_month. repeat case_match; lia. }
  lia.
Qed.





Lemma is_timestamp_length ts : is_timestamp ts = true -> String.length ts = 15%nat.
Proof.
  unfold is_timestamp. intros H. repeat (apply andb_true_iff in H as [H ?]).
  now apply Nat.eqb_eq.
Qed.


Lemma append_inj_length (s1 s2 t1 t2 : string) :
  s1 +:+ t1 = s2 +:+ t2 -> String.length s1 = String.length s2 -> s1 = s2 /\ t1 = t2.
Proof.
  revert s2. induction s1 as [|a s1 IH]; intros [|b s2] H L; try discriminate L.
  - split; [reflexivity | exact H].
  - rewrite !append_cons in H. injection H as -> H. injection L as L.
    destruct (IH _ H L) as [-> ->]. split; reflexivity.
Qed.




Lemma synthesized_name_unfold fs path :
  synthesized_name fs path
  = snd (confidence_and_date (fst (get_file_datetime fs path))) +:+ "_"
    +:+ fst (confidence_and_date (fst (get_file_datetime fs path))) +:+ "_"
    +:+ snd (get_file_datetime fs path) +:+ "_"
    +:+ compute_file_hash fs path HASH_LENGTH +:+ Str.lower (suffix path).
Proof.
  unfold synthesized_name. destruct (get_file_datetime fs path) as [dt camera].
  cbn [fst snd]. destruct (confidence_and_date dt). reflexivity.
Qed.




(** ** Paths and extensions *)

Lemma name_snoc (p : Path) n : name (p ++ [n]) = n.
Proof. unfold name. apply last_last. Qed.

Lemma parent_snoc (p : Path) n : parent (p ++ [n]) = p.
Proof. unfold parent. apply removelast_last. Qed.

Lemma name_div (p : Path) n : name (p // n) = n.
Proof. apply name_snoc. Qed.

Lemma parent_div (p : Path) n : parent (p // n) = p.
Proof. apply parent_snoc. Qed.

Lemma with_name_ok path n q :
  with_name path n = Ok q ->
  q = parent path ++ [n] /\ name path <> EmptyString /\ n <> EmptyString
  /\ Str.contains "/" n = false.
Proof.
  unfold with_name. destruct (String.eqb_spec (name path) EmptyString) as [|Hn]; [discriminate|].
  destruct (String.eqb_spec n EmptyString) as [|Hne]; [discriminate|].
  cbn [orb]. destruct (Str.contains "/" n); [discriminate|].
  cbn [orb]. destruct (String.eqb n "."); [discriminate|].
  intros [= <-]. auto.
Qed.

Lemma with_name_valid path n :
  name path <> EmptyString -> n <> EmptyString -> n <> "." -> Str.contains "/" n = false ->
  with_name path n = Ok (parent path ++ [n]).
Proof.
  intros Hp Hn Hdot Hs. unfold with_name.
  destruct (String.eqb_spec (name path) EmptyString); [contradiction|].
  destruct (String.eqb_spec n EmptyString); [contradiction|].
  rewrite Hs. destruct (String.eqb_spec n "."); [contradiction|]. reflexivity.
Qed.

Lemma supported_cases ext :
  supported ext = true ->
  ext = ".jpg" \/ ext = ".jpeg" \/ ext = ".png" \/ ext = ".mp4"
  \/ ext = ".mov" \/ ext = ".avi" \/ ext = ".heic".
Proof.
  unfold supported, SUPPORTED_EXTENSIONS. intros H. apply bool_decide_eq_true in H.
  rewrite !elem_of_union, !elem_of_singleton in H. tauto.
Qed.

(** A supported extension is a dot followed by a non-empty tail without a
    dot or a slash. *)
Lemma supported_shape ext :
  supported ext = true ->
  exists tail, ext = String "." tail /\ tail <> EmptyString
               /\ Str.rfind "." tail = None /\ Str.contains "/" ext = false.
Proof.
  intros H. apply supported_cases in H.
  repeat (destruct H as [->|H]; [eexists; repeat split; [discriminate | reflexivity..]|]).
  subst. eexists; repeat split; [discriminate | reflexivity..].
Qed.

Lemma rfind_append c (x : string) tail :
  Str.rfind c tail = None ->
  Str.rfind c (x +:+ String c tail) = Some (String.length x).
Proof.
  intros H. induction x as [|a x IH].
  - rewrite append_nil_l. cbn [Str.rfind]. rewrite H, Ascii.eqb_refl. reflexivity.
  - rewrite append_cons. cbn [Str.rfind String.length]. now rewrite IH.
Qed.

Lemma suffix_dot_append (x ext : string) :
  supported ext = true -> x <> EmptyString ->
  suffix_dot (x +:+ ext) = Some (String.length x).
Proof.
  intros Hs Hx. destruct (supported_shape _ Hs) as (tail & -> & Ht & Hr & _).
  unfold suffix_dot. rewrite (rfind_append _ _ _ Hr).
  rewrite append_length. cbn [String.length].
  destruct x as [|a x]; [contradiction|]. destruct tail as [|b tail]; [contradiction|].
  cbn [String.length].
  replace (0 <? S (String.length x))%nat with true by (symmetry; apply Nat.ltb_lt; lia).
  replace (S (String.length x) <? _)%nat with true by (symmetry; apply Nat.ltb_lt; lia).
  reflexivity.
Qed.

Lemma take_append (x y : string) : Str.take (String.length x) (x +:+ y) = x.
Proof.
  induction x as [|a x IH]; [destruct y; reflexivity|].
  rewrite append_cons. cbn [String.length Str.take]. now rewrite IH.
Qed.

Lemma drop_append (x y : string) : Str.drop (String.length x) (x +:+ y) = y.
Proof.
  induction x as [|a x IH]; [destruct y; reflexivity|].
  rewrite append_cons. cbn [String.length Str.drop]. exact IH.
Qed.

(** A name that ends with a supported extension splits there. *)
Lemma stem_append (p : Path) (x ext : string) :
  supported ext = true -> x <> EmptyString -> name p = x +:+ ext ->
  stem p = x /\ suffix p = ext.
Proof.
  intros Hs Hx Hn. unfold stem, suffix. rewrite Hn, (suffix_dot_append _ _ Hs Hx).
  split; [apply take_append | apply drop_append].
Qed.

Lemma suffix_nonempty_name (p : Path) : suffix p <> EmptyString -> name p <> EmptyString.
Proof. unfold suffix, suffix_dot. intros H E. rewrite E in H. now apply H. Qed.

Lemma supported_nonempty ext : supported ext = true -> ext <> EmptyString.
Proof. intros H ->. discriminate H. Qed.

Lemma lower_nonempty s : Str.lower s <> EmptyString -> s <> EmptyString.
Proof. intros H ->. now apply H. Qed.

Lemma supported_name_nonempty (path : Path) :
  supported (Str.lower (suffix path)) = true -> name path <> EmptyString.
Proof.
  intros H. apply suffix_nonempty_name, lower_nonempty, supported_nonempty, H.
Qed.

(** ** The rename worker, step by step *)

Lemma rename_file_worker_unsupported fs path dry_run :
  supported (Str.lower (suffix path)) = false ->
  rename_file_worker (path, dry_run) fs = (Ok None, fs).
Proof. intros H. unfold rename_file_worker. rewrite H. reflexivity. Qed.

Lemma rename_file_worker_unfold fs path dry_run :
  supported (Str.lower (suffix path)) = true ->
  rename_file_worker (path, dry_run) fs =
  match with_name path (synthesized_name fs path) with
  | Raise e => (Raise e, fs)
  | Ok candidate =>
      match rename_duplicates fs path candidate (Str.lower (suffix path)) with
      | Raise e => (Raise e, fs)
      | Ok new_path =>
          if dry_run then
            (Ok (Some ("Would rename: " +:+ name path +:+ " → " +:+ name new_path)), fs)
          else
            match shutil_move path new_path fs with
            | Ok fs' =>
                (Ok (Some ("Renamed: " +:+ name path +:+ " → " +:+ name new_path)), fs')
            | Raise e =>
                (Ok (Some ("Error renaming " +:+ str path +:+ ": " +:+ exn_str e)), fs)
            end
      end
  end.
Proof.
  intros H. unfold rename_file_worker. rewrite H. cbn [negb].
  unfold bind, read, lift, try_except, update, ret.
  destruct (with_name path (synthesized_name fs path)) as [candidate|e]; [|reflexivity].
  destruct (rename_duplicates fs path candidate _) as [new_path|e]; [|reflexivity].
  destruct dry_run; [reflexivity|].
  destruct (shutil_move path new_path fs); reflexivity.
Qed.

Lemma rename_duplicates_free fs path new_path ext :
  path_exists fs new_path = false -> rename_duplicates fs path new_path ext = Ok new_path.
Proof. intros H. unfold rename_duplicates. now rewrite H. Qed.




(** Scenario 2: a JPEG without an EXIF block. *)
Example no_exif_name :
  fst (rename_file_worker (["a.jpg"], true) one_empty_jpg)
  = Ok (Some "Would rename: a.jpg → UnknownDate_C_Unknown_d41d8cd9.jpg").
Proof. vm_compute. reflexivity. Qed.

(** ** Handling duplicates *)

Lemma contains_append c (s t : string) :
  Str.contains c (s +:+ t) = Str.contains c s || Str.contains c t.
Proof.
  induction s as [|a s IH]; [reflexivity|].
  rewrite append_cons. cbn [Str.contains]. rewrite IH. now rewrite orb_assoc.
Qed.

Lemma contains_take c n s : Str.contains c s = false -> Str.contains c (Str.take n s) = false.
Proof.
  revert s; induction n as [|n IH]; intros [|a s]; cbn [Str.take Str.contains];
    try reflexivity.
  intros H. apply orb_false_iff in H as [-> H]. now apply IH.
Qed.

Lemma pretty_N_go_no_slash x s :
  Str.contains "/" (pretty_N_go x s) = Str.contains "/" s.
Proof.
  revert s. induction (N.lt_wf_0 x) as [x _ IH]; intros s.
  destruct (decide (0 < x)%N) as [Hx|Hx].
  - rewrite pretty_N_go_step by exact Hx. rewrite IH by (now apply N.div_lt).
    cbn [Str.contains]. unfold pretty_N_char. repeat case_match; reflexivity.
  - replace x with 0%N by lia. now rewrite pretty_N_go_0.
Qed.

Lemma pretty_nat_no_slash (i : nat) : Str.contains "/" (pretty i) = false.
Proof.
  unfold pretty, pretty_nat, pretty, pretty_N.
  case_decide; [reflexivity|]. now rewrite pretty_N_go_no_slash.
Qed.

Lemma append_inj_l (s t1 t2 : string) : s +:+ t1 = s +:+ t2 -> t1 = t2.
Proof.
  induction s as [|a s IH]; [exact id|]. rewrite !append_cons. intros [= H]. auto.
Qed.

(** The counter can be read back from the name: no two rounds try the
    same name. *)
Lemma dup_name_inj base ext i j : dup_name base ext i = dup_name base ext j -> i = j.
Proof.
  unfold dup_name. intros H. apply append_inj_l, append_inj_l in H.
  assert (String.length (pretty i) = String.length (pretty j)) as L.
  { apply (f_equal String.length) in H. rewrite !append_length in H. lia. }
  apply append_inj_length in H as [H _]; [|exact L].
  now apply (inj pretty) in H.
Qed.

Lemma dup_name_nonempty base ext i : dup_name base ext i <> EmptyString.
Proof.
  unfold dup_name. intros H. apply (f_equal String.length) in H.
  rewrite !append_length in H. cbn in H. lia.
Qed.

Lemma dup_name_not_dot base ext i : dup_name base ext i <> ".".
Proof.
  unfold dup_name. intros H. apply (f_equal String.length) in H.
  rewrite !append_length in H. cbn in H. lia.
Qed.

Lemma path_exists_is_Some (fs : filesystem) p : path_exists fs p = true -> is_Some (fs !! p).
Proof. unfold path_exists. destruct (fs !! p); [eauto | discriminate]. Qed.

(** Among [size fs + 1] different paths one does not exist: the loop has a
    first free candidate within its rounds. *)
Lemma first_free_candidate (fs : filesystem) (mk : nat -> Path) :
  (forall i j, mk i = mk j -> i = j) ->
  exists k, (1 <= k <= S (size fs))%nat /\ path_exists fs (mk k) = false
            /\ forall j, (1 <= j < k)%nat -> path_exists fs (mk j) = true.
Proof.
  intros Hinj.
  assert (forall m, (exists k, (1 <= k <= m)%nat /\ path_exists fs (mk k) = false
                               /\ forall j, (1 <= j < k)%nat -> path_exists fs (mk j) = true)
                    \/ (forall j, (1 <= j <= m)%nat -> path_exists fs (mk j) = true)) as Hsearch.
  { induction m as [|m [(k & Hk & Hf & Hb)|Hall]].
    - right. intros j Hj. lia.
    - left. exists k. split; [lia|]. split; assumption.
    - destruct (path_exists fs (mk (S m))) eqn:E.
      + right. intros j Hj. destruct (decide (j = S m)) as [->|]; [exact E|].
        apply Hall. lia.
      + left. exists (S m). split; [lia|]. split; [exact E|].
        intros j Hj. apply Hall. lia. }
  destruct (Hsearch (S (size fs))) as [Hk|Hall]; [exact Hk|]. exfalso.
  assert (Inj (=) (=) mk) as Hinj' by (intros i j; apply Hinj).
  pose proof (NoDup_fmap_2 mk _ (NoDup_seq 1 (S (size fs)))) as Hnd.
  assert (list_to_set (mk <$> seq 1 (S (size fs))) ⊆ dom fs) as Hsub.
  { intros p Hp. apply elem_of_list_to_set, list_elem_of_fmap in Hp as (j & -> & Hj).
    apply elem_of_seq in Hj. apply elem_of_dom, path_exists_is_Some, Hall. lia. }
  apply subseteq_size in Hsub.
  rewrite size_list_to_set, length_fmap, length_seq, size_dom in Hsub by exact Hnd.
  lia.
Qed.

(** The loop, started on an existing path with counter [i], stops at the
    first candidate from [i] on that does not exist. *)
Lemma while_exists_stops fs (candidate : nat -> result Path) (mk : nat -> Path) :
  (forall j, candidate j = Ok (mk j)) ->
  forall n fuel i p,
    (n <= fuel)%nat -> path_exists fs p = true ->
    (forall j, (i <= j < i + n)%nat -> path_exists fs (mk j) = true) ->
    path_exists fs (mk (i + n)%nat) = false ->
    while_exists (S fuel) fs candidate p i = Ok (mk (i + n)%nat).
Proof.
  intros Hc. induction n as [|n IH]; intros fuel i p Hfuel Hp Hbelow Hfree.
  - cbn [while_exists]. rewrite Hp, Hc. rewrite Nat.add_0_r in *.
    destruct fuel; cbn [while_exists]; [reflexivity | now rewrite Hfree].
  - destruct fuel as [|fuel]; [lia|].
    change (while_exists (S (S fuel)) fs candidate p i)
      with (if path_exists fs p
            then match candidate i with
                 | Ok next => while_exists (S fuel) fs candidate next (S i)
                 | Raise e => Raise e
                 end
            else Ok p).
    rewrite Hp, Hc. replace (i + S n)%nat with (S i + n)%nat in * by lia.
    apply IH; [lia | apply Hbelow; lia | intros j Hj; apply Hbelow; lia | exact Hfree].
Qed.

Lemma while_exists_resolves fs (candidate : nat -> result Path) (mk : nat -> Path) p :
  (forall j, candidate j = Ok (mk j)) ->
  (forall i j, mk i = mk j -> i = j) ->
  path_exists fs p = true ->
  exists k, (1 <= k)%nat
            /\ while_exists (rounds fs) fs candidate p 1 = Ok (mk k)
            /\ path_exists fs (mk k) = false
            /\ forall j, (1 <= j < k)%nat -> path_exists fs (mk j) = true.
Proof.
  intros Hc Hinj Hp.
  destruct (first_free_candidate fs mk Hinj) as (k & Hk & Hfree & Hbelow).
  exists k. split; [lia|]. split; [|split; assumption].
  unfold rounds. replace k with (1 + (k - 1))%nat in Hfree |- * by lia.
  apply (while_exists_stops fs candidate mk Hc); [lia | exact Hp | | exact Hfree].
  intros j Hj. apply Hbelow. lia.
Qed.

Lemma stem_no_slash (p : Path) : Str.contains "/" (name p) = false ->
  Str.contains "/" (stem p) = false.
Proof.
  intros H. unfold stem. destruct (suffix_dot (name p)); [now apply contains_take | exact H].
Qed.

Lemma rename_candidate_ok path new_name new_path i :
  supported (Str.lower (suffix path)) = true ->
  with_name path new_name = Ok new_path ->
  with_name path (dup_name (stem new_path) (Str.lower (suffix path)) i)
  = Ok (parent path // dup_name (stem new_path) (Str.lower (suffix path)) i).
Proof.
  intros Hs Hw. destruct (with_name_ok _ _ _ Hw) as (-> & Hp & _ & Hslash).
  apply with_name_valid; [exact Hp | apply dup_name_nonempty | apply dup_name_not_dot |].
  unfold dup_name. rewrite !contains_append.
  rewrite stem_no_slash by (now rewrite name_snoc).
  rewrite pretty_nat_no_slash.
  destruct (supported_shape _ Hs) as (tail & _ & _ & _ & ->). reflexivity.
Qed.

Lemma snoc_inj (dir : Path) (a b : string) : dir // a = dir // b -> a = b.
Proof. unfold div. intros H. apply app_inv_head in H. now injection H. Qed.

Lemma rename_duplicates_resolves (fs : filesystem) (path : Path) new_name (new_path : Path) :
  let ext := Str.lower (suffix path) in
  let base := stem new_path in
  supported ext = true ->
  with_name path new_name = Ok new_path ->
  path_exists fs new_path = true ->
  exists k, (1 <= k)%nat
    /\ rename_duplicates fs path new_path ext = Ok (parent path // dup_name base ext k)
    /\ path_exists fs (parent path // dup_name base ext k) = false
    /\ forall j, (1 <= j < k)%nat ->
                 path_exists fs (parent path // dup_name base ext j) = true.
Proof.
  intros ext base Hs Hw Hex.
  unfold rename_duplicates. rewrite Hex. fold base.
  apply (while_exists_resolves fs _ (fun i => parent path // dup_name base ext i)).
  - intros j. apply (rename_candidate_ok path new_name new_path j Hs Hw).
  - intros i j H. apply snoc_inj, dup_name_inj in H. exact H.
  - exact Hex.
Qed.

Lemma organize_duplicates_resolves (fs : filesystem) (target_dir target_path : Path) ext :
  let base := stem target_path in
  path_exists fs target_path = true ->
  exists k, (1 <= k)%nat
    /\ organize_duplicates fs target_dir target_path ext
       = Ok (target_dir // dup_name base ext k)
    /\ path_exists fs (target_dir // dup_name base ext k) = false
    /\ forall j, (1 <= j < k)%nat ->
                 path_exists fs (target_dir // dup_name base ext j) = true.
Proof.
  intros base Hex.
  unfold organize_duplicates. rewrite Hex. fold base.
  apply (while_exists_resolves fs _ (fun i => target_dir // dup_name base ext i)).
  - reflexivity.
  - intros i j H. apply snoc_inj, dup_name_inj in H. exact H.
  - exact Hex.
Qed.



(** Scenario 3: of two bit-identical files the second gets [_dup1]. *)
Example twins_renamed :
  stdout (fst (rename [] false twins))
  = [ "Found 2 files to process...";
      "Renamed: two.jpg → UnknownDate_C_Unknown_90015098.jpg";
      "Renamed: one.jpg → UnknownDate_C_Unknown_90015098_dup1.jpg";
      ""; "✓ Completed: 2/2 files processed" ].
Proof. vm_compute. reflexivity. Qed.

(** ** Running [rename] again (C1) *)

Lemma path_split (p : Path) : name p <> EmptyString -> p = parent p ++ [name p].
Proof.
  intros H. unfold parent, name. apply app_removelast_last.
  intros ->. now apply H.
Qed.


Lemma stem_suffix (p : Path) : stem p +:+ suffix p = name p.
Proof.
  unfold stem, suffix. destruct (suffix_dot (name p)); [apply take_drop | apply append_nil_r].
Qed.

Lemma path_exists_not_dir_target (fs : filesystem) p :
  path_exists fs p = false -> isdir fs p = false /\ (fs !! p = None \/ fs !! p = Some BrokenLink).
Proof.
  unfold path_exists, isdir. destruct (fs !! p) as [[| |]|]; try discriminate; auto.
Qed.

(** Moving a regular file to a path that does not exist, in a directory
    that does. *)
Lemma shutil_move_file (fs : filesystem) src dst f :
  fs !! src = Some (File f) -> path_exists fs dst = false ->
  isdir fs (parent dst) = true -> src <> dst ->
  shutil_move src dst fs = Ok (<[dst := File f]> (delete src fs)).
Proof.
  intros Hsrc Hdst Hparent Hne.
  destruct (path_exists_not_dir_target _ _ Hdst) as [Hnd Hcases].
  unfold shutil_move. rewrite Hnd. unfold os_rename. rewrite Hsrc.
  destruct (decide (src = dst)); [contradiction|]. rewrite Hparent. cbn [negb].
  destruct Hcases as [-> | ->]; reflexivity.
Qed.

(** A regular file that already carries its synthesized name is given
    another one: the name collides with the file itself and a [_dup]
    suffix is added. *)
Lemma rename_again_adds_dup (fs : filesystem) path f :
  let ext := Str.lower (suffix path) in
  supported ext = true ->
  fs !! path = Some (File f) ->
  isdir fs (parent path) = true ->
  Str.contains "/" (name path) = false ->
  name path = synthesized_name fs path ->
  exists k, (1 <= k)%nat
    /\ dup_name (stem path) ext k <> name path
    /\ rename_file_worker (path, false) fs
       = (Ok (Some ("Renamed: " +:+ name path +:+ " → " +:+ dup_name (stem path) ext k)),
          <[parent path // dup_name (stem path) ext k := File f]> (delete path fs)).
Proof.
  intros ext Hs Hfile Hparent Hslash Hname. subst ext.
  pose proof (supported_name_nonempty _ Hs) as Hne.
  assert (with_name path (synthesized_name fs path) = Ok path) as Hw.
  { rewrite <- Hname. rewrite with_name_valid; try assumption.
    - now rewrite <- path_split.
    - intros E. unfold suffix in Hs. rewrite E in Hs. discriminate Hs. }
  assert (path_exists fs path = true) as Hex by (unfold path_exists; now rewrite Hfile).
  pose proof (rename_duplicates_resolves fs) as Hrename.
  destruct (Hrename path _ path Hs Hw Hex) as (k & Hk & Hdup & Hfree & _).
  exists k. split; [exact Hk|]. split.
  - intros E. rewrite <- (stem_suffix path) in E.
    apply (f_equal String.length) in E.
    unfold dup_name in E. rewrite !append_length, lower_length in E. cbn in E. lia.
  - rewrite (rename_file_worker_unfold _ _ _ Hs), Hw. rewrite Hdup.
    rewrite (shutil_move_file fs path _ f Hfile Hfree).
    + now rewrite name_div.
    + now rewrite parent_div.
    + intros E. rewrite E in Hex. congruence.
Qed.

(** C1 fails on the code. The file [a.jpg] is renamed to its canonical
    name by a first run; a second run, with nothing changed, renames it
    again, to the same name with [_dup1]. *)
Theorem rename_twice_adds_dup1 :
  let first := rename [] false one_empty_jpg in
  let second := rename [] false (snd first) in
  stdout (fst first)
  = [ "Found 1 files to process...";
      "Renamed: a.jpg → UnknownDate_C_Unknown_d41d8cd9.jpg";
      ""; "✓ Completed: 1/1 files processed" ]
  /\ synthesized_name (snd first) ["UnknownDate_C_Unknown_d41d8cd9.jpg"]
     = "UnknownDate_C_Unknown_d41d8cd9.jpg"
  /\ stdout (fst second)
     = [ "Found 1 files to process...";
         "Renamed: UnknownDate_C_Unknown_d41d8cd9.jpg → UnknownDate_C_Unknown_d41d8cd9_dup1.jpg";
         ""; "✓ Completed: 1/1 files processed" ]
  /\ snd second !! ["UnknownDate_C_Unknown_d41d8cd9.jpg"] = None
  /\ snd second !! ["UnknownDate_C_Unknown_d41d8cd9_dup1.jpg"]
     = one_empty_jpg !! ["a.jpg"].
Proof. cbv zeta. by_evaluation. Qed.

(** ** The organize worker, step by step *)

Section Organize.

Variable tz : Z -> Z.
Variable now : Z.

Lemma organize_date_unfold fs path :
  organize_date tz path fs = (date_result tz fs path, fs).
Proof.
  unfold organize_date, date_result, bind, read, ret, lift.
  destruct (get_file_datetime fs path) as [[dt|] camera]; cbn [fst]; [reflexivity|].
  destruct (stat_mtime fs path) as [t|e]; [|reflexivity].
  destruct (DateTime.fromtimestamp tz t); reflexivity.
Qed.

Lemma organize_target_unfold fs path output_dir ext :
  organize_target tz path output_dir ext fs =
  match date_result tz fs path with
  | Raise e => (Raise e, fs)
  | Ok dt =>
      let target_dir := date_dir output_dir dt in
      match organize_duplicates fs target_dir (target_dir // name path) ext with
      | Ok target_path => (Ok (target_dir, target_path), fs)
      | Raise e => (Raise e, fs)
      end
  end.
Proof.
  unfold organize_target, bind. rewrite organize_date_unfold.
  destruct (date_result tz fs path) as [dt|e]; [|reflexivity]. cbv zeta.
  destruct (organize_duplicates _ _ _ _); reflexivity.
Qed.

Lemma organize_file_worker_unsupported fs path output_dir dry_run copy_mode :
  supported (Str.lower (suffix path)) = false ->
  organize_file_worker tz now (path, output_dir, dry_run, copy_mode) fs = (Ok None, fs).
Proof. intros H. unfold organize_file_worker. rewrite H. reflexivity. Qed.

Lemma organize_file_worker_unfold fs path output_dir dry_run copy_mode :
  supported (Str.lower (suffix path)) = true ->
  organize_file_worker tz now (path, output_dir, dry_run, copy_mode) fs =
  match organize_target tz path output_dir (Str.lower (suffix path)) fs with
  | (Raise e, _) => (Raise e, fs)
  | (Ok (target_dir, target_path), _) =>
      let action := if copy_mode then "copy" else "move" in
      if dry_run then
        match relative_to target_path output_dir with
        | Ok shown =>
            (Ok (Some ("Would " +:+ action +:+ ": " +:+ str path +:+ " → " +:+ str shown)), fs)
        | Raise e => (Raise e, fs)
        end
      else
        let failed e fs' :=
          (Ok (Some ("Error " +:+ action +:+ "ing " +:+ str path +:+ ": " +:+ exn_str e)), fs') in
        match mkdir_parents now target_dir fs with
        | Raise e => failed e fs
        | Ok fs1 =>
            match (if copy_mode then shutil_copy2 path target_path
                   else shutil_move path target_path) fs1 with
            | Raise e => failed e fs1
            | Ok fs2 =>
                match relative_to target_path output_dir with
                | Ok shown =>
                    (Ok (Some (Str.capitalize action +:+ "d: " +:+ name path +:+ " → "
                                 +:+ str shown)), fs2)
                | Raise e => failed e fs2
                end
            end
        end
  end.
Proof.
  intros H. unfold organize_file_worker. rewrite H. cbn [negb].
  unfold bind at 1. rewrite organize_target_unfold.
  destruct (date_result tz fs path) as [dt|e]; [|reflexivity]. cbv zeta.
  destruct (organize_duplicates _ _ _ _) as [target_path|e]; [|reflexivity].
  destruct dry_run.
  - unfold bind, lift, ret. destruct (relative_to _ _); reflexivity.
  - unfold try_except, bind, update, lift, ret.
    destruct (mkdir_parents now _ fs) as [fs1|e]; [|reflexivity].
    destruct copy_mode.
    + destruct (shutil_copy2 _ _ fs1) as [fs2|e]; [|reflexivity].
      destruct (relative_to _ _); reflexivity.
    + destruct (shutil_move _ _ fs1) as [fs2|e]; [|reflexivity].
      destruct (relative_to _ _); reflexivity.
Qed.

(** The target always lies under the output directory, so showing it
    relative to that directory cannot fail. *)
Lemma strip_prefix_app (base rel : Path) : strip_prefix base (base ++ rel) = Some rel.
Proof.
  induction base as [|b base IH]; [destruct rel; reflexivity|].
  cbn [app strip_prefix]. now rewrite String.eqb_refl.
Qed.

Lemma relative_to_under (base rel : Path) : relative_to (base ++ rel) base = Ok rel.
Proof. unfold relative_to. now rewrite strip_prefix_app. Qed.

Lemma date_dir_unfold output_dir dt :
  date_dir output_dir dt
  = output_dir ++ [DateTime.year_digits (DateTime.year dt); DateTime.pad2 (DateTime.month dt);
                   DateTime.pad2 (DateTime.day dt)].
Proof.
  unfold date_dir, div. cbn [DateTime.strftime Ascii.eqb Bool.eqb DateTime.directive].
  now rewrite !append_nil_r, <- !app_assoc.
Qed.

Lemma organize_duplicates_under fs target_dir file_name ext final :
  organize_duplicates fs target_dir (target_dir // file_name) ext = Ok final ->
  exists final_name, final = target_dir // final_name.
Proof.
  intros H. destruct (path_exists fs (target_dir // file_name)) eqn:E.
  - pose proof (organize_duplicates_resolves fs) as Horg.
    destruct (Horg target_dir _ ext E) as (k & _ & Hk & _).
    rewrite Hk in H. injection H as <-. eauto.
  - unfold organize_duplicates in H. rewrite E in H. injection H as <-. eauto.
Qed.

Lemma relative_to_date_dir output_dir dt file_name :
  relative_to (date_dir output_dir dt // file_name) output_dir
  = Ok [DateTime.year_digits (DateTime.year dt); DateTime.pad2 (DateTime.month dt);
        DateTime.pad2 (DateTime.day dt); file_name].
Proof.
  rewrite date_dir_unfold. unfold div. rewrite <- app_assoc. apply relative_to_under.
Qed.

Lemma organize_duplicates_total fs target_dir target_path ext :
  exists final, organize_duplicates fs target_dir target_path ext = Ok final
                /\ path_exists fs final = false.
Proof.
  destruct (path_exists fs target_path) eqn:E.
  - pose proof (organize_duplicates_resolves fs) as Horg.
    destruct (Horg target_dir target_path ext E) as (k & _ & Hk & Hfree & _). eauto.
  - exists target_path. unfold organize_duplicates. now rewrite E.
Qed.

End Organize.

(** ** Failures inside one file's processing (C2) *)

Section Isolation.

Variable tz : Z -> Z.
Variable now : Z.

(** What the [try] blocks cover: once the target is known, the organize
    worker returns a line, an [Error ...] line when creating the
    directory, moving or copying fails. *)
Lemma organize_worker_returns fs path output_dir dry_run copy_mode dt :
  supported (Str.lower (suffix path)) = true ->
  date_result tz fs path = Ok dt ->
  exists line, fst (organize_file_worker tz now (path, output_dir, dry_run, copy_mode) fs)
               = Ok (Some line).
Proof.
  intros Hs Hd. rewrite (organize_file_worker_unfold _ _ _ _ _ _ _ Hs).
  rewrite organize_target_unfold, Hd. cbv zeta.
  destruct (organize_duplicates_total fs (date_dir output_dir dt)
              (date_dir output_dir dt // name path) (Str.lower (suffix path)))
    as (final & Hfinal & _).
  rewrite Hfinal.
  destruct (organize_duplicates_under _ _ _ _ _ Hfinal) as [final_name ->].
  rewrite relative_to_date_dir.
  destruct dry_run; [eauto|].
  - destruct (mkdir_parents now _ fs) as [fs1|e]; [|eauto].
    destruct ((if copy_mode then _ else _) fs1) as [fs2|e]; eauto.
Qed.

Lemma rename_duplicates_total fs path new_name candidate :
  supported (Str.lower (suffix path)) = true ->
  with_name path new_name = Ok candidate ->
  exists new_path, rename_duplicates fs path candidate (Str.lower (suffix path)) = Ok new_path
                   /\ path_exists fs new_path = false
                   /\ parent new_path = parent path.
Proof.
  intros Hs Hw. destruct (path_exists fs candidate) eqn:E.
  - pose proof (rename_duplicates_resolves fs) as Hrename.
    destruct (Hrename path new_name candidate Hs Hw E) as (k & _ & Hk & Hfree & _).
    eexists. split; [exact Hk|]. split; [exact Hfree | apply parent_div].
  - exists candidate. rewrite rename_duplicates_free by exact E.
    split; [reflexivity|]. split; [exact E|].
    destruct (with_name_ok _ _ _ Hw) as (-> & _). apply parent_snoc.
Qed.

(** The same for the rename worker, once the synthesized name is
    accepted as a file name. *)
Lemma rename_worker_returns fs path dry_run candidate :
  supported (Str.lower (suffix path)) = true ->
  with_name path (synthesized_name fs path) = Ok candidate ->
  exists line, fst (rename_file_worker (path, dry_run) fs) = Ok (Some line).
Proof.
  intros Hs Hw. rewrite (rename_file_worker_unfold _ _ _ Hs), Hw.
  destruct (rename_duplicates_total fs _ _ _ Hs Hw) as (new_path & -> & _).
  destruct dry_run; [eauto|]. destruct (shutil_move _ _ _); eauto.
Qed.

(** What they do not cover: the modification time is read before the
    [try], and an error there leaves the worker as an exception. *)
Lemma organize_worker_stat_raises fs path output_dir dry_run copy_mode e :
  supported (Str.lower (suffix path)) = true ->
  fst (get_file_datetime fs path) = None ->
  stat_mtime fs path = Raise e ->
  organize_file_worker tz now (path, output_dir, dry_run, copy_mode) fs = (Raise e, fs).
Proof.
  intros Hs Hd Hstat. rewrite (organize_file_worker_unfold _ _ _ _ _ _ _ Hs).
  rewrite organize_target_unfold. unfold date_result. now rewrite Hd, Hstat.
Qed.

(** The loop over the futures stops at the first one that holds an
    exception: the lines of the later ones are never written. *)
Lemma collect_results_stops e rest out done :
  collect_results (Raise e :: rest) out done = Report out done (Some e).
Proof. reflexivity. Qed.

End Isolation.

(** C2 fails on the code. Of the three files discovered, the dangling link
    has no modification time to read: its worker raises, the command ends
    with that exception after one outcome, and [a.jpg], which the pool did
    move, is never reported. *)
Theorem stat_failure_aborts_batch :
  let run := organize utc 0 ["in"] ["out"] false false with_broken_link in
  collect_files with_broken_link ["in"]
  = [ ["in"; "z.jpg"]; ["in"; "dangling.jpg"]; ["in"; "a.jpg"] ]
  /\ fst (organize_file_worker utc 0 (["in"; "dangling.jpg"], ["out"], false, false)
                                with_broken_link)
     = Raise (FileNotFoundError ["in"; "dangling.jpg"])
  /\ raised (fst run) = Some (FileNotFoundError ["in"; "dangling.jpg"])
  /\ progress (fst run) = 1%nat
  /\ stdout (fst run)
     = [ "Found 3 files to organize..."; "Source: in"; "Destination: out";
         "Action: Moving files"; ""; "Moved: z.jpg → 2023/05/01/z.jpg" ]
  /\ snd run !! ["out"; "2023"; "05"; "01"; "a.jpg"] = with_broken_link !! ["in"; "a.jpg"]
  /\ snd run !! ["in"; "a.jpg"] = None.
Proof. cbv zeta. by_evaluation. Qed.

(** ** Dry runs (C6) *)

(** C6, as stated, fails: a dry run does not always return a message. A
    file with an unsupported extension gets none; and the organize worker
    raises, instead of returning, when the modification time cannot be
    read. *)
Lemma dry_run_message_counterexample :
  fst (rename_file_worker (["in"; "notes.txt"], true) with_broken_link) = Ok None
  /\ fst (organize_file_worker utc 0 (["in"; "notes.txt"], ["out"], true, false)
                                with_broken_link) = Ok None
  /\ fst (organize_file_worker utc 0 (["in"; "dangling.jpg"], ["out"], true, false)
                                with_broken_link)
     = Raise (FileNotFoundError ["in"; "dangling.jpg"]).
Proof. by_evaluation. Qed.

Lemma run_pool_unchanged {A} (worker : A -> M (option string)) (args : list A) fs :
  (forall a fs', In a args -> snd (worker a fs') = fs') -> snd (run_pool worker args fs) = fs.
Proof.
  revert fs. induction args as [|a args IH]; intros fs H; [reflexivity|].
  cbn [run_pool]. pose proof (H a fs (or_introl eq_refl)) as Ha.
  destruct (worker a fs) as [r fs']. cbn [snd] in Ha. subst fs'.
  assert (snd (run_pool worker args fs) = fs) as IH'.
  { apply IH. intros b fs' Hb. apply H. now right. }
  destruct (run_pool worker args fs) as [rs fs'']. exact IH'.
Qed.

Lemma rename_state directory dry_run fs :
  snd (rename directory dry_run fs)
  = if (length (collect_files fs directory) =? 0)%nat then fs
    else snd (run_pool rename_file_worker
                (map (fun f => (f, dry_run)) (collect_files fs directory)) fs).
Proof.
  unfold rename. destruct (length (collect_files fs directory) =? 0)%nat; [reflexivity|].
  destruct (run_pool rename_file_worker _ fs). reflexivity.
Qed.

Lemma organize_state tz now source destination dry_run copy fs :
  snd (organize tz now source destination dry_run copy fs)
  = if (length (collect_files fs source) =? 0)%nat then fs
    else snd (run_pool (organize_file_worker tz now)
                (map (fun f => (f, destination, dry_run, copy)) (collect_files fs source)) fs).
Proof.
  unfold organize. destruct (length (collect_files fs source) =? 0)%nat; [reflexivity|].
  destruct (run_pool (organize_file_worker tz now) _ fs). reflexivity.
Qed.

Section DryRun.

Variable tz : Z -> Z.
Variable now : Z.

Lemma rename_dry_run_state fs path : snd (rename_file_worker (path, true) fs) = fs.
Proof.
  destruct (supported (Str.lower (suffix path))) eqn:Hs.
  - rewrite (rename_file_worker_unfold _ _ _ Hs).
    destruct (with_name _ _); [|reflexivity].
    destruct (rename_duplicates _ _ _ _); reflexivity.
  - now rewrite rename_file_worker_unsupported.
Qed.

Lemma organize_dry_run_state fs path output_dir copy_mode :
  snd (organize_file_worker tz now (path, output_dir, true, copy_mode) fs) = fs.
Proof.
  destruct (supported (Str.lower (suffix path))) eqn:Hs.
  - rewrite (organize_file_worker_unfold _ _ _ _ _ _ _ Hs), organize_target_unfold.
    destruct (date_result tz fs path); [|reflexivity]. cbv zeta.
    destruct (organize_duplicates _ _ _ _); [|reflexivity].
    destruct (relative_to _ _); reflexivity.
  - now rewrite organize_file_worker_unsupported.
Qed.


(** C6 (amended): with dry-run enabled nothing is moved, copied, renamed
    or created: the file system after a worker, and after a whole command,
    is the one before, whether the worker returns or raises. For an
    extension that is not supported both workers return nothing. For a
    supported one, whenever the rename worker returns it returns
    [Would rename: <name> → <new name>], the new name being free in the
    directory of the file; whenever the organize worker returns it returns
    [Would move: <path> → <year>/<MM>/<DD>/<file name>] ([Would copy:] in
    copy mode) for the date of the file, the path shown being free under
    the output directory. *)
Theorem dry_run_changes_nothing :
  (forall fs path, snd (rename_file_worker (path, true) fs) = fs)
  /\ (forall fs path output_dir copy_mode,
        snd (organize_file_worker tz now (path, output_dir, true, copy_mode) fs) = fs)
  /\ (forall fs directory, snd (rename directory true fs) = fs)
  /\ (forall fs source destination copy,
        snd (organize tz now source destination true copy fs) = fs)
  /\ (forall fs path output_dir copy_mode,
        supported (Str.lower (suffix path)) = false ->
        rename_file_worker (path, true) fs = (Ok None, fs)
        /\ organize_file_worker tz now (path, output_dir, true, copy_mode) fs = (Ok None, fs))
  /\ (forall fs path r,
        supported (Str.lower (suffix path)) = true ->
        fst (rename_file_worker (path, true) fs) = Ok r ->
        exists new_path,
          parent new_path = parent path /\ path_exists fs new_path = false
          /\ r = Some ("Would rename: " +:+ name path +:+ " → " +:+ name new_path))
  /\ (forall fs path output_dir copy_mode r,
        supported (Str.lower (suffix path)) = true ->
        fst (organize_file_worker tz now (path, output_dir, true, copy_mode) fs) = Ok r ->
        exists dt file_name,
          fst (organize_date tz path fs) = Ok dt
          /\ path_exists fs (date_dir output_dir dt // file_name) = false
          /\ r = Some ("Would " +:+ (if copy_mode then "copy" else "move") +:+ ": "
                         +:+ str path +:+ " → "
                         +:+ str [DateTime.year_digits (DateTime.year dt);
                                  DateTime.pad2 (DateTime.month dt);
                                  DateTime.pad2 (DateTime.day dt); file_name])).
Proof.
  split; [exact rename_dry_run_state|].
  split; [exact organize_dry_run_state|].
  split.
  { intros fs directory. rewrite rename_state.
    destruct (_ =? 0)%nat; [reflexivity|]. apply run_pool_unchanged.
    intros a fs' Ha. apply in_map_iff in Ha as (f & <- & _).
    apply rename_dry_run_state. }
  split.
  { intros fs source destination copy. rewrite organize_state.
    destruct (_ =? 0)%nat; [reflexivity|]. apply run_pool_unchanged.
    intros a fs' Ha. apply in_map_iff in Ha as (f & <- & _).
    apply organize_dry_run_state. }
  split.
  { intros fs path output_dir copy_mode Hs.
    split; [now apply rename_file_worker_unsupported|].
    now apply organize_file_worker_unsupported. }
  split.
  - intros fs path r Hs Hr. rewrite (rename_file_worker_unfold _ _ _ Hs) in Hr.
    destruct (with_name path (synthesized_name fs path)) as [candidate|e] eqn:Hw;
      [|discriminate Hr].
    destruct (rename_duplicates_total fs _ _ _ Hs Hw) as (new_path & Hdup & Hfree & Hparent).
    rewrite Hdup in Hr. cbn [fst] in Hr. injection Hr as <-.
    exists new_path. split; [exact Hparent|]. split; [exact Hfree | reflexivity].
  - intros fs path output_dir copy_mode r Hs Hr.
    rewrite (organize_file_worker_unfold _ _ _ _ _ _ _ Hs), organize_target_unfold in Hr.
    destruct (date_result tz fs path) as [dt|e] eqn:Hd; [|discriminate Hr].
    cbv zeta in Hr.
    destruct (organize_duplicates_total fs (date_dir output_dir dt)
                (date_dir output_dir dt // name path) (Str.lower (suffix path)))
      as (final & Hfinal & Hfree).
    destruct (organize_duplicates_under _ _ _ _ _ Hfinal) as [file_name ->].
    rewrite Hfinal, relative_to_date_dir in Hr. cbn [fst] in Hr. injection Hr as <-.
    exists dt, file_name. rewrite organize_date_unfold, Hd.
    split; [reflexivity|]. split; [exact Hfree | reflexivity].
Qed.

End DryRun.

Lemma dry_run_changes_nothing_witness :
  snd (organize utc 0 ["in"] ["out"] true false with_broken_link) = with_broken_link
  /\ fst (organize_file_worker utc 0 (["in"; "notes.txt"], ["out"], true, false)
                                with_broken_link) = Ok None
  /\ exists new_path,
       path_exists with_broken_link new_path = false
       /\ fst (rename_file_worker (["in"; "a.jpg"], true) with_broken_link)
          = Ok (Some ("Would rename: " +:+ "a.jpg" +:+ " → " +:+ name new_path)).
Proof.
  destruct (dry_run_changes_nothing utc 0) as (_ & _ & _ & Horg & Hnone & Hren & _).
  split; [apply Horg|]. split.
  { destruct (Hnone with_broken_link ["in"; "notes.txt"] ["out"] false
                ltac:(vm_compute; reflexivity)) as [_ H].
    exact (f_equal fst H). }
  destruct (fst (rename_file_worker (["in"; "a.jpg"], true) with_broken_link))
    as [r|e] eqn:E; [|exfalso; vm_compute in E; discriminate E].
  destruct (Hren with_broken_link ["in"; "a.jpg"] r ltac:(vm_compute; reflexivity) E)
    as (new_path & _ & Hfree & ->).
  exists new_path. split; [exact Hfree | reflexivity].
Defined.

(** ** The date directory (C7) *)


Section Routing.

Variable tz : Z -> Z.
Variable now : Z.




End Routing.


(** Scenario 4: the video with unparsable metadata lands under the day of
    its modification time. *)
Example unparsable_video_organized :
  let run := organize_file_worker utc 0 (["in"; "clip.MOV"], ["out"], false, false)
                                  unparsable_video in
  fst run = Ok (Some "Moved: clip.MOV → 2023/05/01/clip.MOV")
  /\ snd run !! ["out"; "2023"; "05"; "01"; "clip.MOV"]
     = unparsable_video !! ["in"; "clip.MOV"]
  /\ snd run !! ["in"; "clip.MOV"] = None.
Proof. cbv zeta. by_evaluation. Qed.

(** ** Only supported files are discovered and touched (C8) *)

Lemma path_split_cons (p : Path) : p <> [] -> p = parent p // name p.
Proof. intros H. unfold parent, name, div. now apply app_removelast_last. Qed.

Lemma listdir_lookup (fs : filesystem) dir entry n :
  (entry, n) ∈ listdir fs dir -> fs !! (dir // entry) = Some n.
Proof.
  unfold listdir. intros H. apply list_elem_of_omap in H as ([p n'] & Hin & Hsome).
  apply elem_of_map_to_list in Hin.
  destruct p as [|c p]; [discriminate|].
  destruct (decide (parent (c :: p) = dir)) as [Hp|]; [|discriminate].
  injection Hsome as <- <-.
  rewrite <- Hp, <- path_split_cons by discriminate. exact Hin.
Qed.

Lemma listdir_complete (fs : filesystem) dir entry n :
  fs !! (dir // entry) = Some n -> (entry, n) ∈ listdir fs dir.
Proof.
  intros H. unfold listdir. apply list_elem_of_omap. exists (dir // entry, n).
  split; [now apply elem_of_map_to_list|].
  pose proof (parent_div dir entry) as Hp. pose proof (name_div dir entry) as Hn.
  destruct (dir // entry) as [|c p] eqn:E.
  { unfold div in E. destruct dir; discriminate E. }
  rewrite Hp, Hn. destruct (decide (dir = dir)); [reflexivity | contradiction].
Qed.

(** The triple [os.walk] yields for a directory. *)
Lemma os_walk_from_triple (fuel : nat) (fs : filesystem) (top root : Path) dirnames filenames :
  (root, dirnames, filenames) ∈ os_walk_from fuel fs top ->
  isdir fs root = true
  /\ dirnames = (fst <$> filter (fun e => is_dir_node (snd e)) (listdir fs root))
  /\ filenames = (fst <$> filter (fun e => negb (is_dir_node (snd e))) (listdir fs root)).
Proof.
  revert top. induction fuel as [|fuel IH]; intros top H; [inversion H|].
  cbn [os_walk_from] in H. destruct (isdir fs top) eqn:Hd; [|inversion H].
  apply elem_of_cons in H as [H|H].
  - injection H as -> -> ->. auto.
  - apply list_elem_of_bind in H as (dn & H & _). eapply IH, H.
Qed.

Lemma walked_file_is_not_dir (fuel : nat) (fs : filesystem) (top root : Path) dirnames filenames f :
  (root, dirnames, filenames) ∈ os_walk_from fuel fs top -> f ∈ filenames ->
  exists n, fs !! (root // f) = Some n /\ is_dir_node n = false.
Proof.
  intros H Hf. apply os_walk_from_triple in H as (_ & _ & ->).
  apply list_elem_of_fmap in Hf as ([f' n] & -> & Hin).
  apply list_elem_of_filter in Hin as [Hnd Hin]. cbn [fst snd] in *.
  exists n. split; [now apply listdir_lookup|].
  destruct (is_dir_node n); [contradiction Hnd | reflexivity].
Qed.

Lemma suffix_div (root : Path) f : suffix (root // f) = suffix [f].
Proof. unfold suffix. now rewrite name_div. Qed.

(** Every discovered path has a supported extension and is an entry of
    the file system that is not a directory. *)
Lemma collect_files_sound (fs : filesystem) base_dir p :
  p ∈ collect_files fs base_dir ->
  supported (Str.lower (suffix p)) = true
  /\ exists n, fs !! p = Some n /\ is_dir_node n = false.
Proof.
  unfold collect_files. intros H.
  apply list_elem_of_bind in H as ([[root dirnames] filenames] & H & Hwalk).
  apply list_elem_of_bind in H as (f & H & Hf).
  destruct (supported (Str.lower (suffix [f]))) eqn:Hs; [|inversion H].
  apply list_elem_of_singleton in H as ->. split.
  - now rewrite suffix_div.
  - eapply walked_file_is_not_dir; eassumption.
Qed.

Lemma keeps_others_refl (path : Path) (fs : filesystem) : keeps_others path fs fs.
Proof. intros q nq _ H. now left. Qed.

Lemma not_dir_node (fs : filesystem) p n :
  fs !! p = Some n -> isdir fs p = is_dir_node n.
Proof. intros H. unfold isdir. rewrite H. destruct n; reflexivity. Qed.

(** Moving something that is not a directory to a path that does not
    exist: nothing happens, or the entry changes place. *)
Lemma shutil_move_effect (fs fs' : filesystem) src dst :
  isdir fs src = false -> path_exists fs dst = false ->
  shutil_move src dst fs = Ok fs' ->
  fs' = fs
  \/ exists n, fs !! src = Some n /\ is_dir_node n = false /\ src <> dst
               /\ fs' = <[dst := n]> (delete src fs).
Proof.
  intros Hsrc Hdst. destruct (path_exists_not_dir_target _ _ Hdst) as [Hnd Hcases].
  unfold shutil_move. rewrite Hnd. unfold os_rename.
  destruct (fs !! src) as [n|] eqn:Hn; [|discriminate].
  rewrite (not_dir_node _ _ _ Hn) in Hsrc.
  destruct (decide (src = dst)); [intros [= <-]; now left|].
  destruct (negb (isdir fs (parent dst))); [discriminate|].
  destruct n as [f| |]; [|discriminate Hsrc|];
    (destruct Hcases as [-> | ->]; intros [= <-]; right; eexists; eauto).
Qed.

Lemma shutil_copy2_effect (fs fs' : filesystem) src dst :
  path_exists fs dst = false ->
  shutil_copy2 src dst fs = Ok fs' ->
  exists f, fs !! src = Some (File f) /\ src <> dst /\ fs' = <[dst := File f]> fs.
Proof.
  intros Hdst. destruct (path_exists_not_dir_target _ _ Hdst) as [Hnd Hcases].
  unfold shutil_copy2. rewrite Hnd.
  destruct (fs !! src) as [[f| |]|] eqn:Hn; try discriminate.
  destruct (decide (src = dst)); [discriminate|].
  destruct (negb (readable f)); [discriminate|].
  destruct Hcases as [-> | ->]; [|discriminate].
  destruct (isdir fs (parent dst)); [|discriminate].
  intros [= <-]. eauto.
Qed.

Lemma mkdir_fold_raise (now : Z) (p : Path) (l : list Path) e :
  fold_left (mkdir_step now p) l (Raise e) = Raise e.
Proof. induction l as [|q l IH]; [reflexivity | exact IH]. Qed.

(** Creating the directories on the way to [p] only adds directories, at
    prefixes of [p] where nothing was. *)
Lemma mkdir_parents_effect (now : Z) (p : Path) (fs fs' : filesystem) :
  mkdir_parents now p fs = Ok fs' ->
  forall q, fs' !! q = fs !! q
            \/ (fs !! q = None /\ In q (prefixes p) /\ fs' !! q = Some (Dir now)).
Proof.
  unfold mkdir_parents. generalize (prefixes p). intros l. revert fs.
  induction l as [|x l IH]; intros fs H q.
  - injection H as <-. now left.
  - cbn [fold_left mkdir_step] in H. destruct (fs !! x) as [[f|t|]|] eqn:Hx.
    + destruct (decide (x = p)); rewrite mkdir_fold_raise in H; discriminate H.
    + destruct (IH _ H q) as [Hq|(Hq & Hin & Hq')]; [now left|].
      right. split; [exact Hq|]. split; [now right | exact Hq'].
    + rewrite mkdir_fold_raise in H. discriminate H.
    + destruct (decide (q = x)) as [->|Hne].
      * right. split; [exact Hx|]. split; [now left|].
        destruct (IH _ H x) as [Hq|(Hq & _)].
        -- rewrite Hq. apply lookup_insert_eq.
        -- rewrite lookup_insert_eq in Hq. discriminate Hq.
      * destruct (IH _ H q) as [Hq|(Hq & Hin & Hq')].
        -- left. rewrite Hq. now apply lookup_insert_ne.
        -- right. rewrite lookup_insert_ne in Hq by congruence.
           split; [exact Hq|]. split; [now right | exact Hq'].
Qed.

Lemma prefixes_length (p q : Path) : In q (prefixes p) -> (length q <= length p)%nat.
Proof.
  revert q. induction p as [|c p IH]; intros q H.
  - destruct H as [<-|[]]. reflexivity.
  - destruct H as [<-|H]; [cbn; lia|].
    apply in_map_iff in H as (q' & <- & H). apply IH in H. cbn. lia.
Qed.

Lemma not_prefix_of_parent (dir : Path) entry : ~ In (dir // entry) (prefixes dir).
Proof.
  intros H. apply prefixes_length in H. unfold div in H. rewrite length_app in H.
  cbn in H. lia.
Qed.

Lemma get_file_datetime_absent (fs : filesystem) path :
  fs !! path = None -> fst (get_file_datetime fs path) = None.
Proof.
  intros H. unfold get_file_datetime.
  destruct (decide _).
  - unfold get_exif_datetime, get_exif_datetime_body, image_getexif. now rewrite H.
  - destruct (decide _); [|reflexivity].
    unfold get_video_datetime, hachoir_parse. now rewrite H.
Qed.

Lemma lower_supported ext : supported ext = true -> Str.lower ext = ext.
Proof.
  intros H. apply supported_cases in H.
  repeat (destruct H as [->|H]; [reflexivity|]). subst. reflexivity.
Qed.

Lemma suffix_of_named (p : Path) x ext :
  supported ext = true -> x <> EmptyString -> name p = x +:+ ext ->
  Str.lower (suffix p) = ext.
Proof.
  intros Hs Hx Hn. destruct (stem_append p x ext Hs Hx Hn) as [_ ->].
  now apply lower_supported.
Qed.

Lemma append_nonempty_l (s t : string) : s <> EmptyString -> s +:+ t <> EmptyString.
Proof. destruct s; [contradiction | discriminate]. Qed.

Lemma synthesized_name_split (fs : filesystem) path :
  exists x, x <> EmptyString /\ synthesized_name fs path = x +:+ Str.lower (suffix path).
Proof.
  rewrite synthesized_name_unfold.
  set (A := snd (confidence_and_date _)). set (B := fst (confidence_and_date _)).
  set (C := snd (get_file_datetime fs path)). set (H := compute_file_hash _ _ _).
  exists (A +:+ "_" +:+ B +:+ "_" +:+ C +:+ "_" +:+ H). split.
  - intros E. apply (f_equal String.length) in E. rewrite !append_length in E.
    cbn in E. lia.
  - now rewrite !append_assoc.
Qed.

Lemma dup_name_split base ext i :
  dup_name base ext i = (base +:+ "_dup" +:+ pretty i) +:+ ext
  /\ base +:+ "_dup" +:+ pretty i <> EmptyString.
Proof.
  unfold dup_name. split; [now rewrite !append_assoc|].
  intros E. apply (f_equal String.length) in E. rewrite !append_length in E.
  cbn in E. lia.
Qed.

Lemma dup_name_supported (dir : Path) base ext i :
  supported ext = true -> Str.lower (suffix (dir // dup_name base ext i)) = ext.
Proof.
  intros Hs. destruct (dup_name_split base ext i) as [Hsplit Hne].
  eapply suffix_of_named; [exact Hs | exact Hne |]. now rewrite name_div.
Qed.

(** The path the rename worker moves to does not exist and has the
    extension of the source. *)
Lemma rename_target (fs : filesystem) path candidate new_path :
  supported (Str.lower (suffix path)) = true ->
  with_name path (synthesized_name fs path) = Ok candidate ->
  rename_duplicates fs path candidate (Str.lower (suffix path)) = Ok new_path ->
  path_exists fs new_path = false
  /\ Str.lower (suffix new_path) = Str.lower (suffix path).
Proof.
  intros Hs Hw Hdup. destruct (path_exists fs candidate) eqn:E.
  - pose proof (rename_duplicates_resolves fs) as Hrename.
    destruct (Hrename path _ candidate Hs Hw E) as (k & _ & Hk & Hfree & _).
    rewrite Hk in Hdup. injection Hdup as <-. split; [exact Hfree|].
    now apply dup_name_supported.
  - rewrite rename_duplicates_free in Hdup by exact E. injection Hdup as <-.
    split; [exact E|]. destruct (with_name_ok _ _ _ Hw) as (-> & _).
    destruct (synthesized_name_split fs path) as (x & Hx & Hsplit).
    eapply suffix_of_named; [exact Hs | exact Hx |]. now rewrite name_snoc.
Qed.

Lemma organize_target_supported (fs : filesystem) (target_dir path : Path) final :
  supported (Str.lower (suffix path)) = true ->
  organize_duplicates fs target_dir (target_dir // name path) (Str.lower (suffix path))
  = Ok final ->
  path_exists fs final = false
  /\ Str.lower (suffix final) = Str.lower (suffix path)
  /\ exists file_name, final = target_dir // file_name.
Proof.
  intros Hs H. destruct (path_exists fs (target_dir // name path)) eqn:E.
  - pose proof (organize_duplicates_resolves fs) as Horg.
    destruct (Horg target_dir _ (Str.lower (suffix path)) E) as (k & _ & Hk & Hfree & _).
    rewrite Hk in H. injection H as <-. split; [exact Hfree|].
    split; [now apply dup_name_supported | eauto].
  - unfold organize_duplicates in H. rewrite E in H. injection H as <-.
    split; [exact E|]. split; [|eauto]. unfold suffix. now rewrite name_div.
Qed.

Lemma broken_link_of_missing (fs : filesystem) p n :
  path_exists fs p = false -> fs !! p = Some n -> n = BrokenLink.
Proof. unfold path_exists. intros H Hn. rewrite Hn in H. destruct n; congruence. Qed.

(** A move or a copy to a path that did not exist keeps the other
    entries. *)
Lemma placed_keeps_others (fs : filesystem) (src dst : Path) n :
  path_exists fs dst = false -> supported (Str.lower (suffix dst)) = true ->
  is_dir_node n = false ->
  keeps_others src fs (<[dst := n]> (delete src fs))
  /\ keeps_others src fs (<[dst := n]> fs).
Proof.
  intros Hdst Hs Hn. split; intros q nq Hq Hlook.
  - destruct (decide (q = dst)) as [->|Hne].
    + right. split; [exact Hs|]. split; [eapply broken_link_of_missing; eassumption|].
      exists n. split; [apply lookup_insert_eq | exact Hn].
    + left. rewrite lookup_insert_ne, lookup_delete_ne by congruence. exact Hlook.
  - destruct (decide (q = dst)) as [->|Hne].
    + right. split; [exact Hs|]. split; [eapply broken_link_of_missing; eassumption|].
      exists n. split; [apply lookup_insert_eq | exact Hn].
    + left. rewrite lookup_insert_ne by congruence. exact Hlook.
Qed.

Lemma rename_worker_keeps_others (fs : filesystem) path dry_run :
  isdir fs path = false ->
  keeps_others path fs (snd (rename_file_worker (path, dry_run) fs)).
Proof.
  intros Hnd. destruct (supported (Str.lower (suffix path))) eqn:Hs.
  2:{ rewrite rename_file_worker_unsupported by exact Hs. apply keeps_others_refl. }
  rewrite (rename_file_worker_unfold _ _ _ Hs).
  destruct (with_name path (synthesized_name fs path)) as [candidate|e] eqn:Hw;
    [|apply keeps_others_refl].
  destruct (rename_duplicates fs path candidate _) as [new_path|e] eqn:Hdup;
    [|apply keeps_others_refl].
  destruct dry_run; [apply keeps_others_refl|].
  destruct (rename_target fs path candidate new_path Hs Hw Hdup) as [Hfree Hext].
  destruct (shutil_move path new_path fs) as [fs'|e] eqn:Hmove; [|apply keeps_others_refl].
  cbn [snd].
  destruct (shutil_move_effect _ _ _ _ Hnd Hfree Hmove) as [->|(n & Hn & Hnn & _ & ->)];
    [apply keeps_others_refl|].
  apply placed_keeps_others; [exact Hfree | now rewrite Hext | exact Hnn].
Qed.

Section Frame.

Variable tz : Z -> Z.
Variable now : Z.

Lemma mkdir_keeps (fs fs1 : filesystem) (dir : Path) q nq :
  mkdir_parents now dir fs = Ok fs1 -> fs !! q = Some nq -> fs1 !! q = Some nq.
Proof.
  intros H Hq. destruct (mkdir_parents_effect _ _ _ _ H q) as [->|(E & _)]; congruence.
Qed.

Lemma organize_worker_keeps_others (fs : filesystem) path output_dir dry_run copy_mode :
  isdir fs path = false ->
  keeps_others path fs
    (snd (organize_file_worker tz now (path, output_dir, dry_run, copy_mode) fs)).
Proof.
  intros Hnd. destruct (supported (Str.lower (suffix path))) eqn:Hs.
  2:{ rewrite organize_file_worker_unsupported by exact Hs. apply keeps_others_refl. }
  rewrite (organize_file_worker_unfold _ _ _ _ _ _ _ Hs), organize_target_unfold.
  destruct (date_result tz fs path) as [dt|e] eqn:Hd; [|apply keeps_others_refl].
  cbv zeta. set (target_dir := date_dir output_dir dt).
  destruct (organize_duplicates fs target_dir _ _) as [target|e] eqn:Hdup;
    [|apply keeps_others_refl].
  destruct (organize_target_supported fs target_dir path target Hs Hdup)
    as (Hfree & Hext & file_name & ->).
  destruct dry_run.
  { destruct (relative_to _ _); apply keeps_others_refl. }
  destruct (mkdir_parents now target_dir fs) as [fs1|e] eqn:Hmk; [|apply keeps_others_refl].
  assert (keeps_others path fs fs1) as Hfs1.
  { intros q nq _ Hq. left. eapply mkdir_keeps; eassumption. }
  assert (fs1 !! (target_dir // file_name) = fs !! (target_dir // file_name)) as Htarget.
  { destruct (mkdir_parents_effect _ _ _ _ Hmk (target_dir // file_name))
      as [E|(_ & Hin & _)]; [exact E|].
    now apply not_prefix_of_parent in Hin. }
  assert (path_exists fs1 (target_dir // file_name) = false) as Hfree1.
  { unfold path_exists in *. now rewrite Htarget. }
  assert (isdir fs1 path = false) as Hnd1.
  { destruct (mkdir_parents_effect _ _ _ _ Hmk path) as [E|(E & _)].
    - unfold isdir in *. now rewrite E.
    - exfalso. unfold date_result in Hd.
      rewrite (get_file_datetime_absent _ _ E) in Hd.
      unfold stat_mtime in Hd. rewrite E in Hd. discriminate Hd. }
  assert (forall fs2 n, is_dir_node n = false ->
            (fs2 = <[target_dir // file_name := n]> (delete path fs1)
             \/ fs2 = <[target_dir // file_name := n]> fs1) ->
            keeps_others path fs fs2) as Hplaced.
  { intros fs2 n Hn Hfs2 q nq Hq Hlook.
    pose proof (mkdir_keeps _ _ _ _ _ Hmk Hlook) as Hlook1.
    destruct (placed_keeps_others fs1 path (target_dir // file_name) n Hfree1
                ltac:(now rewrite Hext) Hn) as [Hmove Hcopy].
    destruct Hfs2 as [-> | ->]; [destruct (Hmove q nq Hq Hlook1) | destruct (Hcopy q nq Hq Hlook1)];
      auto. }
  destruct copy_mode.
  - destruct (shutil_copy2 path _ fs1) as [fs2|e] eqn:Hcp; [|exact Hfs1].
    destruct (shutil_copy2_effect _ _ _ _ Hfree1 Hcp) as (f & _ & _ & Hfs2).
    assert (keeps_others path fs fs2) as Hfs2'.
    { apply (Hplaced fs2 (File f)); [reflexivity | now right]. }
    destruct (relative_to _ _); exact Hfs2'.
  - destruct (shutil_move path _ fs1) as [fs2|e] eqn:Hmv; [|exact Hfs1].
    assert (keeps_others path fs fs2) as Hfs2'.
    { destruct (shutil_move_effect _ _ _ _ Hnd1 Hfree1 Hmv) as [->|(n & _ & Hn & _ & Hfs2)];
        [exact Hfs1|].
      apply (Hplaced fs2 n); [exact Hn | now left]. }
    destruct (relative_to _ _); exact Hfs2'.
Qed.

End Frame.

(** *** No path is discovered twice *)

Lemma NoDup_omap_inj {A B} (f : A -> option B) (l : list A) :
  NoDup l ->
  (forall x y b, x ∈ l -> y ∈ l -> f x = Some b -> f y = Some b -> x = y) ->
  NoDup (omap f l).
Proof.
  induction 1 as [|x l Hx Hl IH]; intros Hinj; [constructor|].
  assert (NoDup (omap f l)) as IH'.
  { apply IH. intros a b c Ha Hb. apply Hinj; now constructor. }
  change (omap f (x :: l))
    with (match f x with Some y => y :: omap f l | None => omap f l end).
  destruct (f x) as [b|] eqn:Hfx; [|exact IH'].
  constructor; [|exact IH'].
  intros Hin. apply list_elem_of_omap in Hin as (y & Hy & Hfy).
  assert (x = y) as -> by (eapply Hinj; eauto; now constructor).
  contradiction.
Qed.

Lemma listdir_NoDup (fs : filesystem) dir : NoDup (listdir fs dir).
Proof.
  unfold listdir. apply NoDup_omap_inj; [apply NoDup_map_to_list|].
  intros [p1 n1] [p2 n2] [e n] _ _ H1 H2.
  destruct p1 as [|c1 p1]; [discriminate|]. destruct p2 as [|c2 p2]; [discriminate|].
  destruct (decide (parent (c1 :: p1) = dir)) as [E1|]; [|discriminate].
  destruct (decide (parent (c2 :: p2) = dir)) as [E2|]; [|discriminate].
  injection H1 as N1 ->. injection H2 as N2 ->. f_equal.
  rewrite (path_split_cons (c1 :: p1)), (path_split_cons (c2 :: p2)) by discriminate.
  now rewrite E1, E2, N1, N2.
Qed.

Lemma listdir_names_NoDup (fs : filesystem) dir (P : string * node -> bool) :
  NoDup (fst <$> filter (fun e => P e) (listdir fs dir)).
Proof.
  apply NoDup_fmap_2_strong; [|apply NoDup_filter, listdir_NoDup].
  intros [e1 n1] [e2 n2] H1 H2 E. cbn [fst] in E. subst e2.
  apply list_elem_of_filter in H1 as [_ H1]. apply list_elem_of_filter in H2 as [_ H2].
  apply listdir_lookup in H1, H2. congruence.
Qed.

Lemma os_walk_root_under (fuel : nat) (fs : filesystem) (top : Path) t :
  t ∈ os_walk_from fuel fs top -> exists rel, t.1.1 = top ++ rel.
Proof.
  revert top. induction fuel as [|fuel IH]; intros top H; [inversion H|].
  cbn [os_walk_from] in H. destruct (isdir fs top); [|inversion H].
  apply elem_of_cons in H as [->|H].
  - exists []. cbn. now rewrite app_nil_r.
  - apply list_elem_of_bind in H as (dn & H & _). apply IH in H as [rel ->].
    exists (dn :: rel). unfold div. now rewrite <- app_assoc.
Qed.

Lemma os_walk_NoDup (fuel : nat) (fs : filesystem) (top : Path) :
  NoDup (os_walk_from fuel fs top).
Proof.
  revert top. induction fuel as [|fuel IH]; intros top; [constructor|].
  cbn [os_walk_from]. destruct (isdir fs top); [|constructor].
  constructor.
  - intros H. apply list_elem_of_bind in H as (dn & H & _).
    apply os_walk_root_under in H as [rel H]. cbn [fst] in H.
    apply (f_equal length) in H. unfold div in H. rewrite !length_app in H.
    cbn in H. lia.
  - apply NoDup_bind.
    + intros dn1 dn2 t _ _ H1 H2.
      apply os_walk_root_under in H1 as [rel1 H1]. apply os_walk_root_under in H2 as [rel2 H2].
      rewrite H1 in H2. unfold div in H2. rewrite <- !app_assoc in H2.
      apply app_inv_head in H2. now injection H2.
    + intros dn _. apply IH.
    + apply listdir_names_NoDup.
Qed.

Lemma os_walk_same_root (fuel : nat) (fs : filesystem) (top : Path) t1 t2 :
  t1 ∈ os_walk_from fuel fs top -> t2 ∈ os_walk_from fuel fs top ->
  t1.1.1 = t2.1.1 -> t1 = t2.
Proof.
  destruct t1 as [[r1 d1] f1], t2 as [[r2 d2] f2]. intros H1 H2 E. cbn [fst] in E. subst r2.
  apply os_walk_from_triple in H1 as (_ & -> & ->).
  apply os_walk_from_triple in H2 as (_ & -> & ->). reflexivity.
Qed.

Lemma collect_files_NoDup (fs : filesystem) base_dir : NoDup (collect_files fs base_dir).
Proof.
  unfold collect_files, os_walk. apply NoDup_bind.
  - intros [[r1 d1] f1] [[r2 d2] f2] p H1 H2 Hp1 Hp2.
    apply list_elem_of_bind in Hp1 as (e1 & Hp1 & _).
    apply list_elem_of_bind in Hp2 as (e2 & Hp2 & _).
    destruct (supported _); [|inversion Hp1]. destruct (supported _); [|inversion Hp2].
    apply list_elem_of_singleton in Hp1, Hp2. subst p.
    unfold div in Hp2. apply app_inj_tail in Hp2 as [Hr _].
    eapply os_walk_same_root; eauto.
  - intros [[root dirnames] filenames] Ht. apply NoDup_bind.
    + intros e1 e2 p _ _ Hp1 Hp2.
      destruct (supported _); [|inversion Hp1]. destruct (supported _); [|inversion Hp2].
      apply list_elem_of_singleton in Hp1, Hp2. subst p. now apply snoc_inj in Hp2.
    + intros e _. destruct (supported _); [apply NoDup_singleton | constructor].
    + apply os_walk_from_triple in Ht as (_ & _ & ->). apply listdir_names_NoDup.
  - apply os_walk_NoDup.
Qed.

(** *** The whole batch *)

Lemma run_pool_keeps {A : Type} (worker : A -> M (option string)) (path_of : A -> Path)
  (args : list A) :
  (forall a (fs : filesystem), isdir fs (path_of a) = false ->
                keeps_others (path_of a) fs (snd (worker a fs))) ->
  (forall a, In a args -> supported (Str.lower (suffix (path_of a))) = true) ->
  NoDup (map path_of args) ->
  forall fs : filesystem,
    (forall a, In a args -> exists n, fs !! path_of a = Some n /\ is_dir_node n = false) ->
    forall q nq, fs !! q = Some nq -> supported (Str.lower (suffix q)) = false ->
                 snd (run_pool worker args fs) !! q = Some nq.
Proof.
  intros Hworker. induction args as [|a args IH]; intros Hsup Hnd fs Hinv q nq Hq Hunsup;
    [exact Hq|].
  cbn [run_pool]. cbn [map] in Hnd. apply NoDup_cons in Hnd as [Hfresh Hnd].
  destruct (Hinv a (or_introl eq_refl)) as (n & Hn & Hnn).
  assert (isdir fs (path_of a) = false) as Hdir by now rewrite (not_dir_node _ _ _ Hn).
  pose proof (Hworker a fs Hdir) as Hkeep.
  destruct (worker a fs) as [r fs1]. cbn [snd] in Hkeep.
  assert (snd (run_pool worker args fs1) !! q = Some nq) as Hrest.
  { apply IH.
    - intros b Hb. apply Hsup. now right.
    - exact Hnd.
    - intros b Hb. destruct (Hinv b (or_intror Hb)) as (nb & Hnb & Hnnb).
      assert (path_of b <> path_of a) as Hne.
      { intros E. apply Hfresh. rewrite <- E. apply list_elem_of_In, in_map, Hb. }
      destruct (Hkeep _ _ Hne Hnb) as [H|(_ & _ & n' & H & Hn')]; eauto.
    - assert (q <> path_of a) as Hne.
      { intros ->. rewrite (Hsup a (or_introl eq_refl)) in Hunsup. discriminate Hunsup. }
      destruct (Hkeep _ _ Hne Hq) as [H|(H & _)]; [exact H|].
      rewrite H in Hunsup. discriminate Hunsup.
    - exact Hunsup. }
  destruct (run_pool worker args fs1). exact Hrest.
Qed.

Lemma collected_args {B : Type} (fs : filesystem) (base_dir : Path) (pack : Path -> B)
  (path_of : B -> Path) :
  (forall f, path_of (pack f) = f) ->
  (forall a, In a (map pack (collect_files fs base_dir)) ->
             supported (Str.lower (suffix (path_of a))) = true
             /\ exists n, fs !! path_of a = Some n /\ is_dir_node n = false)
  /\ NoDup (map path_of (map pack (collect_files fs base_dir))).
Proof.
  intros Hpack. split.
  - intros a Ha. apply in_map_iff in Ha as (f & <- & Hf). rewrite Hpack.
    apply (collect_files_sound fs base_dir). now apply list_elem_of_In.
  - rewrite map_map. rewrite (map_ext _ id) by exact Hpack. rewrite map_id.
    apply collect_files_NoDup.
Qed.

Section Untouched.

Variable tz : Z -> Z.
Variable now : Z.

(** C8: every path the commands discover has a supported extension,
    compared in lower case, and is not a directory; a worker handed any
    other extension returns nothing and changes nothing; and whatever a
    [rename] or [organize] run does, every entry of the file system whose
    extension is not supported is afterwards where it was, unchanged. *)
Theorem only_supported_files_are_touched :
  (forall (fs : filesystem) base_dir p,
      In p (collect_files fs base_dir) ->
      Str.lower (suffix p) ∈ ({[ ".jpg"; ".jpeg"; ".png"; ".mp4"; ".mov"; ".avi"; ".heic" ]}
                              : gset string)
      /\ exists n, fs !! p = Some n /\ is_dir_node n = false)
  /\ (forall (fs : filesystem) path dry_run output_dir copy_mode,
        supported (Str.lower (suffix path)) = false ->
        rename_file_worker (path, dry_run) fs = (Ok None, fs)
        /\ organize_file_worker tz now (path, output_dir, dry_run, copy_mode) fs
           = (Ok None, fs))
  /\ (forall (fs : filesystem) directory dry_run q nq,
        fs !! q = Some nq -> supported (Str.lower (suffix q)) = false ->
        snd (rename directory dry_run fs) !! q = Some nq)
  /\ (forall (fs : filesystem) source destination dry_run copy q nq,
        fs !! q = Some nq -> supported (Str.lower (suffix q)) = false ->
        snd (organize tz now source destination dry_run copy fs) !! q = Some nq).
Proof.
  split; [|split; [|split]].
  - intros fs base_dir p Hp. apply list_elem_of_In in Hp.
    destruct (collect_files_sound fs base_dir p Hp) as [Hs Hn]. split; [|exact Hn].
    unfold supported in Hs. now apply bool_decide_eq_true in Hs.
  - intros fs path dry_run output_dir copy_mode Hs. split.
    + now apply rename_file_worker_unsupported.
    + now apply organize_file_worker_unsupported.
  - intros fs directory dry_run q nq Hq Hunsup. rewrite rename_state.
    destruct (_ =? 0)%nat; [exact Hq|].
    destruct (collected_args fs directory (fun f => (f, dry_run)) fst) as [Hargs Hnd];
      [reflexivity|].
    apply (run_pool_keeps rename_file_worker fst); try assumption.
    + intros [path dry] fs' Hdir. now apply rename_worker_keeps_others.
    + intros a Ha. apply Hargs, Ha.
    + intros a Ha. apply Hargs, Ha.
  - intros fs source destination dry_run copy q nq Hq Hunsup. rewrite organize_state.
    destruct (_ =? 0)%nat; [exact Hq|].
    destruct (collected_args fs source (fun f => (f, destination, dry_run, copy))
                (fun a => a.1.1.1)) as [Hargs Hnd]; [reflexivity|].
    apply (run_pool_keeps (organize_file_worker tz now) (fun a => a.1.1.1)); try assumption.
    + intros [[[path out] dry] cp] fs' Hdir. now apply organize_worker_keeps_others.
    + intros a Ha. apply Hargs, Ha.
    + intros a Ha. apply Hargs, Ha.
Qed.

End Untouched.

(** The text file of the fixture survives a real [organize] run, and the
    [rename] run after it. *)
Example notes_survive :
  let organized := snd (organize utc 0 ["in"] ["out"] false false with_broken_link) in
  let renamed := snd (rename [] false organized) in
  organized !! ["in"; "notes.txt"] = with_broken_link !! ["in"; "notes.txt"]
  /\ renamed !! ["in"; "notes.txt"] = with_broken_link !! ["in"; "notes.txt"].
Proof. cbv zeta. by_evaluation. Qed.

Lemma only_supported_files_are_touched_witness :
  snd (organize utc 0 ["in"] ["out"] false false with_broken_link) !! ["in"; "notes.txt"]
  = with_broken_link !! ["in"; "notes.txt"].
Proof.
  destruct (only_supported_files_are_touched utc 0) as (_ & _ & _ & H).
  etransitivity; [|symmetry].
  - apply H; [vm_compute; reflexivity | vm_compute; reflexivity].
  - vm_compute. reflexivity.
Defined.

(** * Further properties of the workers and the commands *)

(** ** What a real rename does *)

Lemma exists_of_file (fs : filesystem) p f : fs !! p = Some (File f) -> path_exists fs p = true.
Proof. intros H. unfold path_exists. now rewrite H. Qed.

(** X1: the rename worker, given a supported regular file in an existing
    directory and a synthesized name that is a valid file name, moves the
    file, data unchanged, to a path of the same directory and the same
    extension that did not exist; the old path is gone; and the name the
    dry run announces is the name the real run uses. *)
Theorem rename_moves_file (fs : filesystem) (path : Path) f candidate :
  supported (Str.lower (suffix path)) = true ->
  fs !! path = Some (File f) ->
  isdir fs (parent path) = true ->
  with_name path (synthesized_name fs path) = Ok candidate ->
  exists new_path,
    parent new_path = parent path
    /\ new_path <> path
    /\ path_exists fs new_path = false
    /\ Str.lower (suffix new_path) = Str.lower (suffix path)
    /\ fst (rename_file_worker (path, true) fs)
       = Ok (Some ("Would rename: " +:+ name path +:+ " → " +:+ name new_path))
    /\ rename_file_worker (path, false) fs
       = (Ok (Some ("Renamed: " +:+ name path +:+ " → " +:+ name new_path)),
          <[new_path := File f]> (delete path fs))
    /\ snd (rename_file_worker (path, false) fs) !! new_path = Some (File f)
    /\ snd (rename_file_worker (path, false) fs) !! path = None.
Proof.
  intros Hs Hf Hdir Hw.
  destruct (rename_duplicates_total fs _ _ _ Hs Hw) as (new_path & Hdup & Hfree & Hparent).
  destruct (rename_target fs path candidate new_path Hs Hw Hdup) as [_ Hext].
  assert (new_path <> path) as Hne.
  { intros ->. rewrite (exists_of_file _ _ _ Hf) in Hfree. discriminate Hfree. }
  assert (rename_file_worker (path, false) fs
          = (Ok (Some ("Renamed: " +:+ name path +:+ " → " +:+ name new_path)),
             <[new_path := File f]> (delete path fs))) as Hreal.
  { rewrite (rename_file_worker_unfold _ _ _ Hs), Hw, Hdup.
    rewrite (shutil_move_file fs path new_path f Hf Hfree); [reflexivity | | congruence].
    now rewrite Hparent. }
  exists new_path. repeat (split; [assumption|]).
  split; [now rewrite (rename_file_worker_unfold _ _ _ Hs), Hw, Hdup|].
  split; [exact Hreal|]. rewrite Hreal. cbn [snd]. split.
  - apply lookup_insert_eq.
  - rewrite lookup_insert_ne by exact Hne. apply lookup_delete_eq.
Qed.

Lemma rename_moves_file_witness :
  exists new_path,
    snd (rename_file_worker (["in"; "IMG_1.JPG"], false) pixel7_jpg) !! new_path
    = pixel7_jpg !! ["in"; "IMG_1.JPG"]
    /\ parent new_path = ["in"].
Proof.
  destruct (pixel7_jpg !! ["in"; "IMG_1.JPG"]) as [[f| |]|] eqn:E;
    try (exfalso; vm_compute in E; discriminate E).
  destruct (rename_moves_file pixel7_jpg ["in"; "IMG_1.JPG"] f
              ["in"; "UnknownDate_C_Pixel_7_90015098.jpg"]
              ltac:(vm_compute; reflexivity) E ltac:(vm_compute; reflexivity)
              ltac:(vm_compute; reflexivity))
    as (new_path & Hp & _ & _ & _ & _ & _ & Hnew & _).
  exists new_path. split; [exact Hnew | exact Hp].
Defined.

(** ** Files that cannot be opened *)

Lemma get_file_datetime_unopened (fs : filesystem) path e :
  open_rb fs path = Raise e -> get_file_datetime fs path = (None, "Unknown").
Proof.
  intros H. unfold open_rb in H. unfold get_file_datetime.
  assert (image_getexif fs path = Raise e /\ hachoir_parse fs path = ParserRaises) as [Hi Hh].
  { unfold image_getexif, hachoir_parse.
    destruct (fs !! path) as [[f| |]|]; try (injection H as <-; auto).
    destruct (readable f); [discriminate H | injection H as <-; auto]. }
  destruct (decide _).
  - unfold get_exif_datetime, get_exif_datetime_body. now rewrite Hi.
  - destruct (decide _); [|reflexivity]. unfold get_video_datetime. now rewrite Hh.
Qed.

Lemma synthesized_name_unopened (fs : filesystem) (path : Path) e :
  open_rb fs path = Raise e ->
  synthesized_name fs path = "UnknownDate_C_Unknown_00000000" +:+ Str.lower (suffix path).
Proof.
  intros H. unfold synthesized_name.
  rewrite (get_file_datetime_unopened _ _ _ H), (compute_file_hash_unreadable _ _ _ _ H).
  reflexivity.
Qed.

(** X2: a supported path that cannot be opened for reading (missing,
    dangling link, no permission, a directory) gets the sentinel
    fingerprint and no metadata: its synthesized name is always
    [UnknownDate_C_Unknown_00000000] followed by the lower-cased
    extension. *)
Theorem unopened_file_name (fs : filesystem) (path : Path) e :
  open_rb fs path = Raise e ->
  compute_file_hash fs path HASH_LENGTH = "00000000"
  /\ get_file_datetime fs path = (None, "Unknown")
  /\ synthesized_name fs path
     = "UnknownDate_C_Unknown_00000000" +:+ Str.lower (suffix path).
Proof.
  intros H. split; [|split].
  - now rewrite (compute_file_hash_unreadable _ _ _ _ H).
  - now apply (get_file_datetime_unopened fs path e).
  - now apply (synthesized_name_unopened fs path e).
Qed.

Lemma unopened_file_name_witness :
  synthesized_name with_broken_link ["in"; "dangling.jpg"]
  = "UnknownDate_C_Unknown_00000000.jpg".
Proof.
  destruct (unopened_file_name with_broken_link ["in"; "dangling.jpg"]
              (FileNotFoundError ["in"; "dangling.jpg"]) ltac:(vm_compute; reflexivity))
    as (_ & _ & H).
  etransitivity; [exact H|]. vm_compute. reflexivity.
Defined.

Lemma supported_no_slash ext : supported ext = true -> Str.contains "/" ext = false.
Proof. intros H. now destruct (supported_shape _ H) as (tail & _ & _ & _ & ->). Qed.

Lemma shutil_move_missing (fs : filesystem) (src dst : Path) :
  fs !! src = None -> path_exists fs dst = false ->
  shutil_move src dst fs = Raise (FileNotFoundError src).
Proof.
  intros Hsrc Hdst. destruct (path_exists_not_dir_target _ _ Hdst) as [Hnd _].
  unfold shutil_move. rewrite Hnd. unfold os_rename. now rewrite Hsrc.
Qed.

(** X3: when the source has disappeared since discovery, the rename
    worker returns one [Error renaming] line that names the path and the
    cause, and changes nothing; the organize worker raises instead, in
    every mode. *)
Theorem missing_source (tz : Z -> Z) (now : Z) (fs : filesystem) (path : Path) :
  supported (Str.lower (suffix path)) = true ->
  fs !! path = None ->
  rename_file_worker (path, false) fs
  = (Ok (Some ("Error renaming " +:+ str path +:+ ": "
                 +:+ exn_str (FileNotFoundError path))), fs)
  /\ (forall output_dir dry_run copy_mode,
        organize_file_worker tz now (path, output_dir, dry_run, copy_mode) fs
        = (Raise (FileNotFoundError path), fs)).
Proof.
  intros Hs Hnone. split.
  - assert (open_rb fs path = Raise (FileNotFoundError path)) as Hopen
        by (unfold open_rb; now rewrite Hnone).
    pose proof (synthesized_name_unopened fs path _ Hopen) as Hname.
    assert (with_name path (synthesized_name fs path)
            = Ok (parent path ++ [synthesized_name fs path])) as Hw.
    { apply with_name_valid.
      - now apply supported_name_nonempty.
      - rewrite Hname. discriminate.
      - rewrite Hname. discriminate.
      - rewrite Hname, contains_append, (supported_no_slash _ Hs). reflexivity. }
    destruct (rename_duplicates_total fs _ _ _ Hs Hw) as (new_path & Hdup & Hfree & _).
    rewrite (rename_file_worker_unfold _ _ _ Hs), Hw, Hdup.
    now rewrite (shutil_move_missing fs path new_path Hnone Hfree).
  - intros output_dir dry_run copy_mode. apply organize_worker_stat_raises.
    + exact Hs.
    + now apply get_file_datetime_absent.
    + unfold stat_mtime. now rewrite Hnone.
Qed.

Lemma missing_source_witness :
  fst (rename_file_worker (["gone.jpg"], false) one_empty_jpg)
  = Ok (Some ("Error renaming gone.jpg: " +:+ exn_str (FileNotFoundError ["gone.jpg"]))).
Proof.
  destruct (missing_source utc 0 one_empty_jpg ["gone.jpg"]
              ltac:(vm_compute; reflexivity) ltac:(vm_compute; reflexivity)) as [H _].
  etransitivity; [exact (f_equal fst H) | reflexivity].
Defined.

(** ** The device label in the name *)

Lemma contains_all c f s :
  Str.all f s = true -> f c = false -> Str.contains c s = false.
Proof.
  intros H Hc. induction s as [|a s IH]; [reflexivity|].
  cbn [Str.all Str.contains] in *. apply andb_true_iff in H as [Ha Hs].
  rewrite (IH Hs), orb_false_r. destruct (Ascii.eqb_spec a c) as [->|]; [congruence|reflexivity].
Qed.

Lemma stamp_contains c dt :
  Str.is_digit c = false -> Ascii.eqb "_" c = false ->
  Str.contains c (DateTime.strftime dt "%Y%m%d_%H%M%S") = false.
Proof.
  intros Hd Hu. rewrite strftime_stamp, !contains_append.
  pose proof (datetime_ranges dt) as (Hy & _).
  destruct (year_digits_shape _ Hy) as (HY & _).
  rewrite (contains_all c _ _ HY Hd).
  repeat match goal with
  | |- context [Str.contains c (DateTime.pad2 ?n)] =>
      rewrite (contains_all c _ _ (pad2_all_digits n) Hd)
  end.
  cbn [Str.contains]. now rewrite Hu.
Qed.

Lemma fingerprint_contains (c : ascii) (fs : filesystem) (path : Path) :
  Str.is_hex c = false -> Str.contains c (compute_file_hash fs path HASH_LENGTH) = false.
Proof.
  intros H. destruct (fingerprint_8_hex fs path) as [_ Hhex].
  exact (contains_all c _ _ Hhex H).
Qed.

(** Where a character that is no digit, no hexadecimal digit, no
    underscore, none of "A", "C" and none of the letters of [UnknownDate]
    can occur in a synthesized name: in the device label or in the
    extension. *)
Lemma synthesized_name_contains (c : ascii) (fs : filesystem) (path : Path) :
  Str.is_hex c = false -> Str.contains c "UnknownDate_AC" = false ->
  Str.contains c (synthesized_name fs path)
  = Str.contains c (snd (get_file_datetime fs path))
    || Str.contains c (Str.lower (suffix path)).
Proof.
  intros Hhex Hfixed.
  assert (Str.is_digit c = false) as Hd.
  { unfold Str.is_hex in Hhex. now apply orb_false_iff in Hhex as [-> _]. }
  assert (Ascii.eqb "_" c = false /\ Ascii.eqb "A" c = false /\ Ascii.eqb "C" c = false
          /\ Str.contains c "UnknownDate" = false) as (Hu & HA & HC & HU).
  { cbn [Str.contains] in Hfixed. repeat (apply orb_false_iff in Hfixed as [? Hfixed]).
    cbn [Str.contains]. repeat split; try assumption.
    repeat (apply orb_false_iff; split; try assumption). }
  rewrite synthesized_name_unfold, !contains_append, (fingerprint_contains c fs path Hhex).
  destruct (get_file_datetime fs path) as [[dt|] device]; cbn [fst snd confidence_and_date].
  - rewrite (stamp_contains c dt Hd Hu). cbn [Str.contains]. rewrite Hu, HA. reflexivity.
  - rewrite HU. cbn [Str.contains]. rewrite Hu, HC. reflexivity.
Qed.

Lemma replace_removes a b s : Ascii.eqb b a = false -> Str.contains a (Str.replace a b s) = false.
Proof.
  intros H. induction s as [|c s IH]; [reflexivity|].
  cbn [Str.replace Str.contains]. rewrite IH, orb_false_r.
  destruct (Ascii.eqb_spec c a) as [->|Hne]; [exact H|].
  destruct (Ascii.eqb_spec c a); [contradiction | reflexivity].
Qed.

(** The device label is "Unknown" or the Model tag of the photo at the
    path, blanks replaced. *)
Lemma device_label_cases (fs : filesystem) path :
  snd (get_file_datetime fs path) = "Unknown"
  \/ exists f exif v, fs !! path = Some (File f) /\ pil_exif f = Some exif
                      /\ exif !! 272%Z = Some v
                      /\ snd (get_file_datetime fs path) = Str.replace " " "_" (str_value v).
Proof.
  unfold get_file_datetime. destruct (decide _); [|destruct (decide _); now left].
  pose proof (get_exif_datetime_cases fs path) as H. unfold image_getexif in *.
  destruct (fs !! path) as [[f| |]|]; try (rewrite H; now left).
  destruct (readable f); [|rewrite H; now left].
  destruct (pil_exif f) as [exif|] eqn:Hexif; [|rewrite H; now left].
  cbv zeta in H. destruct (decide (exif = ∅)); [rewrite H; now left|].
  destruct (match exif !! 36867%Z with Some v => Some v | None => exif !! 306%Z end) as [v|].
  - destruct (strptime_tag v); rewrite H; [|now left].
    destruct (exif !! 272%Z) as [m|] eqn:Hm; [|now left].
    right. exists f, exif, m. auto.
  - rewrite H. destruct (exif !! 272%Z) as [m|] eqn:Hm; [|now left].
    right. exists f, exif, m. auto.
Qed.

Lemma synthesized_name_not_dot (fs : filesystem) (path : Path) :
  supported (Str.lower (suffix path)) = true ->
  synthesized_name fs path <> EmptyString /\ synthesized_name fs path <> ".".
Proof.
  intros Hs. destruct (synthesized_name_split fs path) as (x & Hx & ->).
  destruct (supported_shape _ Hs) as (tail & -> & Ht & _).
  destruct x as [|a x]; [contradiction|]. destruct tail as [|b tail]; [contradiction|].
  split; intros E; apply (f_equal String.length) in E;
    rewrite append_length in E; cbn in E; lia.
Qed.

(** X4: the synthesized name is handed to [with_name] outside any [try]:
    the rename worker raises [ValueError], and changes nothing, exactly
    when the device label contains a slash; for every other supported path
    it returns one line. (Limits of the operating system on the length of
    a file name are not modelled.) *)
Theorem rename_raises_on_slash (fs : filesystem) (path : Path) (dry_run : bool) :
  supported (Str.lower (suffix path)) = true ->
  (Str.contains "/" (snd (get_file_datetime fs path)) = true ->
   exists msg, rename_file_worker (path, dry_run) fs = (Raise (ValueError msg), fs))
  /\ (Str.contains "/" (snd (get_file_datetime fs path)) = false ->
      exists line, fst (rename_file_worker (path, dry_run) fs) = Ok (Some line)).
Proof.
  intros Hs.
  assert (Str.contains "/" (synthesized_name fs path)
          = Str.contains "/" (snd (get_file_datetime fs path))) as Hc.
  { rewrite synthesized_name_contains by reflexivity.
    now rewrite (supported_no_slash _ Hs), orb_false_r. }
  destruct (synthesized_name_not_dot fs path Hs) as [Hne Hdot].
  pose proof (supported_name_nonempty _ Hs) as Hname.
  split; intros Hslash; rewrite Hslash in Hc.
  - rewrite (rename_file_worker_unfold _ _ _ Hs). unfold with_name.
    destruct (String.eqb_spec (name path) EmptyString); [contradiction|].
    rewrite Hc, orb_true_r. eauto.
  - apply (rename_worker_returns fs path dry_run (parent path ++ [synthesized_name fs path]) Hs).
    now apply with_name_valid.
Qed.

Lemma rename_raises_on_slash_witness :
  (exists msg, fst (rename_file_worker (["s.jpg"], true) slash_model_jpg)
               = Raise (ValueError msg))
  /\ exists line, fst (rename_file_worker (["a.jpg"], true) one_empty_jpg) = Ok (Some line).
Proof.
  split.
  - destruct (rename_raises_on_slash slash_model_jpg ["s.jpg"] true
                ltac:(vm_compute; reflexivity)) as [H _].
    destruct (H ltac:(vm_compute; reflexivity)) as [msg Hmsg].
    exists msg. exact (f_equal fst Hmsg).
  - destruct (rename_raises_on_slash one_empty_jpg ["a.jpg"] true
                ltac:(vm_compute; reflexivity)) as [_ H].
    exact (H ltac:(vm_compute; reflexivity)).
Defined.

Lemma supported_no_blank ext : supported ext = true -> Str.contains " " ext = false.
Proof.
  intros H. apply supported_cases in H.
  repeat (destruct H as [->|H]; [reflexivity|]). subst. reflexivity.
Qed.

(** X5: no synthesized name of a supported file contains a blank: the
    blanks of the Model tag are replaced by underscores and no other part
    of the name can hold one. *)
Theorem synthesized_name_has_no_blank (fs : filesystem) (path : Path) :
  supported (Str.lower (suffix path)) = true ->
  Str.contains " " (snd (get_file_datetime fs path)) = false
  /\ Str.contains " " (synthesized_name fs path) = false.
Proof.
  intros Hs.
  assert (Str.contains " " (snd (get_file_datetime fs path)) = false) as Hdev.
  { destruct (device_label_cases fs path) as [->|(f & exif & v & _ & _ & _ & ->)];
      [reflexivity|]. now apply replace_removes. }
  split; [exact Hdev|].
  rewrite synthesized_name_contains by reflexivity.
  now rewrite Hdev, (supported_no_blank _ Hs).
Qed.

Lemma synthesized_name_has_no_blank_witness :
  synthesized_name slash_model_jpg ["s.jpg"] = "UnknownDate_C_DMC-FZ8_/_FZ18_d41d8cd9.jpg"
  /\ Str.contains " " (synthesized_name slash_model_jpg ["s.jpg"]) = false.
Proof.
  split; [vm_compute; reflexivity|].
  apply (synthesized_name_has_no_blank slash_model_jpg ["s.jpg"]). vm_compute. reflexivity.
Defined.

(** ** What a real organize run does *)






Lemma mkdir_entry_same (now : Z) (dir : Path) (entry : string) (fs fs1 : filesystem) :
  mkdir_parents now dir fs = Ok fs1 -> fs1 !! (dir // entry) = fs !! (dir // entry).
Proof.
  intros H. destruct (mkdir_parents_effect _ _ _ _ H (dir // entry)) as [E|(_ & Hin & _)];
    [exact E|]. now apply not_prefix_of_parent in Hin.
Qed.


Section Placing.

Variable tz : Z -> Z.
Variable now : Z.


End Placing.


(** ** What a run never destroys *)

Lemma exists_of_entry (fs : filesystem) (q : Path) (nq : node) :
  fs !! q = Some nq -> nq <> BrokenLink -> path_exists fs q = true.
Proof. intros H Hn. unfold path_exists. rewrite H. now destruct nq. Qed.

(** An invariant of the file system that every task keeps holds after the
    batch. *)
Lemma run_pool_preserves {A : Type} (worker : A -> M (option string)) (args : list A)
  (P : filesystem -> Prop) :
  (forall a (fs : filesystem), In a args -> P fs -> P (snd (worker a fs))) ->
  forall fs : filesystem, P fs -> P (snd (run_pool worker args fs)).
Proof.
  induction args as [|a args IH]; intros Hstep fs HP; [exact HP|].
  cbn [run_pool]. pose proof (Hstep a fs (or_introl eq_refl) HP) as Ha.
  destruct (worker a fs) as [r fs1]. cbn [snd] in Ha.
  assert (P (snd (run_pool worker args fs1))) as Hrest.
  { apply IH; [|exact Ha]. intros b fs' Hb. apply Hstep. now right. }
  destruct (run_pool worker args fs1). exact Hrest.
Qed.

(** The same for an invariant that the task on a path keeps when the path
    is an entry that is not a directory: the paths of a batch are distinct
    and each of them is such an entry when its turn comes. What holds of
    every task's outcome under the invariant holds of every future. *)
Lemma run_pool_invariant {A : Type} (worker : A -> M (option string)) (path_of : A -> Path)
  (P : filesystem -> Prop) (R : result (option string) -> Prop) (args : list A) :
  (forall a (fs : filesystem), In a args ->
      (exists n, fs !! path_of a = Some n /\ is_dir_node n = false) ->
      keeps_others (path_of a) fs (snd (worker a fs))
      /\ (P fs -> P (snd (worker a fs)) /\ R (fst (worker a fs)))) ->
  NoDup (map path_of args) ->
  forall fs : filesystem,
    (forall a, In a args -> exists n, fs !! path_of a = Some n /\ is_dir_node n = false) ->
    P fs ->
    P (snd (run_pool worker args fs)) /\ Forall R (fst (run_pool worker args fs)).
Proof.
  induction args as [|a args IH]; intros Hstep Hnd fs Hinv HP; [now split|].
  cbn [run_pool]. cbn [map] in Hnd. apply NoDup_cons in Hnd as [Hfresh Hnd].
  destruct (Hstep a fs (or_introl eq_refl) (Hinv a (or_introl eq_refl))) as [Hkeep Ha].
  destruct (Ha HP) as [HP1 HR].
  destruct (worker a fs) as [r fs1]. cbn [fst snd] in Hkeep, HP1, HR.
  assert (P (snd (run_pool worker args fs1)) /\ Forall R (fst (run_pool worker args fs1)))
    as Hrest.
  { apply IH.
    - intros b fs' Hb. apply Hstep. now right.
    - exact Hnd.
    - intros b Hb. destruct (Hinv b (or_intror Hb)) as (nb & Hnb & Hnnb).
      assert (path_of b <> path_of a) as Hne.
      { intros E. apply Hfresh. rewrite <- E. apply list_elem_of_In, in_map, Hb. }
      destruct (Hkeep _ _ Hne Hnb) as [H|(_ & _ & n' & H & Hn')]; eauto.
    - exact HP1. }
  destruct (run_pool worker args fs1) as [rs fs2]. cbn [fst snd] in *.
  destruct Hrest as [HP2 HRs]. split; [exact HP2 | now constructor].
Qed.

Lemma entry_not_dir (fs : filesystem) (p : Path) :
  (exists n, fs !! p = Some n /\ is_dir_node n = false) -> isdir fs p = false.
Proof. intros (n & Hn & Hnn). now rewrite (not_dir_node _ _ _ Hn). Qed.

Lemma keeps_files_refl (fs : filesystem) : keeps_files fs fs.
Proof. exists (fun p => p). split; [intros p q d e _ _ E; exact E | intros p d H; exact H]. Qed.

Lemma keeps_files_trans (fs1 fs2 fs3 : filesystem) :
  keeps_files fs1 fs2 -> keeps_files fs2 fs3 -> keeps_files fs1 fs3.
Proof.
  intros (g & Hg & Hgd) (h & Hh & Hhd). exists (fun p => h (g p)). split.
  - intros p q d e Hp Hq E. apply (Hg p q d e Hp Hq).
    exact (Hh _ _ d e (Hgd _ _ Hp) (Hgd _ _ Hq) E).
  - intros p d Hp. apply Hhd, Hgd, Hp.
Qed.

Lemma keeps_files_same (fs fs' : filesystem) :
  (forall p d, fs !! p = Some (File d) -> fs' !! p = Some (File d)) -> keeps_files fs fs'.
Proof. intros H. exists (fun p => p). split; [intros p q d e _ _ E; exact E | exact H]. Qed.

(** An entry placed at a path that did not exist, its old path given up
    or not, leaves every regular file a place of its own. *)
Lemma placed_keeps_files (fs : filesystem) (src dst : Path) (n : node) :
  path_exists fs dst = false ->
  (fs !! src = Some n -> keeps_files fs (<[dst := n]> (delete src fs)))
  /\ keeps_files fs (<[dst := n]> fs).
Proof.
  intros Hdst.
  assert (forall p d, fs !! p = Some (File d) -> p <> dst) as Hne.
  { intros p d Hp ->. rewrite (exists_of_file _ _ _ Hp) in Hdst. discriminate Hdst. }
  split.
  - intros Hsrc. exists (fun p => if decide (p = src) then dst else p). split.
    + intros p q d e Hp Hq.
      destruct (decide (p = src)) as [->|Hps], (decide (q = src)) as [->|Hqs]; intros E.
      * reflexivity.
      * subst q. now destruct (Hne _ _ Hq).
      * subst p. now destruct (Hne _ _ Hp).
      * exact E.
    + intros p d Hp. destruct (decide (p = src)) as [->|Hps].
      * rewrite lookup_insert_eq. congruence.
      * pose proof (Hne _ _ Hp) as Hpd.
        now rewrite lookup_insert_ne, lookup_delete_ne by congruence.
  - apply keeps_files_same. intros p d Hp. pose proof (Hne _ _ Hp) as Hpd.
    now rewrite lookup_insert_ne by congruence.
Qed.

Lemma rename_worker_keeps_files (fs : filesystem) (path : Path) (dry_run : bool) :
  isdir fs path = false -> keeps_files fs (snd (rename_file_worker (path, dry_run) fs)).
Proof.
  intros Hnd. destruct (supported (Str.lower (suffix path))) eqn:Hs.
  2:{ rewrite rename_file_worker_unsupported by exact Hs. apply keeps_files_refl. }
  rewrite (rename_file_worker_unfold _ _ _ Hs).
  destruct (with_name path (synthesized_name fs path)) as [candidate|e] eqn:Hw;
    [|apply keeps_files_refl].
  destruct (rename_duplicates fs path candidate _) as [new_path|e] eqn:Hdup;
    [|apply keeps_files_refl].
  destruct dry_run; [apply keeps_files_refl|].
  destruct (rename_target fs path candidate new_path Hs Hw Hdup) as [Hfree _].
  destruct (shutil_move path new_path fs) as [fs'|e] eqn:Hmove; [|apply keeps_files_refl].
  cbn [snd].
  destruct (shutil_move_effect _ _ _ _ Hnd Hfree Hmove) as [->|(n & Hn & _ & _ & ->)];
    [apply keeps_files_refl|].
  now apply (placed_keeps_files fs path new_path n Hfree).
Qed.

Section Preserving.

Variable tz : Z -> Z.
Variable now : Z.

Lemma organize_worker_keeps_files (fs : filesystem) (path output_dir : Path)
  (dry_run copy_mode : bool) :
  isdir fs path = false ->
  keeps_files fs (snd (organize_file_worker tz now (path, output_dir, dry_run, copy_mode) fs)).
Proof.
  intros Hnd. destruct (supported (Str.lower (suffix path))) eqn:Hs.
  2:{ rewrite organize_file_worker_unsupported by exact Hs. apply keeps_files_refl. }
  rewrite (organize_file_worker_unfold _ _ _ _ _ _ _ Hs), organize_target_unfold.
  destruct (date_result tz fs path) as [dt|e] eqn:Hd; [|apply keeps_files_refl]. cbv zeta.
  destruct (organize_duplicates fs (date_dir output_dir dt) _ _) as [target|e] eqn:Hdup;
    [|apply keeps_files_refl].
  destruct (organize_target_supported fs _ path target Hs Hdup)
    as (Hfree & _ & file_name & ->).
  destruct dry_run.
  { destruct (relative_to _ _); apply keeps_files_refl. }
  destruct (mkdir_parents now (date_dir output_dir dt) fs) as [fs1|e] eqn:Hmk;
    [|apply keeps_files_refl].
  assert (keeps_files fs fs1) as Hfs1.
  { apply keeps_files_same. intros p d Hp. exact (mkdir_keeps now _ _ _ _ _ Hmk Hp). }
  assert (path_exists fs1 (date_dir output_dir dt // file_name) = false) as Hfree1.
  { unfold path_exists. rewrite (mkdir_entry_same _ _ _ _ _ Hmk). exact Hfree. }
  assert (isdir fs1 path = false) as Hnd1.
  { destruct (mkdir_parents_effect _ _ _ _ Hmk path) as [E|(E & _)].
    - unfold isdir in *. now rewrite E.
    - exfalso. unfold date_result in Hd.
      rewrite (get_file_datetime_absent _ _ E) in Hd.
      unfold stat_mtime in Hd. rewrite E in Hd. discriminate Hd. }
  destruct copy_mode.
  - destruct (shutil_copy2 path _ fs1) as [fs2|e] eqn:Hcp; [|exact Hfs1].
    destruct (shutil_copy2_effect _ _ _ _ Hfree1 Hcp) as (f' & _ & _ & ->).
    assert (keeps_files fs (<[date_dir output_dir dt // file_name := File f']> fs1)) as H.
    { apply (keeps_files_trans fs fs1); [exact Hfs1|].
      apply (placed_keeps_files fs1 path _ (File f') Hfree1). }
    destruct (relative_to _ _); exact H.
  - destruct (shutil_move path _ fs1) as [fs2|e] eqn:Hmv; [|exact Hfs1].
    assert (keeps_files fs fs2) as H.
    { apply (keeps_files_trans fs fs1); [exact Hfs1|].
      destruct (shutil_move_effect _ _ _ _ Hnd1 Hfree1 Hmv) as [->|(n & Hn & _ & _ & ->)];
        [apply keeps_files_refl|].
      now apply (placed_keeps_files fs1 path _ n Hfree1). }
    destruct (relative_to _ _); exact H.
Qed.

Lemma organize_copy_worker_keeps (fs : filesystem) (path output_dir : Path) (dry_run : bool)
  (q : Path) (nq : node) :
  fs !! q = Some nq -> nq <> BrokenLink ->
  snd (organize_file_worker tz now (path, output_dir, dry_run, true) fs) !! q = Some nq.
Proof.
  intros Hq Hnq. destruct (supported (Str.lower (suffix path))) eqn:Hs.
  2:{ now rewrite organize_file_worker_unsupported by exact Hs. }
  rewrite (organize_file_worker_unfold _ _ _ _ _ _ _ Hs), organize_target_unfold.
  destruct (date_result tz fs path) as [dt|e] eqn:Hd; [|exact Hq]. cbv zeta.
  destruct (organize_duplicates fs (date_dir output_dir dt) _ _) as [target|e] eqn:Hdup;
    [|exact Hq].
  destruct (organize_target_supported fs _ path target Hs Hdup)
    as (Hfree & _ & file_name & ->).
  destruct dry_run.
  { destruct (relative_to _ _); exact Hq. }
  destruct (mkdir_parents now (date_dir output_dir dt) fs) as [fs1|e] eqn:Hmk; [|exact Hq].
  pose proof (mkdir_keeps now _ _ _ _ _ Hmk Hq) as Hq1.
  assert (path_exists fs1 (date_dir output_dir dt // file_name) = false) as Hfree1.
  { unfold path_exists. rewrite (mkdir_entry_same _ _ _ _ _ Hmk). exact Hfree. }
  destruct (shutil_copy2 path _ fs1) as [fs2|e] eqn:Hcp; [|exact Hq1].
  destruct (shutil_copy2_effect _ _ _ _ Hfree1 Hcp) as (f' & _ & _ & ->).
  assert (q <> date_dir output_dir dt // file_name) as Hne.
  { intros ->. rewrite (exists_of_entry _ _ _ Hq Hnq) in Hfree. discriminate Hfree. }
  destruct (relative_to _ _); cbn [snd]; now rewrite lookup_insert_ne by congruence.
Qed.

(** X7: in copy mode nothing that exists is changed or removed: every
    entry of the file system that is not a dangling link, the sources
    included, is afterwards where it was, unchanged, after one worker and
    after a whole [organize --copy] run, dry or not, whether or not the
    run raises. *)
Theorem copy_keeps_every_entry (fs : filesystem) (q : Path) (nq : node) :
  fs !! q = Some nq -> nq <> BrokenLink ->
  (forall path output_dir dry_run,
      snd (organize_file_worker tz now (path, output_dir, dry_run, true) fs) !! q = Some nq)
  /\ (forall source destination dry_run,
        snd (organize tz now source destination dry_run true fs) !! q = Some nq).
Proof.
  intros Hq Hnq. split.
  - intros path output_dir dry_run. now apply organize_copy_worker_keeps.
  - intros source destination dry_run. rewrite organize_state.
    destruct (_ =? 0)%nat; [exact Hq|].
    apply (run_pool_preserves (organize_file_worker tz now) _
             (fun fs' : filesystem => fs' !! q = Some nq)); [|exact Hq].
    intros a fs' Ha Hq'. apply in_map_iff in Ha as (path & <- & _).
    now apply organize_copy_worker_keeps.
Qed.

(** X8: a run never overwrites: every entry that is not a dangling link
    and is not among the discovered files (a file of another directory,
    a file already in the destination, any directory) is afterwards where
    it was, unchanged, whatever its extension. *)
Theorem undiscovered_entries_survive (fs : filesystem) (q : Path) (nq : node) :
  fs !! q = Some nq -> nq <> BrokenLink ->
  (forall directory dry_run,
      ~ In q (collect_files fs directory) ->
      snd (rename directory dry_run fs) !! q = Some nq)
  /\ (forall source destination dry_run copy,
        ~ In q (collect_files fs source) ->
        snd (organize tz now source destination dry_run copy fs) !! q = Some nq).
Proof.
  intros Hq Hnq.
  assert (forall path (fs0 fs' : filesystem), q <> path -> keeps_others path fs0 fs' ->
            fs0 !! q = Some nq -> fs' !! q = Some nq) as Hstep.
  { intros path fs0 fs' Hne Hkeep Hq0.
    destruct (Hkeep q nq Hne Hq0) as [H|(_ & H & _)]; [exact H | contradiction]. }
  split.
  - intros directory dry_run Hout. rewrite rename_state.
    destruct (_ =? 0)%nat; [exact Hq|].
    destruct (collected_args fs directory (fun f => (f, dry_run)) fst) as [Hargs Hnd];
      [reflexivity|].
    apply (run_pool_invariant rename_file_worker fst
             (fun fs' : filesystem => fs' !! q = Some nq) (fun _ => True)); try assumption.
    + intros [path dry] fs' Ha Hdir%entry_not_dir. cbn [fst].
      pose proof (rename_worker_keeps_others fs' path dry Hdir) as Hkeep.
      split; [exact Hkeep|]. intros Hq'. split; [|exact I].
      apply (Hstep path fs'); [|exact Hkeep|exact Hq'].
      intros ->. apply Hout. apply in_map_iff in Ha as (p & [= <- _] & Hp). exact Hp.
    + intros a Ha. apply Hargs, Ha.
  - intros source destination dry_run copy Hout. rewrite organize_state.
    destruct (_ =? 0)%nat; [exact Hq|].
    destruct (collected_args fs source (fun f => (f, destination, dry_run, copy))
                (fun a => a.1.1.1)) as [Hargs Hnd]; [reflexivity|].
    apply (run_pool_invariant (organize_file_worker tz now) (fun a => a.1.1.1)
             (fun fs' : filesystem => fs' !! q = Some nq) (fun _ => True)); try assumption.
    + intros [[[path out] dry] cp] fs' Ha Hdir%entry_not_dir. cbn [fst].
      pose proof (organize_worker_keeps_others tz now fs' path out dry cp Hdir) as Hkeep.
      split; [exact Hkeep|]. intros Hq'. split; [|exact I].
      apply (Hstep path fs'); [|exact Hkeep|exact Hq'].
      intros ->. apply Hout. apply in_map_iff in Ha as (p & [= <- _ _ _] & Hp). exact Hp.
    + intros a Ha. apply Hargs, Ha.
Qed.

(** X9: no worker loses a file or merges two, and neither does a batch
    whose tasks run one after the other, as [run_pool] runs them: every
    regular file of the file system before is found afterwards, data
    unchanged (content, modification time, metadata), at a place of its
    own, after either worker on a path that is not a directory, in every
    mode, and after the tasks for all the discovered files, whether or not
    one of them raises. Tasks that overlap in time are not covered. *)
Theorem no_file_data_lost (fs : filesystem) :
  (forall path dry_run,
      isdir fs path = false ->
      keeps_files fs (snd (rename_file_worker (path, dry_run) fs)))
  /\ (forall path output_dir dry_run copy_mode,
        isdir fs path = false ->
        keeps_files fs
          (snd (organize_file_worker tz now (path, output_dir, dry_run, copy_mode) fs)))
  /\ (forall directory dry_run,
        keeps_files fs
          (snd (run_pool rename_file_worker
                  (map (fun f => (f, dry_run)) (collect_files fs directory)) fs)))
  /\ (forall source destination dry_run copy,
        keeps_files fs
          (snd (run_pool (organize_file_worker tz now)
                  (map (fun f => (f, destination, dry_run, copy)) (collect_files fs source))
                  fs))).
Proof.
  split; [intros path dry_run; apply rename_worker_keeps_files|].
  split; [intros path output_dir dry_run copy_mode; apply organize_worker_keeps_files|].
  split.
  - intros directory dry_run.
    destruct (collected_args fs directory (fun f => (f, dry_run)) fst) as [Hargs Hnd];
      [reflexivity|].
    apply (run_pool_invariant rename_file_worker fst (keeps_files fs) (fun _ => True));
      try assumption.
    + intros [path dry] fs' Ha Hdir%entry_not_dir. cbn [fst]. split.
      * now apply rename_worker_keeps_others.
      * intros Hkeep. split; [|exact I].
        apply (keeps_files_trans fs fs'); [exact Hkeep|].
        now apply rename_worker_keeps_files.
    + intros a Ha. apply Hargs, Ha.
    + apply keeps_files_refl.
  - intros source destination dry_run copy.
    destruct (collected_args fs source (fun f => (f, destination, dry_run, copy))
                (fun a => a.1.1.1)) as [Hargs Hnd]; [reflexivity|].
    apply (run_pool_invariant (organize_file_worker tz now) (fun a => a.1.1.1)
             (keeps_files fs) (fun _ => True)); try assumption.
    + intros [[[path out] dry] cp] fs' Ha Hdir%entry_not_dir. cbn [fst]. split.
      * now apply organize_worker_keeps_others.
      * intros Hkeep. split; [|exact I].
        apply (keeps_files_trans fs fs'); [exact Hkeep|].
        now apply organize_worker_keeps_files.
    + intros a Ha. apply Hargs, Ha.
    + apply keeps_files_refl.
Qed.

End Preserving.

Lemma copy_keeps_every_entry_witness :
  snd (organize utc 0 ["in"] ["out"] false true with_broken_link) !! ["in"; "a.jpg"]
  = with_broken_link !! ["in"; "a.jpg"].
Proof.
  destruct (with_broken_link !! ["in"; "a.jpg"]) as [n|] eqn:E;
    [|exfalso; vm_compute in E; discriminate E].
  assert (n <> BrokenLink) as Hn by (intros ->; vm_compute in E; discriminate E).
  destruct (copy_keeps_every_entry utc 0 with_broken_link ["in"; "a.jpg"] n E Hn) as [_ H].
  exact (H ["in"] ["out"] false).
Defined.

Lemma undiscovered_entries_survive_witness :
  snd (organize utc 0 ["in"] ["out"] false false already_organized)
    !! ["out"; "2023"; "05"; "01"; "b.jpg"]
  = already_organized !! ["out"; "2023"; "05"; "01"; "b.jpg"].
Proof.
  destruct (already_organized !! ["out"; "2023"; "05"; "01"; "b.jpg"]) as [n|] eqn:E;
    [|exfalso; vm_compute in E; discriminate E].
  assert (n <> BrokenLink) as Hn by (intros ->; vm_compute in E; discriminate E).
  destruct (undiscovered_entries_survive utc 0 already_organized _ n E Hn) as [_ H].
  apply (H ["in"] ["out"] false false).
  replace (collect_files already_organized ["in"]) with [["in"; "b.jpg"]]
    by (vm_compute; reflexivity).
  intros [Hin|[]]. discriminate Hin.
Defined.

Lemma no_file_data_lost_witness :
  keeps_files twins
    (snd (run_pool rename_file_worker (map (fun f => (f, false)) (collect_files twins []))
            twins)).
Proof.
  destruct (no_file_data_lost utc 0 twins) as (_ & _ & H & _). exact (H [] false).
Defined.

(** The photo lands beside the file that was there, under a [_dup1]
    name. *)
Example organized_beside :
  let run := organize_file_worker utc 0 (["in"; "b.jpg"], ["out"], false, false)
                                  already_organized in
  fst run = Ok (Some "Moved: b.jpg → 2023/05/01/b_dup1.jpg")
  /\ snd run !! ["out"; "2023"; "05"; "01"; "b_dup1.jpg"] = already_organized !! ["in"; "b.jpg"].
Proof. cbv zeta. by_evaluation. Qed.

(** ** What the walk discovers *)

Lemma isdir_lookup (fs : filesystem) (p : Path) :
  isdir fs p = true -> exists t, fs !! p = Some (Dir t).
Proof. unfold isdir. destruct (fs !! p) as [[f|t|]|]; try discriminate. eauto. Qed.

(** Every root of the walk is reached from the top through directories. *)
Lemma os_walk_chain (fuel : nat) (fs : filesystem) (top : Path)
  (t : Path * list string * list string) :
  t ∈ os_walk_from fuel fs top ->
  exists rel, t.1.1 = top ++ rel
              /\ forall k, (k <= length rel)%nat -> isdir fs (top ++ take k rel) = true.
Proof.
  revert top. induction fuel as [|fuel IH]; intros top H; [inversion H|].
  cbn [os_walk_from] in H. destruct (isdir fs top) eqn:Hd; [|inversion H].
  apply elem_of_cons in H as [->|H].
  - exists []. cbn [fst]. split; [now rewrite app_nil_r|].
    intros k _. rewrite take_nil, app_nil_r. exact Hd.
  - apply list_elem_of_bind in H as (dn & H & _). apply IH in H as (rel & -> & Hrel).
    exists (dn :: rel). unfold div. split; [now rewrite <- app_assoc|].
    intros [|k] Hk.
    + rewrite take_0, app_nil_r. exact Hd.
    + cbn [take]. cbn [length] in Hk. specialize (Hrel k ltac:(lia)).
      unfold div in Hrel. now rewrite <- app_assoc in Hrel.
Qed.

(** A chain of directories is walked to its end, given fuel for its
    length. *)
Lemma os_walk_reaches (fs : filesystem) (rel : Path) :
  forall (fuel : nat) (top : Path),
    (length rel < fuel)%nat ->
    (forall k, (k <= length rel)%nat -> isdir fs (top ++ take k rel) = true) ->
    (top ++ rel,
     fst <$> filter (fun e => is_dir_node (snd e)) (listdir fs (top ++ rel)),
     fst <$> filter (fun e => negb (is_dir_node (snd e))) (listdir fs (top ++ rel)))
    ∈ os_walk_from fuel fs top.
Proof.
  induction rel as [|c rel IH]; intros fuel top Hfuel Hchain;
    (destruct fuel as [|fuel]; [cbn in Hfuel; lia|]); cbn [os_walk_from].
  - pose proof (Hchain 0%nat ltac:(lia)) as Hd. rewrite take_0, app_nil_r in Hd.
    rewrite Hd, app_nil_r. apply elem_of_cons. now left.
  - pose proof (Hchain 0%nat ltac:(cbn; lia)) as Hd. rewrite take_0, app_nil_r in Hd.
    rewrite Hd. apply elem_of_cons. right.
    pose proof (Hchain 1%nat ltac:(cbn; lia)) as Hc. cbn [take] in Hc. rewrite take_0 in Hc.
    apply list_elem_of_bind. exists c. split.
    + replace (top ++ c :: rel) with ((top // c) ++ rel)
        by (unfold div; now rewrite <- app_assoc).
      apply IH; [cbn in Hfuel; lia|]. intros k Hk.
      specialize (Hchain (S k) ltac:(cbn; lia)). cbn [take] in Hchain.
      unfold div. now rewrite <- app_assoc.
    + apply isdir_lookup in Hc as [t E].
      apply list_elem_of_fmap. exists (c, Dir t). split; [reflexivity|].
      apply list_elem_of_filter. split; [exact I|]. now apply listdir_complete.
Qed.

(** A chain of directories is shorter than the file system has entries. *)
Lemma chain_length (fs : filesystem) (top rel : Path) :
  (forall k, (k <= length rel)%nat -> isdir fs (top ++ take k rel) = true) ->
  (length rel < size fs)%nat.
Proof.
  intros Hchain. set (mk := fun k : nat => top ++ take k rel).
  assert (NoDup (mk <$> seq 0 (S (length rel)))) as Hnd.
  { apply NoDup_fmap_2_strong; [|apply NoDup_seq].
    intros i j Hi Hj E. apply elem_of_seq in Hi, Hj. unfold mk in E.
    apply app_inv_head in E. apply (f_equal (@length string)) in E.
    rewrite !length_take in E. lia. }
  assert (list_to_set (mk <$> seq 0 (S (length rel))) ⊆ dom fs) as Hsub.
  { intros p Hp. apply elem_of_list_to_set, list_elem_of_fmap in Hp as (j & -> & Hj).
    apply elem_of_seq in Hj. apply elem_of_dom.
    destruct (isdir_lookup fs (mk j) (Hchain j ltac:(lia))) as [t E]. eauto. }
  apply subseteq_size in Hsub.
  rewrite size_list_to_set, length_fmap, length_seq, size_dom in Hsub by exact Hnd.
  lia.
Qed.

(** X10: [collect_files] discovers exactly the entries below the base
    directory that are reached from it through directories, are not
    directories themselves (regular files and links, dangling ones
    included) and have a supported extension, in any letter case; and it
    lists each of them once. *)
Theorem collect_files_discovers (fs : filesystem) (base_dir p : Path) :
  (In p (collect_files fs base_dir) <->
   exists rel file_name n,
     p = (base_dir ++ rel) // file_name
     /\ (forall k, (k <= length rel)%nat -> isdir fs (base_dir ++ take k rel) = true)
     /\ fs !! p = Some n /\ is_dir_node n = false
     /\ supported (Str.lower (suffix p)) = true)
  /\ NoDup (collect_files fs base_dir).
Proof.
  split; [|apply collect_files_NoDup]. rewrite <- list_elem_of_In. split.
  - intros H. destruct (collect_files_sound fs base_dir p H) as (Hs & n & Hn & Hnn).
    unfold collect_files in H.
    apply list_elem_of_bind in H as ([[root dirnames] filenames] & H & Hwalk).
    apply list_elem_of_bind in H as (f & H & Hf).
    destruct (supported (Str.lower (suffix [f]))); [|inversion H].
    apply list_elem_of_singleton in H as ->.
    apply os_walk_chain in Hwalk as (rel & Hroot & Hchain). cbn [fst] in Hroot. subst root.
    exists rel, f, n. auto.
  - intros (rel & file_name & n & -> & Hchain & Hn & Hnn & Hs).
    unfold collect_files. apply list_elem_of_bind.
    eexists (base_dir ++ rel, _, _). split.
    2:{ apply (os_walk_reaches fs rel); [|exact Hchain].
        pose proof (chain_length fs base_dir rel Hchain). lia. }
    apply list_elem_of_bind. exists file_name. split.
    + rewrite suffix_div in Hs. rewrite Hs. now apply list_elem_of_singleton.
    + apply list_elem_of_fmap. exists (file_name, n). split; [reflexivity|].
      apply list_elem_of_filter. split; [cbn [snd]; now rewrite Hnn|]. now apply listdir_complete.
Qed.

Lemma collect_files_discovers_witness :
  In ["in"; "dangling.jpg"] (collect_files with_broken_link ["in"]).
Proof.
  apply (collect_files_discovers with_broken_link ["in"] ["in"; "dangling.jpg"]).
  exists [], "dangling.jpg", BrokenLink. split; [reflexivity|]. split.
  - intros k Hk. replace k with 0%nat by (cbn in Hk; lia). vm_compute. reflexivity.
  - by_evaluation.
Defined.

(** ** The progress bar and the summary *)

Lemma run_pool_length {A : Type} (worker : A -> M (option string)) (args : list A)
  (fs : filesystem) :
  length (fst (run_pool worker args fs)) = length args.
Proof.
  revert fs. induction args as [|a args IH]; intros fs; [reflexivity|].
  cbn [run_pool]. destruct (worker a fs) as [r fs1]. specialize (IH fs1).
  destruct (run_pool worker args fs1) as [rs fs2]. cbn [fst length] in *. now rewrite IH.
Qed.

(** The loop over the futures advances the bar once for each result it
    takes, writes at most one line for each, and stops at the first
    future that raises. *)
Lemma collect_results_accounting (futures : list (result (option string)))
  (out : list string) (done : nat) :
  exists lines,
    stdout (collect_results futures out done) = out ++ lines
    /\ (length lines + done <= progress (collect_results futures out done))%nat
    /\ (progress (collect_results futures out done) <= done + length futures)%nat
    /\ (raised (collect_results futures out done) = None
        <-> progress (collect_results futures out done) = (done + length futures)%nat).
Proof.
  revert out done. induction futures as [|[r|e] futures IH]; intros out done.
  - exists []. cbn. rewrite app_nil_r, Nat.add_0_r. repeat split; auto.
  - cbn [collect_results length].
    assert (exists first, (length first <= 1)%nat
                          /\ match r with
                             | Some line =>
                                 if String.eqb line EmptyString then out else out ++ [line]
                             | None => out
                             end = out ++ first) as (first & Hfirst & Hstep).
    { destruct r as [line|]; [destruct (String.eqb line EmptyString)|].
      - exists []. rewrite app_nil_r. split; [cbn; lia | reflexivity].
      - exists [line]. split; [cbn; lia | reflexivity].
      - exists []. rewrite app_nil_r. split; [cbn; lia | reflexivity]. }
    rewrite Hstep. destruct (IH (out ++ first) (S done)) as (lines & Hout & Hlen & Hle & Hiff).
    exists (first ++ lines). rewrite Hout, <- app_assoc, length_app.
    split; [reflexivity|]. split; [lia|]. split; [lia|].
    rewrite Hiff. lia.
  - exists []. cbn. rewrite app_nil_r. split; [reflexivity|]. split; [lia|]. split; [lia|].
    split; [discriminate | lia].
Qed.

Lemma finish_accounting (total : nat) (futures : list (result (option string)))
  (out : list string) :
  length futures = total ->
  (progress (finish total (collect_results futures out 0)) <= total)%nat
  /\ (raised (finish total (collect_results futures out 0)) = None
      <-> progress (finish total (collect_results futures out 0)) = total)
  /\ (raised (finish total (collect_results futures out 0)) = None ->
      exists lines,
        stdout (finish total (collect_results futures out 0))
        = lines ++ [EmptyString; "✓ Completed: " +:+ pretty total +:+ "/" +:+ pretty total
                                   +:+ " files processed"]).
Proof.
  intros Hlen. destruct (collect_results_accounting futures out 0)
    as (lines & Hout & _ & Hle & Hiff).
  rewrite Hlen in Hle, Hiff. cbn [Nat.add] in Hle, Hiff. unfold finish.
  destruct (raised (collect_results futures out 0)) as [e|] eqn:Hr.
  - rewrite Hr. split; [exact Hle|]. split; [exact Hiff | discriminate].
  - cbn [progress raised stdout]. split; [exact Hle|]. split; [exact Hiff|]. eauto.
Qed.

Lemma rename_report (directory : Path) (dry_run : bool) (fs : filesystem) :
  fst (rename directory dry_run fs)
  = if (length (collect_files fs directory) =? 0)%nat
    then Report ["No supported files found."] 0 None
    else finish (length (collect_files fs directory))
           (collect_results
              (fst (run_pool rename_file_worker
                      (map (fun f => (f, dry_run)) (collect_files fs directory)) fs))
              (if dry_run
               then ["Found " +:+ pretty (length (collect_files fs directory))
                       +:+ " files to process..."; "DRY RUN MODE - No changes will be made"]
               else ["Found " +:+ pretty (length (collect_files fs directory))
                       +:+ " files to process..."]) 0).
Proof.
  unfold rename. destruct (length (collect_files fs directory) =? 0)%nat; [reflexivity|].
  destruct (run_pool rename_file_worker _ fs). cbn [fst]. now destruct dry_run.
Qed.

Lemma organize_report (tz : Z -> Z) (now : Z) (source destination : Path)
  (dry_run copy : bool) (fs : filesystem) :
  fst (organize tz now source destination dry_run copy fs)
  = if (length (collect_files fs source) =? 0)%nat
    then Report ["No supported files found."] 0 None
    else finish (length (collect_files fs source))
           (collect_results
              (fst (run_pool (organize_file_worker tz now)
                      (map (fun f => (f, destination, dry_run, copy))
                           (collect_files fs source)) fs))
              ((if dry_run
                then ["Found " +:+ pretty (length (collect_files fs source))
                        +:+ " files to organize..."; "Source: " +:+ str source;
                      "Destination: " +:+ str destination;
                      "DRY RUN MODE - No changes will be made"]
                else ["Found " +:+ pretty (length (collect_files fs source))
                        +:+ " files to organize..."; "Source: " +:+ str source;
                      "Destination: " +:+ str destination])
                 ++ ["Action: " +:+ (if copy then "Copying" else "Moving") +:+ " files";
                     EmptyString]) 0).
Proof.
  unfold organize. destruct (length (collect_files fs source) =? 0)%nat; [reflexivity|].
  destruct (run_pool (organize_file_worker tz now) _ fs). cbn [fst]. now destruct dry_run.
Qed.

(** X11: the progress bar never passes the number of discovered files
    and reaches it exactly when no worker raised; the run then ends with
    an empty line and [Completed: total/total files processed], where
    total is the number of files discovered, whatever the workers
    reported about them; with no supported file the only output is
    [No supported files found.]. *)
Theorem progress_accounting (tz : Z -> Z) (now : Z) (fs : filesystem) :
  (forall directory dry_run,
      let r := fst (rename directory dry_run fs) in
      let total := length (collect_files fs directory) in
      (progress r <= total)%nat
      /\ (raised r = None <-> progress r = total)
      /\ (total = 0%nat -> r = Report ["No supported files found."] 0 None)
      /\ (total <> 0%nat -> raised r = None ->
          exists lines,
            stdout r = lines ++ [EmptyString;
                                 "✓ Completed: " +:+ pretty total +:+ "/" +:+ pretty total
                                   +:+ " files processed"]))
  /\ (forall source destination dry_run copy,
        let r := fst (organize tz now source destination dry_run copy fs) in
        let total := length (collect_files fs source) in
        (progress r <= total)%nat
        /\ (raised r = None <-> progress r = total)
        /\ (total = 0%nat -> r = Report ["No supported files found."] 0 None)
        /\ (total <> 0%nat -> raised r = None ->
            exists lines,
              stdout r = lines ++ [EmptyString;
                                   "✓ Completed: " +:+ pretty total +:+ "/" +:+ pretty total
                                     +:+ " files processed"])).
Proof.
  split.
  - intros directory dry_run. cbv zeta. rewrite rename_report.
    destruct (Nat.eqb_spec (length (collect_files fs directory)) 0) as [E|E].
    + rewrite E. cbn. repeat split; auto. intros H. now contradiction H.
    + destruct (finish_accounting (length (collect_files fs directory))
                  (fst (run_pool rename_file_worker
                          (map (fun f => (f, dry_run)) (collect_files fs directory)) fs))
                  (if dry_run
                   then ["Found " +:+ pretty (length (collect_files fs directory))
                           +:+ " files to process...";
                         "DRY RUN MODE - No changes will be made"]
                   else ["Found " +:+ pretty (length (collect_files fs directory))
                           +:+ " files to process..."]))
        as (Hle & Hiff & Hdone).
      { now rewrite run_pool_length, length_map. }
      split; [exact Hle|]. split; [exact Hiff|]. split; [intros E0; contradiction|].
      intros _. exact Hdone.
  - intros source destination dry_run copy. cbv zeta. rewrite organize_report.
    destruct (Nat.eqb_spec (length (collect_files fs source)) 0) as [E|E].
    + rewrite E. cbn. repeat split; auto. intros H. now contradiction H.
    + match goal with
      | |- context [finish ?t (collect_results ?fu ?out 0)] =>
          destruct (finish_accounting t fu out) as (Hle & Hiff & Hdone)
      end.
      { now rewrite run_pool_length, length_map. }
      split; [exact Hle|]. split; [exact Hiff|]. split; [intros E0; contradiction|].
      intros _. exact Hdone.
Qed.

(** ** The number of regular files *)

Lemma regular_files_lookup (fs : filesystem) (p : Path) (n : node) :
  regular_files fs !! p = Some n <-> fs !! p = Some n /\ is_file_node n = true.
Proof. unfold regular_files. apply map_lookup_filter_Some. Qed.

Lemma regular_files_absent (fs : filesystem) (p : Path) :
  (forall n, fs !! p = Some n -> is_file_node n = false) -> regular_files fs !! p = None.
Proof.
  intros H. destruct (regular_files fs !! p) as [n|] eqn:E; [|reflexivity].
  apply regular_files_lookup in E as [E Hn]. rewrite (H n E) in Hn. discriminate Hn.
Qed.

Lemma regular_files_free (fs : filesystem) (p : Path) :
  path_exists fs p = false -> regular_files fs !! p = None.
Proof.
  intros H. apply regular_files_absent. intros n Hn.
  now rewrite (broken_link_of_missing fs p n H Hn).
Qed.

(** An entry that changes place, to a path that did not exist, leaves
    the number of regular files as it was. *)
Lemma moved_count (fs : filesystem) (src dst : Path) (n : node) :
  fs !! src = Some n -> src <> dst -> path_exists fs dst = false ->
  size (regular_files (<[dst := n]> (delete src fs))) = size (regular_files fs).
Proof.
  intros Hsrc Hne Hdst. pose proof (regular_files_free fs dst Hdst) as Hfree.
  unfold regular_files in *. destruct (is_file_node n) eqn:Hn.
  - rewrite map_filter_insert_True by exact Hn. rewrite map_filter_delete.
    rewrite map_size_insert_None by (rewrite lookup_delete_ne by exact Hne; exact Hfree).
    rewrite map_size_delete_Some.
    + assert (size (filter (fun e : Path * node => is_file_node e.2 = true) fs) <> 0%nat).
      { apply map_size_ne_0_lookup_2 with src. exists n.
        apply map_lookup_filter_Some. auto. }
      lia.
    + exists n. apply map_lookup_filter_Some. auto.
  - rewrite map_filter_insert_False by (cbn; congruence).
    rewrite !map_filter_delete, !map_size_delete_None; [reflexivity| |].
    + apply map_lookup_filter_None. right. intros n' Hn'. cbn. congruence.
    + rewrite lookup_delete_ne by exact Hne. exact Hfree.
Qed.

(** A file copied to a path that did not exist adds one. *)
Lemma copied_count (fs : filesystem) (dst : Path) (f : file_data) :
  path_exists fs dst = false ->
  size (regular_files (<[dst := File f]> fs)) = S (size (regular_files fs)).
Proof.
  intros Hdst. pose proof (regular_files_free fs dst Hdst) as Hfree.
  unfold regular_files in *. rewrite map_filter_insert_True by reflexivity.
  now rewrite map_size_insert_None by exact Hfree.
Qed.

(** Creating directories adds no regular file. *)
Lemma mkdir_regular_files (now : Z) (dir : Path) (fs fs1 : filesystem) :
  mkdir_parents now dir fs = Ok fs1 -> regular_files fs1 = regular_files fs.
Proof.
  intros H. apply map_eq. intros q. apply option_eq. intros n.
  rewrite !regular_files_lookup.
  destruct (mkdir_parents_effect _ _ _ _ H q) as [->|(Hq & _ & Hq1)]; [reflexivity|].
  rewrite Hq, Hq1. split; intros [E Hn]; [|discriminate E].
  injection E as <-. discriminate Hn.
Qed.

Lemma rename_worker_count (fs : filesystem) (path : Path) (dry_run : bool) :
  isdir fs path = false ->
  size (regular_files (snd (rename_file_worker (path, dry_run) fs)))
  = size (regular_files fs).
Proof.
  intros Hnd. destruct (supported (Str.lower (suffix path))) eqn:Hs.
  2:{ now rewrite rename_file_worker_unsupported by exact Hs. }
  rewrite (rename_file_worker_unfold _ _ _ Hs).
  destruct (with_name path (synthesized_name fs path)) as [candidate|e] eqn:Hw;
    [|reflexivity].
  destruct (rename_duplicates fs path candidate _) as [new_path|e] eqn:Hdup; [|reflexivity].
  destruct dry_run; [reflexivity|].
  destruct (rename_target fs path candidate new_path Hs Hw Hdup) as [Hfree _].
  destruct (shutil_move path new_path fs) as [fs'|e] eqn:Hmove; [|reflexivity]. cbn [snd].
  destruct (shutil_move_effect _ _ _ _ Hnd Hfree Hmove) as [->|(n & Hn & _ & Hne & ->)];
    [reflexivity|].
  now apply moved_count.
Qed.

Section Counting.

Variable tz : Z -> Z.
Variable now : Z.

Lemma organize_worker_count (fs : filesystem) (path output_dir : Path)
  (dry_run copy_mode : bool) :
  isdir fs path = false ->
  (size (regular_files fs)
   <= size (regular_files
              (snd (organize_file_worker tz now (path, output_dir, dry_run, copy_mode) fs))))%nat
  /\ (copy_mode = false ->
      size (regular_files
              (snd (organize_file_worker tz now (path, output_dir, dry_run, copy_mode) fs)))
      = size (regular_files fs)).
Proof.
  intros Hnd. destruct (supported (Str.lower (suffix path))) eqn:Hs.
  2:{ rewrite organize_file_worker_unsupported by exact Hs. auto. }
  rewrite (organize_file_worker_unfold _ _ _ _ _ _ _ Hs), organize_target_unfold.
  destruct (date_result tz fs path) as [dt|e] eqn:Hd; [|auto]. cbv zeta.
  destruct (organize_duplicates fs (date_dir output_dir dt) _ _) as [target|e] eqn:Hdup;
    [|auto].
  destruct (organize_target_supported fs _ path target Hs Hdup)
    as (Hfree & _ & file_name & ->).
  destruct dry_run.
  { destruct (relative_to _ _); auto. }
  destruct (mkdir_parents now (date_dir output_dir dt) fs) as [fs1|e] eqn:Hmk; [|auto].
  pose proof (mkdir_regular_files _ _ _ _ Hmk) as Hsame.
  assert (path_exists fs1 (date_dir output_dir dt // file_name) = false) as Hfree1.
  { unfold path_exists. rewrite (mkdir_entry_same _ _ _ _ _ Hmk). exact Hfree. }
  assert (isdir fs1 path = false) as Hnd1.
  { destruct (mkdir_parents_effect _ _ _ _ Hmk path) as [E|(E & _)].
    - unfold isdir in *. now rewrite E.
    - exfalso. unfold date_result in Hd.
      rewrite (get_file_datetime_absent _ _ E) in Hd.
      unfold stat_mtime in Hd. rewrite E in Hd. discriminate Hd. }
  destruct copy_mode.
  - destruct (shutil_copy2 path _ fs1) as [fs2|e] eqn:Hcp;
      [|cbn [snd]; rewrite Hsame; split; [lia | discriminate]].
    destruct (shutil_copy2_effect _ _ _ _ Hfree1 Hcp) as (f' & _ & _ & ->).
    assert (size (regular_files fs)
            <= size (regular_files (<[date_dir output_dir dt // file_name := File f']> fs1)))%nat.
    { rewrite (copied_count fs1 _ f' Hfree1), Hsame. lia. }
    destruct (relative_to _ _); cbn [snd]; (split; [assumption | discriminate]).
  - destruct (shutil_move path _ fs1) as [fs2|e] eqn:Hmv;
      [|cbn [snd]; rewrite Hsame; split; [lia | reflexivity]].
    assert (size (regular_files fs2) = size (regular_files fs)) as Hfs2.
    { destruct (shutil_move_effect _ _ _ _ Hnd1 Hfree1 Hmv) as [->|(n & Hn & _ & Hne & ->)].
      - now rewrite Hsame.
      - rewrite (moved_count fs1 path _ n Hn Hne Hfree1). now rewrite Hsame. }
    destruct (relative_to _ _); cbn [snd]; rewrite Hfs2; (split; [lia | reflexivity]).
Qed.

(** X14: the number of regular files. The rename worker and the moving
    organize worker, on a path that is not a directory, leave it as it
    was, and the copying organize worker never lowers it; the same holds
    after the tasks for all the discovered files have run one after the
    other, as [run_pool] runs them. Tasks that overlap in time are not
    covered. *)
Theorem file_count_preserved (fs : filesystem) :
  (forall path dry_run,
      isdir fs path = false ->
      size (regular_files (snd (rename_file_worker (path, dry_run) fs)))
      = size (regular_files fs))
  /\ (forall path output_dir dry_run,
        isdir fs path = false ->
        size (regular_files
                (snd (organize_file_worker tz now (path, output_dir, dry_run, false) fs)))
        = size (regular_files fs))
  /\ (forall path output_dir dry_run,
        isdir fs path = false ->
        (size (regular_files fs)
         <= size (regular_files
                    (snd (organize_file_worker tz now (path, output_dir, dry_run, true) fs))))%nat)
  /\ (forall directory dry_run,
        size (regular_files
                (snd (run_pool rename_file_worker
                        (map (fun f => (f, dry_run)) (collect_files fs directory)) fs)))
        = size (regular_files fs))
  /\ (forall source destination dry_run,
        size (regular_files
                (snd (run_pool (organize_file_worker tz now)
                        (map (fun f => (f, destination, dry_run, false))
                             (collect_files fs source)) fs)))
        = size (regular_files fs))
  /\ (forall source destination dry_run,
        (size (regular_files fs)
         <= size (regular_files
                    (snd (run_pool (organize_file_worker tz now)
                            (map (fun f => (f, destination, dry_run, true))
                                 (collect_files fs source)) fs))))%nat).
Proof.
  split; [intros path dry_run; apply rename_worker_count|].
  split.
  { intros path output_dir dry_run Hnd.
    now apply (organize_worker_count fs path output_dir dry_run false Hnd). }
  split.
  { intros path output_dir dry_run Hnd.
    apply (organize_worker_count fs path output_dir dry_run true Hnd). }
  split; [|split].
  - intros directory dry_run.
    destruct (collected_args fs directory (fun f => (f, dry_run)) fst) as [Hargs Hnd];
      [reflexivity|].
    apply (run_pool_invariant rename_file_worker fst
             (fun fs' : filesystem => size (regular_files fs') = size (regular_files fs))
             (fun _ => True)); try assumption; [| |reflexivity].
    + intros [path dry] fs' Ha Hdir%entry_not_dir. cbn [fst]. split.
      * now apply rename_worker_keeps_others.
      * intros <-. split; [|exact I]. now apply rename_worker_count.
    + intros a Ha. apply Hargs, Ha.
  - intros source destination dry_run.
    destruct (collected_args fs source (fun f => (f, destination, dry_run, false))
                (fun a => a.1.1.1)) as [Hargs Hnd]; [reflexivity|].
    apply (run_pool_invariant (organize_file_worker tz now) (fun a => a.1.1.1)
             (fun fs' : filesystem => size (regular_files fs') = size (regular_files fs))
             (fun _ => True)); try assumption; [| |reflexivity].
    + intros [[[path out] dry] cp] fs' Ha Hdir%entry_not_dir. cbn [fst].
      apply in_map_iff in Ha as (p0 & [= <- <- <- <-] & _). split.
      * now apply organize_worker_keeps_others.
      * intros <-. split; [|exact I]. now apply organize_worker_count.
    + intros a Ha. apply Hargs, Ha.
  - intros source destination dry_run.
    destruct (collected_args fs source (fun f => (f, destination, dry_run, true))
                (fun a => a.1.1.1)) as [Hargs Hnd]; [reflexivity|].
    apply (run_pool_invariant (organize_file_worker tz now) (fun a => a.1.1.1)
             (fun fs' : filesystem => (size (regular_files fs) <= size (regular_files fs'))%nat)
             (fun _ => True)); try assumption; [| |reflexivity].
    + intros [[[path out] dry] cp] fs' Ha Hdir%entry_not_dir. cbn [fst]. split.
      * now apply organize_worker_keeps_others.
      * intros Hle. split; [|exact I].
        destruct (organize_worker_count fs' path out dry cp Hdir) as [Hstep _]. lia.
    + intros a Ha. apply Hargs, Ha.
Qed.

End Counting.

(** The twins stay two files. *)
Example twins_stay_two :
  size (regular_files twins) = 2%nat
  /\ size (regular_files (snd (rename [] false twins))) = 2%nat.
Proof. by_evaluation. Qed.

(** ** From the EXIF text to the name *)

Lemma re_Y_head (y : Z) (rest : string) :
  (0 <= y <= 9999)%Z -> DateTime.re_Y (DateTime.pad4 y +:+ rest) = [(y, rest)].
Proof.
  intros Hy. unfold DateTime.re_Y, DateTime.group. cbn [flat_map app].
  assert (DateTime.match_seq [DateTime.d; DateTime.d; DateTime.d; DateTime.d]
            (DateTime.pad4 y +:+ rest) = Some (DateTime.pad4 y, rest)) as ->.
  { unfold DateTime.pad4, DateTime.pad2. rewrite !append_cons, append_nil_l.
    cbn [DateTime.match_seq]. unfold DateTime.d. now rewrite !digit_is_digit. }
  now rewrite int_of_pad4 by lia.
Qed.

(** On two digits each group of the pattern takes both, first. *)
Ltac two_digits n :=
  let k := fresh "k" in
  remember (Z.to_nat n) as k eqn:Hk;
  assert (n = Z.of_nat k) as -> by lia; clear Hk;
  do 60 (destruct k as [|k]; [try (exfalso; lia); vm_compute; reflexivity|]);
  exfalso; lia.

Lemma re_m_head (n : Z) (rest : string) :
  (1 <= n <= 12)%Z ->
  DateTime.re_m (DateTime.pad2 n +:+ rest)
  = (n, rest) :: tl (DateTime.re_m (DateTime.pad2 n +:+ rest)).
Proof. intros H. two_digits n. Qed.

Lemma re_d_head (n : Z) (rest : string) :
  (1 <= n <= 31)%Z ->
  DateTime.re_d (DateTime.pad2 n +:+ rest)
  = (n, rest) :: tl (DateTime.re_d (DateTime.pad2 n +:+ rest)).
Proof. intros H. two_digits n. Qed.

Lemma re_H_head (n : Z) (rest : string) :
  (0 <= n <= 23)%Z ->
  DateTime.re_H (DateTime.pad2 n +:+ rest)
  = (n, rest) :: tl (DateTime.re_H (DateTime.pad2 n +:+ rest)).
Proof. intros H. two_digits n. Qed.

Lemma re_M_head (n : Z) (rest : string) :
  (0 <= n <= 59)%Z ->
  DateTime.re_M (DateTime.pad2 n +:+ rest)
  = (n, rest) :: tl (DateTime.re_M (DateTime.pad2 n +:+ rest)).
Proof. intros H. two_digits n. Qed.

Lemma re_S_head (n : Z) (rest : string) :
  (0 <= n <= 59)%Z ->
  DateTime.re_S (DateTime.pad2 n +:+ rest)
  = (n, rest) :: tl (DateTime.re_S (DateTime.pad2 n +:+ rest)).
Proof. intros H. two_digits n. Qed.

Lemma spaces_head (n : Z) (rest : string) :
  (0 <= n <= 59)%Z ->
  DateTime.spaces (" " +:+ DateTime.pad2 n +:+ rest) = [DateTime.pad2 n +:+ rest].
Proof. intros H. two_digits n. Qed.

Lemma bind_head {A B : Type} (l : list A) (k : A -> list B) (x : A) (tail : list A)
  (y : B) (tail' : list B) :
  l = x :: tail -> k x = y :: tail' -> (l ≫= k) = y :: (tail' ++ (tail ≫= k)).
Proof. intros -> Hk. cbn. now rewrite Hk. Qed.

(** The constructor rebuilds a date from its fields. *)
Lemma make_fields (dt : DateTime.datetime) :
  DateTime.make (DateTime.year dt) (DateTime.month dt) (DateTime.day dt)
                (DateTime.hour dt) (DateTime.minute dt) (DateTime.second dt) = Some dt.
Proof.
  destruct dt as [y m d H M S ok]. cbn. unfold DateTime.make.
  destruct (Bool.bool_dec _ true) as [ok'|no]; [|contradiction].
  do 2 f_equal. apply UIP_dec, Bool.bool_dec.
Qed.

(** Parsing the text of a date gives the date back. *)
Lemma strptime_exif_text (dt : DateTime.datetime) :
  DateTime.strptime_exif (exif_date_text dt) = Some dt.
Proof.
  pose proof (datetime_ranges dt) as (Hy & Hm & Hd & HH & HM & HS).
  unfold exif_date_text, DateTime.strptime_exif.
  erewrite bind_head; cycle 1.
  - apply re_Y_head; lia.
  - cbv beta iota. eapply bind_head; [reflexivity|].
    eapply bind_head; [apply re_m_head; lia|]. cbv beta iota.
    eapply bind_head; [reflexivity|].
    eapply bind_head; [apply re_d_head; lia|]. cbv beta iota.
    eapply bind_head; [apply spaces_head; lia|].
    eapply bind_head; [apply re_H_head; lia|]. cbv beta iota.
    eapply bind_head; [reflexivity|].
    eapply bind_head; [apply re_M_head; lia|]. cbv beta iota.
    eapply bind_head; [reflexivity|].
    eapply bind_head; [apply (re_S_head _ EmptyString); lia|]. cbv beta iota.
    reflexivity.
  - cbv beta iota. apply make_fields.
Qed.

(** X15: the digits of an EXIF date reach the name. For a readable photo
    whose [getexif()] mapping holds the text [YYYY:MM:DD HH:MM:SS] of a
    date under key 36867 or, without that key, under key 306, the parser
    returns that date, the synthesized name starts with the date printed
    as [%Y%m%d_%H%M%S] and [_A_], which is [YYYYMMDD_HHMMSS_A_] for the
    same digits from the year 1000 on, and [organize] files it under that
    date. An entry of the Exif directory is not in that mapping and is not
    read. *)
Theorem exif_timestamp_reaches_name (tz : Z -> Z) (fs : filesystem) (path : Path)
  (f : file_data) (exif : gmap Z exif_value) (dt : DateTime.datetime) :
  Str.lower (suffix path) ∈ ({[ ".jpg"; ".jpeg"; ".png"; ".heic" ]} : gset string) ->
  fs !! path = Some (File f) -> readable f = true -> pil_exif f = Some exif ->
  exif !! 36867%Z = Some (EStr (exif_date_text dt))
  \/ (exif !! 36867%Z = None /\ exif !! 306%Z = Some (EStr (exif_date_text dt))) ->
  DateTime.strptime_exif (exif_date_text dt) = Some dt
  /\ fst (get_file_datetime fs path) = Some dt
  /\ (exists rest,
        synthesized_name fs path
        = DateTime.year_digits (DateTime.year dt) +:+ DateTime.pad2 (DateTime.month dt)
          +:+ DateTime.pad2 (DateTime.day dt) +:+ "_" +:+ DateTime.pad2 (DateTime.hour dt)
          +:+ DateTime.pad2 (DateTime.minute dt) +:+ DateTime.pad2 (DateTime.second dt)
          +:+ "_A_" +:+ rest)
  /\ ((1000 <= DateTime.year dt)%Z ->
      exists rest,
        synthesized_name fs path
        = DateTime.pad4 (DateTime.year dt) +:+ DateTime.pad2 (DateTime.month dt)
          +:+ DateTime.pad2 (DateTime.day dt) +:+ "_" +:+ DateTime.pad2 (DateTime.hour dt)
          +:+ DateTime.pad2 (DateTime.minute dt) +:+ DateTime.pad2 (DateTime.second dt)
          +:+ "_A_" +:+ rest)
  /\ date_result tz fs path = Ok dt.
Proof.
  intros Hext Hf Hr Hexif Htag.
  assert (fst (get_file_datetime fs path) = Some dt) as Hdt.
  { unfold get_file_datetime. destruct (decide _); [|contradiction].
    pose proof (get_exif_datetime_cases fs path) as H. unfold image_getexif in H.
    rewrite Hf, Hr, Hexif in H. cbv zeta in H.
    destruct (decide (exif = ∅)) as [->|_].
    { destruct Htag as [Htag|[_ Htag]]; rewrite lookup_empty in Htag; discriminate Htag. }
    assert ((match exif !! 36867%Z with Some v => Some v | None => exif !! 306%Z end)
            = Some (EStr (exif_date_text dt))) as Hv.
    { destruct Htag as [->|[-> ->]]; reflexivity. }
    rewrite Hv in H. unfold strptime_tag in H. rewrite strptime_exif_text in H.
    now rewrite H. }
  assert (exists rest,
            synthesized_name fs path
            = DateTime.year_digits (DateTime.year dt) +:+ DateTime.pad2 (DateTime.month dt)
              +:+ DateTime.pad2 (DateTime.day dt) +:+ "_" +:+ DateTime.pad2 (DateTime.hour dt)
              +:+ DateTime.pad2 (DateTime.minute dt) +:+ DateTime.pad2 (DateTime.second dt)
              +:+ "_A_" +:+ rest) as Hname.
  { rewrite synthesized_name_unfold, Hdt. cbn [confidence_and_date fst snd].
    rewrite strftime_stamp. eexists. rewrite !append_assoc. reflexivity. }
  split; [apply strptime_exif_text|]. split; [exact Hdt|]. split; [exact Hname|]. split.
  - intros Hyear. rewrite <- (year_digits_padded _ Hyear). exact Hname.
  - unfold date_result. now rewrite Hdt.
Qed.

Lemma exif_timestamp_reaches_name_witness :
  DateTime.strptime_exif "2024:01:23 10:15:30" = Some (DateTime.DT 2024 1 23 10 15 30 eq_refl)
  /\ exists rest,
       synthesized_name pixel7_datetime_jpg ["in"; "IMG_1.JPG"] = "20240123_101530_A_" +:+ rest.
Proof.
  destruct (exif_timestamp_reaches_name utc pixel7_datetime_jpg ["in"; "IMG_1.JPG"]
              {| content := list_byte_of_string "abc"; readable := true;
                 st_mtime := 1706004930000000;
                 pil_exif := Some (list_to_map [ (306%Z, EStr "2024:01:23 10:15:30");
                                                 (272%Z, EStr "Pixel 7");
                                                 (34665%Z, EOther "58") ]);
                 exif_sub_ifd := {[ 36867%Z := EStr "2024:01:23 10:15:30" ]};
                 hachoir := NoParser |}
              (list_to_map [ (306%Z, EStr "2024:01:23 10:15:30"); (272%Z, EStr "Pixel 7");
                             (34665%Z, EOther "58") ])
              (DateTime.DT 2024 1 23 10 15 30 eq_refl))
    as (Hparse & _ & _ & Hname & _).
  - vm_compute. set_solver.
  - vm_compute. reflexivity.
  - reflexivity.
  - reflexivity.
  - right. split; vm_compute; reflexivity.
  - split; [exact Hparse|]. destruct Hname as [rest Hname]; [cbn; lia|].
    exists rest. exact Hname.
Defined.

(** ** What a dry run does not show *)




